(** * can-you: the command-execution orchestration loop

    A shallow embedding of [core/executor.py] (class [CommandExecutor]),
    [core/llm_client.py] (class [LLMClient]) and the page of [ui/app.py],
    with the properties of the repository's specification proved about it.

    Python text is modelled by [string]; values decoded from JSON by [json];
    the mutable objects (the client's conversation history, the outside world,
    everything written to standard output or asked of a collaborator) by an
    explicit [state] threaded through a state-and-exception monad [M]. *)

From Stdlib Require Import String Ascii List ZArith Bool Arith Lia DecimalString.
Import ListNotations.
Open Scope string_scope.
Set Warnings "-register-all".

(** ** Python strings *)

(** [sub in s] at position 0. *)
Definition starts_with (sub s : string) : bool := String.prefix sub s.

(** [s.find(sub)]: the index of the first occurrence of [sub], if any. *)
Fixpoint str_find (sub s : string) : option nat :=
  if starts_with sub s then Some 0
  else match s with
       | EmptyString => None
       | String _ s' => option_map S (str_find sub s')
       end.

(** [sub in s]. *)
Definition str_in (sub s : string) : bool :=
  match str_find sub s with Some _ => true | None => false end.

(** [s[:n]] and [s[n:]]. *)
Fixpoint str_take (n : nat) (s : string) : string :=
  match n, s with
  | S k, String c s' => String c (str_take k s')
  | _, _ => EmptyString
  end.

Fixpoint str_drop (n : nat) (s : string) : string :=
  match n, s with
  | S k, String _ s' => str_drop k s'
  | _, _ => s
  end.

(** [s.split(sep)] for a non-empty [sep]: the pieces between the successive,
    non-overlapping occurrences of [sep], found from the left.  The fuel
    bounds the number of cuts; [length s] is always enough. *)
Fixpoint split_fuel (fuel : nat) (sep s : string) : list string :=
  match fuel with
  | O => [s]
  | S fuel' =>
      match str_find sep s with
      | None => [s]
      | Some i => str_take i s :: split_fuel fuel' sep (str_drop (i + String.length sep) s)
      end
  end.

Definition split (sep s : string) : list string :=
  split_fuel (String.length s) sep s.

(** [c.isspace()] on the 8-bit alphabet: tab, line feed, vertical tab, form
    feed, carriage return, the four separators 28..31, space, NEL (133) and
    the no-break space (160). *)
Definition isspace (c : ascii) : bool :=
  let n := nat_of_ascii c in
  (((9 <=? n) && (n <=? 13)) || ((28 <=? n) && (n <=? 32)) || (n =? 133) || (n =? 160))%nat.

Fixpoint lstrip (s : string) : string :=
  match s with
  | String c s' => if isspace c then lstrip s' else s
  | EmptyString => EmptyString
  end.

Fixpoint rstrip (s : string) : string :=
  match s with
  | EmptyString => EmptyString
  | String c s' =>
      match rstrip s' with
      | EmptyString => if isspace c then EmptyString else String c EmptyString
      | r => String c r
      end
  end.

(** [s.strip()]. *)
Definition strip (s : string) : string := rstrip (lstrip s).

(** [c.lower()] on the 8-bit alphabet: A..Z, and the accented capitals
    192..222 but for the multiplication sign 215. *)
Definition lower_char (c : ascii) : ascii :=
  let n := nat_of_ascii c in
  if (((65 <=? n) && (n <=? 90)) || ((192 <=? n) && (n <=? 222) && negb (n =? 215)))%nat
  then ascii_of_nat (n + 32) else c.

(** [s.lower()]. *)
Fixpoint lower (s : string) : string :=
  match s with
  | EmptyString => EmptyString
  | String c s' => String (lower_char c) (lower s')
  end.

(** ** Python values decoded from JSON *)

(** What [json.loads] can return: [None], a bool, an int, a float, a str, a
    list or a dict.  A dict is kept as its items in insertion order, with
    distinct keys.  A float is kept as its literal text: only whether it is
    zero is ever asked of it. *)
Inductive json : Type :=
| JNull
| JBool (b : bool)
| JInt (z : Z)
| JFloat (nonzero : bool) (literal : string)
| JStr (s : string)
| JArr (items : list json)
| JObj (items : list (string * json)).

(** [bool(v)]: Python's truth value. *)
Definition truthy (v : json) : bool :=
  match v with
  | JNull => false
  | JBool b => b
  | JInt z => negb (z =? 0)%Z
  | JFloat nz _ => nz
  | JStr s => negb (s =? "")
  | JArr l => match l with [] => false | _ => true end
  | JObj l => match l with [] => false | _ => true end
  end.

(** Lookup in the items of a dict. *)
Fixpoint dict_lookup {V : Type} (k : string) (items : list (string * V)) : option V :=
  match items with
  | [] => None
  | (k', v) :: rest => if k' =? k then Some v else dict_lookup k rest
  end.

(** [d.get(k, default)] on the items of a dict. *)
Definition dict_get {V : Type} (k : string) (default : V) (items : list (string * V)) : V :=
  match dict_lookup k items with Some v => v | None => default end.

(** ** Exceptions and the monad of the program *)

(** A raised exception: its class and [str(e)]. *)
Inductive exn : Type :=
| Exn (cls : string) (msg : string).

Definition exn_class (e : exn) : string := let 'Exn c _ := e in c.
Definition exn_str (e : exn) : string := let 'Exn _ m := e in m.

Inductive result (A : Type) : Type :=
| Ok (a : A)
| Raise (e : exn).
Arguments Ok {A} a.
Arguments Raise {A} e.

(** ** Conversation turns *)

(** A Tool Call Request: [tool_call.id], [tool_call.function.name] and
    [tool_call.function.arguments] (the arguments are JSON text, not yet
    decoded). *)
Record tool_call : Type := {
  tc_id : string;
  tc_name : string;
  tc_arguments : string
}.

(** The dicts of [conversation_history] and of the [messages] sent to the
    backend, by their [role]. *)
Inductive message : Type :=
| SystemMessage (content : string)
| UserMessage (content : string)
| AssistantMessage (content : string) (tool_calls : option (list tool_call))
| ToolMessage (tool_call_id name content : string).

(** [response.choices[i].message]: its [content] (a str or [None]) and its
    [tool_calls] ([None] also when the attribute is missing: the two are told
    apart nowhere in the code). *)
Record assistant_message : Type := {
  am_content : option string;
  am_tool_calls : option (list tool_call)
}.

(** The backend's response: the messages of its [choices]. *)
Record response : Type := {
  choices : list assistant_message
}.

(** An entry of [TOOL_DEFINITIONS]. *)
Record tool_definition : Type := {
  td_name : string;
  td_description : string;
  td_properties : list (string * (string * string));
  td_required : list string
}.

(** ** What the program prints, and what it asks of its collaborators *)

(** One [print] of the program, by the statement that prints it. *)
Inductive line : Type :=
| LTask (task_description : string)
| LLLMError (e : exn)
| LAnswer (content : string)
| LMaxIterations
| LCallingTool (function_name : string) (arguments : json)
| LToolResultReceived
| LToolError (e : exn)
| LUnknownTool (function_name : string)
| LExplanation (explanation : json)
| LWarningsHeader
| LWarning (warning : json)
| LBlank
| LCommandsHeader
| LCommand (i : nat) (cmd : json)
| LDryRun
| LSafetyFailed (reason : string)
| LCancelled
| LExecuting
| LUsingShell (shell shell_type platform : string)
| LRunning (i n : nat) (cmd : json)
| LStdout (out : string)
| LStderr (err : string)
| LExitCode (returncode : Z)
| LSuccess
| LTimeout
| LError (e : exn).

Inductive delay : Type :=
| RateLimitSeconds
| ToolCallDelaySeconds.

(** The observable steps of a run, in the order they happen. *)
Inductive event : Type :=
| EPrint (l : line)
| ESleep (d : delay)
| ECompletion (messages : list message) (tools : option (list tool_definition))
| EToolCall (function_name : string) (kwargs : list (string * json))
| EValidate (cmd : json)
| EInput (prompt answer : string)
| ESubprocess (argv : list string) (timeout : Z).

(** A Safety Verdict: [safety_check['safe']] and [safety_check['reason']]. *)
Record verdict : Type := {
  safe : bool;
  reason : string
}.

(** A [subprocess.CompletedProcess]. *)
Record completed_process : Type := {
  returncode : Z;
  stdout : string;
  stderr : string
}.

(** The collaborators of the two classes: Python's [json], [input] and
    [subprocess], the [litellm] backend, and the repository's [tools]
    package, which the two classes only import.  [World] is the state of
    everything outside the process (file system, network, the user at the
    terminal).  [json_loads], [build_shell_command], a tool, the backend and
    a process may raise; the Safety Validator is a total predicate; a tool
    reads the world and returns a value that [json_dumps] can encode. *)
Class Host (World : Type) : Type := {
  json_loads : string -> result json;
  json_dumps : json -> string;
  validate_command_safety : json -> verdict;
  build_shell_command : json -> result (list string);
  get_platform_info : list (string * string);
  call_tool : string -> list (string * json) -> World -> result json;
  litellm_completion :
    list message -> option (list tool_definition) -> World -> result response * World;
  input : string -> World -> string * World;
  subprocess_run : list string -> Z -> World -> result completed_process * World;
  system_prompt : string;
  read_planner_prompt : result string
}.

(** The mutable state: [llm_client.conversation_history], the world, and the
    trace of what happened so far. *)
Record state (World : Type) : Type := {
  conversation_history : list message;
  world : World;
  trace : list event
}.
Arguments conversation_history {World} s.
Arguments world {World} s.
Arguments trace {World} s.

Definition M (World A : Type) : Type := state World -> result A * state World.

Definition ret {World A : Type} (a : A) : M World A := fun s => (Ok a, s).

Definition bind {World A B : Type} (m : M World A) (k : A -> M World B) : M World B :=
  fun s => match m s with
           | (Ok a, s') => k a s'
           | (Raise e, s') => (Raise e, s')
           end.

(** [raise e]. *)
Definition raise {World A : Type} (e : exn) : M World A := fun s => (Raise e, s).

(** A pure computation that may raise. *)
Definition lift {World A : Type} (r : result A) : M World A := fun s => (r, s).

(** [try: m  except Exception as e: handler e].  What [m] did to the state
    before it raised stays done. *)
Definition try_except {World A : Type} (m : M World A) (handler : exn -> M World A) : M World A :=
  fun s => match m s with
           | (Ok a, s') => (Ok a, s')
           | (Raise e, s') => handler e s'
           end.

Declare Scope monad_scope.
Delimit Scope monad_scope with monad.
Notation "x <- m ;; k" := (bind m (fun x => k))
  (at level 61, m at next level, right associativity) : monad_scope.
Notation "m ;; k" := (bind m (fun _ => k))
  (at level 61, right associativity) : monad_scope.
Open Scope monad_scope.

(** A step recorded in the trace. *)
Definition emit {World : Type} (e : event) : M World unit :=
  fun s => (Ok tt, {| conversation_history := conversation_history s;
                      world := world s;
                      trace := trace s ++ [e] |}).

Definition print {World : Type} (l : line) : M World unit := emit (EPrint l).

(** [time.sleep(...)]. *)
Definition sleep {World : Type} (d : delay) : M World unit := emit (ESleep d).

(** [self.conversation_history.append(m)]. *)
Definition history_append {World : Type} (m : message) : M World unit :=
  fun s => (Ok tt, {| conversation_history := conversation_history s ++ [m];
                      world := world s;
                      trace := trace s |}).

Definition get_history {World : Type} : M World (list message) :=
  fun s => (Ok (conversation_history s), s).

(** A call that reads and changes the world. *)
Definition with_world {World A : Type} (f : World -> result A * World) : M World A :=
  fun s => let (r, w) := f (world s) in
           (r, {| conversation_history := conversation_history s;
                  world := w;
                  trace := trace s |}).

(** How a loop body ends: it falls through to the next round, or the
    enclosing function returns. *)
Inductive flow : Type :=
| Next
| Return.

(** [for x in l: body x], where [body] may return from the function. *)
Fixpoint for_each {World A : Type} (l : list A) (body : A -> M World flow) : M World flow :=
  match l with
  | [] => ret Next
  | x :: l' =>
      f <- body x ;;
      match f with
      | Next => for_each l' body
      | Return => ret Return
      end
  end.

(** [enumerate(l, start)]. *)
Fixpoint enumerate {A : Type} (start : nat) (l : list A) : list (nat * A) :=
  match l with
  | [] => []
  | x :: l' => (start, x) :: enumerate (S start) l'
  end.

(** ** Python's dynamic operations on decoded values *)

(** [l[i]]. *)
Definition index {A : Type} (l : list A) (i : nat) : result A :=
  match nth_error l i with
  | Some x => Ok x
  | None => Raise (Exn "IndexError" "list index out of range")
  end.

(** [iter(v)], run to its end: the items of a list, the characters of a str,
    the keys of a dict; anything else is not iterable. *)
Definition py_iter (v : json) : result (list json) :=
  match v with
  | JArr l => Ok l
  | JStr s => Ok (map (fun c => JStr (String c EmptyString)) (list_ascii_of_string s))
  | JObj items => Ok (map (fun kv => JStr (fst kv)) items)
  | _ => Raise (Exn "TypeError" "object is not iterable")
  end.

(** [len(v)]. *)
Definition py_len (v : json) : result nat :=
  match v with
  | JArr l => Ok (List.length l)
  | JStr s => Ok (String.length s)
  | JObj items => Ok (List.length items)
  | _ => Raise (Exn "TypeError" "object has no len()")
  end.

(** [k in v] for a str [k]: a key of a dict, an item of a list, a substring
    of a str. *)
Definition py_contains (k : string) (v : json) : result bool :=
  match v with
  | JObj items => Ok (match dict_lookup k items with Some _ => true | None => false end)
  | JArr l => Ok (existsb (fun x => match x with JStr s => s =? k | _ => false end) l)
  | JStr s => Ok (str_in k s)
  | _ => Raise (Exn "TypeError" "argument is not iterable")
  end.

(** [v.get(k, default)]: only a dict has the method. *)
Definition py_get (v : json) (k : string) (default : json) : result json :=
  match v with
  | JObj items => Ok (dict_get k default items)
  | _ => Raise (Exn "AttributeError" "object has no attribute 'get'")
  end.

(** [content.split(opening)[1].split("```")[0].strip()], the expression by
    which [_parse_llm_response] takes the text of a fenced block. *)
Definition block_after (opening content : string) : result string :=
  match index (split opening content) 1 with
  | Ok after =>
      match index (split "```" after) 0 with
      | Ok block => Ok (strip block)
      | Raise e => Raise e
      end
  | Raise e => Raise e
  end.

(** ** [core/executor.py]: the tool tables *)

(** The keys of [TOOL_FUNCTIONS]; the functions themselves are the host's
    [call_tool]. *)
Definition TOOL_FUNCTIONS : list string :=
  [ "get_man_page"; "get_command_help"; "get_file_tree"; "check_file_exists";
    "read_config_file"; "check_port_in_use"; "get_disk_space";
    "check_write_permission" ].

Definition TOOL_DEFINITIONS : list tool_definition :=
  [ {| td_name := "get_man_page";
       td_description := "Fetch the man page documentation for a Linux command. Use this to understand command syntax and options.";
       td_properties := [("command", ("string", "The command name (e.g., 'grep', 'find', 'systemctl')"))];
       td_required := ["command"] |};
    {| td_name := "get_command_help";
       td_description := "Get the --help output for a command. Faster alternative to man pages.";
       td_properties := [("command", ("string", "The command name"))];
       td_required := ["command"] |};
    {| td_name := "get_file_tree";
       td_description := "Get the directory structure of a path to understand what files/folders exist.";
       td_properties := [("path", ("string", "Directory path to explore"));
                         ("max_depth", ("integer", "Maximum depth to traverse (default: 3)"))];
       td_required := ["path"] |};
    {| td_name := "check_file_exists";
       td_description := "Check if a file or directory exists before operating on it.";
       td_properties := [("path", ("string", "File or directory path"))];
       td_required := ["path"] |};
    {| td_name := "read_config_file";
       td_description := "Read contents of a configuration file to understand current settings.";
       td_properties := [("path", ("string", "Path to config file"));
                         ("max_lines", ("integer", "Maximum lines to read (default: 100)"))];
       td_required := ["path"] |};
    {| td_name := "check_port_in_use";
       td_description := "Check if a network port is already in use to avoid conflicts.";
       td_properties := [("port", ("integer", "Port number to check"))];
       td_required := ["port"] |};
    {| td_name := "get_disk_space";
       td_description := "Get available disk space for a path.";
       td_properties := [("path", ("string", "Path to check (default: '/')"))];
       td_required := [] |};
    {| td_name := "check_write_permission";
       td_description := "Check if the current user has write permission to a path.";
       td_properties := [("path", ("string", "Path to check"))];
       td_required := ["path"] |} ].

(** [function_name in TOOL_FUNCTIONS]. *)
Definition is_tool_function (function_name : string) : bool :=
  existsb (String.eqb function_name) TOOL_FUNCTIONS.

(** [self.max_iterations]. *)
Definition max_iterations : nat := 10.

(** The [timeout=300] of [subprocess.run]. *)
Definition command_timeout : Z := 300.

Definition fence_json : string := "```json".
Definition fence : string := "```".
Definition nl : string := String (ascii_of_nat 10) EmptyString.

Section Program.

Context {World : Type} {host : Host World}.

(** ** [core/llm_client.py]: class [LLMClient] *)

(** The call of [litellm.completion] with the keyword arguments of [chat]. *)
Definition completion (messages : list message) (tools : option (list tool_definition))
  : M World response :=
  emit (ECompletion messages tools) ;;
  with_world (litellm_completion messages tools).

(** [LLMClient.chat]. *)
Definition chat (user_message : string) (tools : option (list tool_definition))
  (use_planning_mode : bool) : M World response :=
  prompt <- (if use_planning_mode then lift read_planner_prompt else ret system_prompt) ;;
  history <- get_history ;;
  let messages := ([SystemMessage prompt] ++ history ++ [UserMessage user_message])%list in
  try_except
    (sleep RateLimitSeconds ;;
     let kw_tools := match tools with
                     | Some (_ :: _) => tools
                     | _ => None
                     end in
     response <- completion messages kw_tools ;;
     history_append (UserMessage user_message) ;;
     assistant_message <- lift (index (choices response) 0) ;;
     history_append
       (AssistantMessage
          (match am_content assistant_message with Some c => c | None => "" end)
          (am_tool_calls assistant_message)) ;;
     ret response)
    (fun e => raise (Exn "Exception" ("LiteLLM error: " ++ exn_str e))).

(** [LLMClient.add_tool_response]. *)
Definition add_tool_response (tool_call_id function_name : string) (result : json)
  : M World unit :=
  history_append (ToolMessage tool_call_id function_name (json_dumps result)).

(** [LLMClient.reset_conversation]. *)
Definition reset_conversation : M World unit :=
  fun s => (Ok tt, {| conversation_history := [];
                      world := world s;
                      trace := trace s |}).

(** ** [core/executor.py]: class [CommandExecutor] *)

(** The call of [TOOL_FUNCTIONS[function_name]] with the decoded arguments as
    keyword arguments: they must be a mapping; the tool reads the world. *)
Definition invoke_tool (function_name : string) (arguments : json) : M World json :=
  match arguments with
  | JObj kwargs =>
      emit (EToolCall function_name kwargs) ;;
      fun s => (call_tool function_name kwargs (world s), s)
  | _ => raise (Exn "TypeError" "argument after ** must be a mapping")
  end.

(** The body of the loop of [_handle_tool_calls]. *)
Definition handle_tool_call (tc : tool_call) : M World flow :=
  let function_name := tc_name tc in
  arguments <- lift (json_loads (tc_arguments tc)) ;;
  sleep ToolCallDelaySeconds ;;
  print (LCallingTool function_name arguments) ;;
  (if is_tool_function function_name then
     try_except
       (result <- invoke_tool function_name arguments ;;
        print LToolResultReceived ;;
        add_tool_response (tc_id tc) function_name result)
       (fun e =>
          let error_result := JObj [("error", JStr (exn_str e))] in
          print (LToolError e) ;;
          add_tool_response (tc_id tc) function_name error_result)
   else print (LUnknownTool function_name)) ;;
  ret Next.

(** [CommandExecutor._handle_tool_calls]. *)
Definition _handle_tool_calls (tool_calls : list tool_call) : M World unit :=
  for_each tool_calls handle_tool_call ;;
  ret tt.

(** [CommandExecutor._parse_llm_response]: [None] is [JNull]. *)
Definition _parse_llm_response (content : string) : M World json :=
  try_except
    (if str_in fence_json content then
       json_str <- lift (block_after fence_json content) ;;
       lift (json_loads json_str)
     else if str_in fence content then
       json_str <- lift (block_after fence content) ;;
       lift (json_loads json_str)
     else lift (json_loads content))
    (fun _ => ret JNull).

(** The body of the safety loop of [_execute_commands]. *)
Definition check_safety (cmd : json) : M World flow :=
  emit (EValidate cmd) ;;
  let safety_check := validate_command_safety cmd in
  if negb (safe safety_check) then
    print (LSafetyFailed (reason safety_check)) ;;
    ret Return
  else ret Next.

(** [input(prompt)]. *)
Definition ask (prompt : string) : M World string :=
  answer <- with_world (fun w => let (a, w') := input prompt w in (Ok a, w')) ;;
  emit (EInput prompt answer) ;;
  ret answer.

(** The body of the execution loop of [_execute_commands]. *)
Definition run_command (commands : json) (i_cmd : nat * json) : M World flow :=
  let (i, cmd) := i_cmd in
  n <- lift (py_len commands) ;;
  print (LRunning i n cmd) ;;
  try_except
    (run_cmd <- lift (build_shell_command cmd) ;;
     emit (ESubprocess run_cmd command_timeout) ;;
     result <- with_world (subprocess_run run_cmd command_timeout) ;;
     (if negb (stdout result =? "") then print (LStdout (stdout result)) else ret tt) ;;
     (if negb (stderr result =? "") then print (LStderr (stderr result)) else ret tt) ;;
     (if negb (returncode result =? 0)%Z then print (LExitCode (returncode result))
      else print LSuccess))
    (fun e =>
       if exn_class e =? "TimeoutExpired" then print LTimeout
       else print (LError e)) ;;
  ret Next.

(** The first part of [_execute_commands], up to the test of [dry_run]: the
    plan is displayed.  It returns [commands] and [requires_confirmation]. *)
Definition display_plan (result : json) : M World (json * json) :=
  commands <- lift (py_get result "commands" (JArr [])) ;;
  explanation <- lift (py_get result "explanation" (JStr "")) ;;
  warnings <- lift (py_get result "warnings" (JArr [])) ;;
  requires_confirmation <- lift (py_get result "requires_confirmation" (JBool true)) ;;
  (if truthy explanation then print (LExplanation explanation) else ret tt) ;;
  (if truthy warnings then
     print LWarningsHeader ;;
     ws <- lift (py_iter warnings) ;;
     for_each ws (fun warning => print (LWarning warning) ;; ret Next) ;;
     print LBlank
   else ret tt) ;;
  print LCommandsHeader ;;
  cmds <- lift (py_iter commands) ;;
  for_each (enumerate 1 cmds) (fun i_cmd => print (LCommand (fst i_cmd) (snd i_cmd)) ;; ret Next) ;;
  print LBlank ;;
  ret (commands, requires_confirmation).

(** [CommandExecutor._execute_commands]. *)
Definition _execute_commands (result : json) (auto_confirm dry_run : bool) : M World unit :=
  plan <- display_plan result ;;
  let (commands, requires_confirmation) := plan in
  if dry_run then print LDryRun
  else
    cmds <- lift (py_iter commands) ;;
    checked <- for_each cmds check_safety ;;
    match checked with
    | Return => ret tt
    | Next =>
        confirmed <-
          (if truthy requires_confirmation && negb auto_confirm then
             response <- ask "Execute these commands? (y/N): " ;;
             if negb (lower response =? "y") then print LCancelled ;; ret Return
             else ret Next
           else ret Next) ;;
        match confirmed with
        | Return => ret tt
        | Next =>
            print LExecuting ;;
            let pi := get_platform_info in
            print (LUsingShell (dict_get "shell" "unknown" pi)
                               (dict_get "shell_type" "" pi)
                               (dict_get "platform" "unknown platform" pi)) ;;
            for_each (enumerate 1 cmds) (run_command commands) ;;
            ret tt
        end
    end.

(** The context message of the first round. *)
Definition build_context (task_description : string) : string :=
  let platform_info := get_platform_info in
  match platform_info with
  | [] => task_description
  | _ =>
      "System Context:" ++ nl ++
      "- Platform: " ++ dict_get "platform" "Unknown" platform_info ++ nl ++
      "- OS: " ++ dict_get "distro" (dict_get "os" "Unknown" platform_info) platform_info ++ nl ++
      "- Architecture: " ++ dict_get "architecture" "Unknown" platform_info ++ nl ++
      "- Shell: " ++ dict_get "shell" "Unknown" platform_info ++
      " (" ++ dict_get "shell_version" (dict_get "shell_type" "" platform_info) platform_info ++ ")" ++ nl ++
      nl ++
      "User Task: " ++ task_description ++ nl ++
      nl ++
      "IMPORTANT: Generate commands appropriate for the " ++
      dict_get "platform" "current" platform_info ++ " platform and " ++
      dict_get "shell" "shell" platform_info ++ "."
  end.

(** The [while iteration < self.max_iterations] loop of [execute_quick_task];
    [remaining] is [self.max_iterations - iteration]. *)
Fixpoint quick_task_loop (remaining iteration : nat) (context : string)
  (auto_confirm dry_run : bool) : M World unit :=
  match remaining with
  | O => print LMaxIterations
  | S remaining' =>
      let iteration := S iteration in
      got <- try_except
               (response <- chat (if (iteration =? 1)%nat then context else "Continue with the task.")
                                 (Some TOOL_DEFINITIONS) false ;;
                ret (Some response))
               (fun e => print (LLLMError e) ;; ret None) ;;
      match got with
      | None => ret tt
      | Some response =>
          message <- lift (index (choices response) 0) ;;
          match am_tool_calls message with
          | Some (tc :: tcs) =>
              _handle_tool_calls (tc :: tcs) ;;
              quick_task_loop remaining' iteration context auto_confirm dry_run
          | _ =>
              match am_content message with
              | Some (String c content') =>
                  let content := String c content' in
                  result <- _parse_llm_response content ;;
                  has_commands <-
                    (if truthy result then lift (py_contains "commands" result)
                     else ret false) ;;
                  if has_commands then _execute_commands result auto_confirm dry_run
                  else print (LAnswer content)
              | _ => quick_task_loop remaining' iteration context auto_confirm dry_run
              end
          end
      end
  end.

(** [CommandExecutor.execute_quick_task]. *)
Definition execute_quick_task (task_description : string) (auto_confirm dry_run : bool)
  : M World unit :=
  print (LTask task_description) ;;
  let context := build_context task_description in
  quick_task_loop (max_iterations - 0) 0 context auto_confirm dry_run.

End Program.

(** ** [ui/app.py]: the page

    The page wraps the two classes.  Two things that it calls are not part
    of the classes above and are parameters here: the constructor
    [LLMClient()], which reads the configuration and the system prompt from
    files and may raise, and [LongTaskPlanner.execute_long_task] of
    [core/planner.py]. *)

(** What [st] is asked to show once the button is pressed. *)
Inductive st_element : Type :=
| StWarning (body : string)
| StCode (output : list event)
| StInfo (body : string)
| StError (exc : exn).

(** The steps that write to standard output, which [run_task] redirects to
    its buffer: each [print], and the prompt of each [input].  Each of them
    writes at least one character. *)
Definition captured (e : event) : bool :=
  match e with
  | EPrint _ | EInput _ _ => true
  | _ => false
  end.

Section Page.

Context {World : Type} {host : Host World}.

Variable llm_client_init : result unit.
Variable execute_long_task : string -> bool -> bool -> M World unit.

(** [run_task]: a new client, so an empty history; the task runs with its
    output captured; the captured output is returned once the task has
    ended normally. *)
Definition run_task (task : string) (use_long auto_confirm dry_run : bool)
  : World -> result (list event) * World :=
  fun w =>
    match llm_client_init with
    | Raise e => (Raise e, w)
    | Ok _ =>
        let llm_client := {| conversation_history := []; world := w; trace := [] |} in
        let (r, s') :=
          (if use_long then execute_long_task task auto_confirm dry_run
           else execute_quick_task task auto_confirm dry_run) llm_client in
        match r with
        | Ok _ => (Ok (filter captured (trace s')), world s')
        | Raise e => (Raise e, world s')
        end
    end.

(** The body of [if run_btn:]. *)
Definition on_run (task_description : string) (use_long auto_confirm dry_run : bool)
  : World -> st_element * World :=
  fun w =>
    if strip task_description =? "" then
      (StWarning "Please enter a task description.", w)
    else
      match run_task (strip task_description) use_long auto_confirm dry_run w with
      | (Ok output, w') =>
          (match output with
           | [] => StInfo "No output returned."
           | _ => StCode output
           end, w')
      | (Raise exc, w') => (StError exc, w')
      end.

End Page.

(** ** A concrete host

    The properties below hold for every host.  Where one has to be shown at
    a concrete input, this host is used: a decoder and an encoder for the
    fragment of JSON without floats and without [\u] escapes (on which they
    agree with [json.loads] and [json.dumps]), a small deny-list, scripted
    tools, backend, user and processes.  Its world is the list of the
    argument vectors run so far. *)
Module Demo.

Definition dquote : ascii := ascii_of_nat 34.
Definition backslash : ascii := ascii_of_nat 92.

(** JSON text written with single quotes for double quotes. *)
Fixpoint jtext (s : string) : string :=
  match s with
  | EmptyString => EmptyString
  | String c s' => String (if (c =? "'")%char then dquote else c) (jtext s')
  end.

Definition is_json_ws (c : ascii) : bool :=
  ((c =? " ") || (c =? ascii_of_nat 9) || (c =? ascii_of_nat 10) || (c =? ascii_of_nat 13))%char.

Fixpoint skip_ws (s : string) : string :=
  match s with
  | String c s' => if is_json_ws c then skip_ws s' else s
  | EmptyString => EmptyString
  end.

Definition is_digit (c : ascii) : bool :=
  let n := nat_of_ascii c in ((48 <=? n) && (n <=? 57))%nat.

Definition unescape (c : ascii) : option ascii :=
  if (c =? dquote)%char then Some dquote
  else if (c =? backslash)%char then Some backslash
  else if (c =? "/")%char then Some "/"%char
  else if (c =? "b")%char then Some (ascii_of_nat 8)
  else if (c =? "f")%char then Some (ascii_of_nat 12)
  else if (c =? "n")%char then Some (ascii_of_nat 10)
  else if (c =? "r")%char then Some (ascii_of_nat 13)
  else if (c =? "t")%char then Some (ascii_of_nat 9)
  else None.

(** The text of a JSON string after its opening quote: the decoded string
    and what follows the closing quote. *)
Fixpoint scan_string (s : string) : option (string * string) :=
  match s with
  | EmptyString => None
  | String c s' =>
      if (c =? dquote)%char then Some (EmptyString, s')
      else if (c =? backslash)%char then
        match s' with
        | String e s'' =>
            match unescape e, scan_string s'' with
            | Some d, Some (body, rest) => Some (String d body, rest)
            | _, _ => None
            end
        | EmptyString => None
        end
      else if (nat_of_ascii c <? 32)%nat then None
      else match scan_string s' with
           | Some (body, rest) => Some (String c body, rest)
           | None => None
           end
  end.

(** The digits at the head of a text, as a number, and what follows. *)
Fixpoint scan_digits (s : string) (acc : Z) : Z * string :=
  match s with
  | String c s' =>
      if is_digit c then scan_digits s' (10 * acc + Z.of_nat (nat_of_ascii c - 48))%Z
      else (acc, s)
  | EmptyString => (acc, s)
  end.

(** An integer literal (an optional minus sign, then 0 or a digit 1..9 and
    more digits) that no fraction and no exponent follows. *)
Definition scan_int (s : string) : option (Z * string) :=
  let (neg, body) := match s with
                     | String c s' => if (c =? "-")%char then (true, s') else (false, s)
                     | EmptyString => (false, s)
                     end in
  match body with
  | String c s' =>
      if is_digit c then
        let (n, rest) := if (c =? "0")%char then (0%Z, s') else scan_digits body 0%Z in
        match rest with
        | String d _ =>
            if ((d =? ".") || (d =? "e") || (d =? "E"))%char then None
            else Some (if neg then (- n)%Z else n, rest)
        | EmptyString => Some (if neg then (- n)%Z else n, rest)
        end
      else None
  | EmptyString => None
  end.

(** [d[k] = v]. *)
Fixpoint dict_set (k : string) (v : json) (items : list (string * json)) : list (string * json) :=
  match items with
  | [] => [(k, v)]
  | (k', v') :: rest => if k' =? k then (k, v) :: rest else (k', v') :: dict_set k v rest
  end.

Fixpoint decode_value (fuel : nat) (s : string) : option (json * string) :=
  match fuel with
  | O => None
  | S fuel' =>
      match skip_ws s with
      | EmptyString => None
      | String c rest =>
          if (c =? "{")%char then
            match skip_ws rest with
            | String c' rest' =>
                if (c' =? "}")%char then Some (JObj [], rest')
                else decode_members fuel' (String c' rest') []
            | EmptyString => None
            end
          else if (c =? "[")%char then
            match skip_ws rest with
            | String c' rest' =>
                if (c' =? "]")%char then Some (JArr [], rest')
                else decode_items fuel' (String c' rest') []
            | EmptyString => None
            end
          else if (c =? dquote)%char then
            match scan_string rest with
            | Some (body, rest') => Some (JStr body, rest')
            | None => None
            end
          else if starts_with "null" (String c rest) then Some (JNull, str_drop 4 (String c rest))
          else if starts_with "true" (String c rest) then Some (JBool true, str_drop 4 (String c rest))
          else if starts_with "false" (String c rest) then Some (JBool false, str_drop 5 (String c rest))
          else match scan_int (String c rest) with
               | Some (n, rest') => Some (JInt n, rest')
               | None => None
               end
      end
  end
with decode_items (fuel : nat) (s : string) (acc : list json) : option (json * string) :=
  match fuel with
  | O => None
  | S fuel' =>
      match decode_value fuel' s with
      | Some (v, rest) =>
          match skip_ws rest with
          | String c rest' =>
              if (c =? ",")%char then decode_items fuel' rest' (acc ++ [v])
              else if (c =? "]")%char then Some (JArr (acc ++ [v]), rest')
              else None
          | EmptyString => None
          end
      | None => None
      end
  end
with decode_members (fuel : nat) (s : string) (acc : list (string * json)) : option (json * string) :=
  match fuel with
  | O => None
  | S fuel' =>
      match skip_ws s with
      | String q after_quote =>
          if (q =? dquote)%char then
            match scan_string after_quote with
            | Some (k, rest) =>
                match skip_ws rest with
                | String colon rest' =>
                    if (colon =? ":")%char then
                      match decode_value fuel' rest' with
                      | Some (v, rest'') =>
                          match skip_ws rest'' with
                          | String c rest''' =>
                              if (c =? ",")%char then decode_members fuel' rest''' (dict_set k v acc)
                              else if (c =? "}")%char then Some (JObj (dict_set k v acc), rest''')
                              else None
                          | EmptyString => None
                          end
                      | None => None
                      end
                    else None
                | EmptyString => None
                end
            | None => None
            end
          else None
      | EmptyString => None
      end
  end.

(** [json.loads] on the fragment. *)
Definition loads (s : string) : result json :=
  match decode_value (S (String.length s)) s with
  | Some (v, rest) =>
      match skip_ws rest with
      | EmptyString => Ok v
      | _ => Raise (Exn "JSONDecodeError" "Extra data")
      end
  | None => Raise (Exn "JSONDecodeError" "Expecting value")
  end.

Definition escape_char (c : ascii) : string :=
  if (c =? dquote)%char then String backslash (String dquote EmptyString)
  else if (c =? backslash)%char then String backslash (String backslash EmptyString)
  else if (c =? ascii_of_nat 10)%char then String backslash "n"
  else if (c =? ascii_of_nat 13)%char then String backslash "r"
  else if (c =? ascii_of_nat 9)%char then String backslash "t"
  else String c EmptyString.

Fixpoint escape (s : string) : string :=
  match s with
  | EmptyString => EmptyString
  | String c s' => escape_char c ++ escape s'
  end.

Definition quoted (s : string) : string :=
  String dquote (escape s ++ String dquote EmptyString).

(** [json.dumps] on the fragment, with its default separators. *)
Fixpoint dumps (v : json) : string :=
  match v with
  | JNull => "null"
  | JBool true => "true"
  | JBool false => "false"
  | JInt z => NilZero.string_of_int (Z.to_int z)
  | JFloat _ literal => literal
  | JStr s => quoted s
  | JArr items =>
      "[" ++ (fix go (l : list json) : string :=
                match l with
                | [] => ""
                | [x] => dumps x
                | x :: l' => dumps x ++ ", " ++ go l'
                end) items ++ "]"
  | JObj items =>
      "{" ++ (fix go (l : list (string * json)) : string :=
                match l with
                | [] => ""
                | [(k, x)] => quoted k ++ ": " ++ dumps x
                | (k, x) :: l' => quoted k ++ ": " ++ dumps x ++ ", " ++ go l'
                end) items ++ "}"
  end.

(** A deny-list: a command is unsafe when it is no str or names a recursive
    forced removal. *)
Definition validate (cmd : json) : verdict :=
  match cmd with
  | JStr s =>
      if str_in "rm -rf" s
      then {| safe := false; reason := "Recursive forced removal" |}
      else {| safe := true; reason := "" |}
  | _ => {| safe := false; reason := "Not a command" |}
  end.

Definition shell_command (cmd : json) : result (list string) :=
  match cmd with
  | JStr s => Ok ["bash"; "-c"; s]
  | _ => Raise (Exn "TypeError" "command must be a str")
  end.

Definition platform_info : list (string * string) :=
  [("platform", "Linux"); ("os", "Linux"); ("architecture", "x86_64");
   ("shell", "bash"); ("shell_type", "posix")].

(** The world: the argument vectors run so far, latest last. *)
Definition run_log : Type := list (list string).

(** Tools: [get_disk_space] fails, the others answer. *)
Definition tool (function_name : string) (kwargs : list (string * json)) (w : run_log)
  : result json :=
  if function_name =? "get_disk_space" then Raise (Exn "OSError" "No such file or directory")
  else Ok (JObj [("ok", JBool true); ("runs", JInt (Z.of_nat (List.length w)))]).

(** Processes: [sleep ...] runs out of time, [false] fails with code 1,
    anything else succeeds and prints nothing. *)
Definition run (argv : list string) (timeout : Z) (w : run_log)
  : result completed_process * run_log :=
  let w' := (w ++ [argv])%list in
  match argv with
  | [_; _; cmd] =>
      if starts_with "sleep" cmd then (Raise (Exn "TimeoutExpired" "timed out"), w')
      else if cmd =? "false" then (Ok {| returncode := 1; stdout := ""; stderr := "" |}, w')
      else (Ok {| returncode := 0; stdout := ""; stderr := "" |}, w')
  | _ => (Raise (Exn "FileNotFoundError" "No such file or directory"), w')
  end.

(** A host with the given backend and the given answer of the user. *)
Definition host
  (backend : list message -> option (list tool_definition) -> run_log -> result response * run_log)
  (answer : string) : Host run_log :=
  {| json_loads := loads;
     json_dumps := dumps;
     validate_command_safety := validate;
     build_shell_command := shell_command;
     get_platform_info := platform_info;
     call_tool := tool;
     litellm_completion := backend;
     input := fun _ w => (answer, w);
     subprocess_run := run;
     system_prompt := "You are a command-line assistant.";
     read_planner_prompt := Ok "You are a planner." |}.

(** A backend that is down. *)
Definition backend_down (messages : list message) (tools : option (list tool_definition))
  (w : run_log) : result response * run_log :=
  (Raise (Exn "APIConnectionError" "Connection refused"), w).

(** A backend that always gives the same message. *)
Definition backend_saying (m : assistant_message) (messages : list message)
  (tools : option (list tool_definition)) (w : run_log) : result response * run_log :=
  (Ok {| choices := [m] |}, w).

(** The state a task starts in: no history, nothing run, nothing traced. *)
Definition start : state run_log :=
  {| conversation_history := []; world := []; trace := [] |}.

End Demo.

(** ** Concrete inputs *)

Module Scenario.

(** The user answers [n], the backend is down. *)
Definition host_n : Host Demo.run_log := Demo.host Demo.backend_down "n".

(** The user answers [Y]. *)
Definition host_y : Host Demo.run_log := Demo.host Demo.backend_down "Y".

(** Three commands, the second of them unsafe. *)
Definition plan_unsafe : list (string * json) :=
  [("commands", JArr [JStr "ls"; JStr "rm -rf /"; JStr "pwd"])].

(** Three safe commands, the second of which runs out of time. *)
Definition plan_slow : list (string * json) :=
  [("commands", JArr [JStr "ls"; JStr "sleep 999"; JStr "pwd"]);
   ("explanation", JStr "List, wait, locate.");
   ("warnings", JArr [JStr "The second command is slow."]);
   ("requires_confirmation", JBool true)].

Definition known_call : tool_call :=
  {| tc_id := "call_1"; tc_name := "check_file_exists";
     tc_arguments := Demo.jtext "{'path': '/tmp'}" |}.

Definition failing_call : tool_call :=
  {| tc_id := "call_2"; tc_name := "get_disk_space"; tc_arguments := "{}" |}.


(** A request whose arguments were cut short. *)
Definition malformed_call : tool_call :=
  {| tc_id := "call_4"; tc_name := "get_file_tree"; tc_arguments := "{" |}.

(** A backend that asks for [tc] in every round. *)
Definition backend_asking (tc : tool_call) :=
  Demo.backend_saying {| am_content := None; am_tool_calls := Some [tc] |}.

(** A backend that asks for [known_call] as long as the messages sent are
    fewer than [n], and for [malformed_call] from then on. *)
Definition backend_turning (n : nat) (messages : list message)
  (tools : option (list tool_definition)) (w : Demo.run_log)
  : result response * Demo.run_log :=
  if (List.length messages <? n)%nat then backend_asking known_call messages tools w
  else backend_asking malformed_call messages tools w.

(** A backend that answers with the given content and asks for no tool. *)
Definition backend_answering (content : string) :=
  Demo.backend_saying {| am_content := Some content; am_tool_calls := None |}.

(** A labeled block in the middle of a text. *)
Definition block_body : string := Demo.jtext " {'commands': ['ls -la']} ".
Definition text_with_block : string :=
  ("Run this: " ++ fence_json ++ block_body ++ fence ++ " and tell me.")%string.

(** A labeled block, alone, with the four fields of a plan, whose command
    holds three backticks. *)
Definition backtick_body : string :=
  Demo.jtext " {'commands': ['echo ```'], 'explanation': 'Print a fence.', 'warnings': [], 'requires_confirmation': false} ".
Definition backtick_plan : json :=
  JObj [("commands", JArr [JStr "echo ```"]); ("explanation", JStr "Print a fence.");
        ("warnings", JArr []); ("requires_confirmation", JBool false)].
Definition text_with_backticks : string := (fence_json ++ backtick_body ++ fence)%string.

(** Two labeled blocks: a note on the format, then a plan with the four
    fields. *)
Definition note_body : string := Demo.jtext " {'note': 'format'} ".
Definition second_body : string :=
  Demo.jtext " {'commands': ['ls -la'], 'explanation': 'List the files.', 'warnings': ['Long output.'], 'requires_confirmation': true} ".
Definition second_plan : json :=
  JObj [("commands", JArr [JStr "ls -la"]); ("explanation", JStr "List the files.");
        ("warnings", JArr [JStr "Long output."]); ("requires_confirmation", JBool true)].
Definition text_with_second_block : string :=
  ("The format is " ++ fence_json ++ note_body ++ fence ++
   " and the plan is " ++ fence_json ++ second_body ++ fence)%string.

End Scenario.

(** ** Concrete inputs at the edges *)

Module Edge.

(** A backend whose response holds no choice. *)
Definition backend_without_choice (messages : list message)
  (tools : option (list tool_definition)) (w : Demo.run_log)
  : result response * Demo.run_log :=
  (Ok {| choices := [] |}, w).

(** A backend whose responses ask for no tool and have no content. *)
Definition backend_silent :=
  Demo.backend_saying {| am_content := None; am_tool_calls := None |}.

(** An answer that decodes to a dict that is no plan, in a response with an
    empty list of tool calls. *)
Definition chatty_answer : string := Demo.jtext "{'answer': 'Use ls.'}".
Definition chatty_message : assistant_message :=
  {| am_content := Some chatty_answer; am_tool_calls := Some [] |}.

(** An answer that is a number, and one that is a JSON string. *)
Definition number_answer : string := "42".
Definition word_answer : string := Demo.jtext "'Run the commands below.'".

(** A labeled block that is not closed. *)
Definition open_block_body : string := Demo.jtext " {'commands': ['ls -la']}".
Definition text_with_open_block : string :=
  ("Run this: " ++ fence_json ++ open_block_body)%string.

(** A client that can be made, and a planner that does nothing. *)
Definition client_made : result unit := Ok tt.
Definition planner_idle (task : string) (auto_confirm dry_run : bool)
  : M Demo.run_log unit := ret tt.

End Edge.

(** ** Reading a trace *)

(** The state after more steps were traced. *)
Definition add_trace {World : Type} (s : state World) (evs : list event) : state World :=
  {| conversation_history := conversation_history s;
     world := world s;
     trace := trace s ++ evs |}.

Definition is_subprocess (e : event) : bool :=
  match e with ESubprocess _ _ => true | _ => false end.

Definition is_validate (e : event) : bool :=
  match e with EValidate _ => true | _ => false end.

Definition is_input (e : event) : bool :=
  match e with EInput _ _ => true | _ => false end.

Definition is_completion (e : event) : bool :=
  match e with ECompletion _ _ => true | _ => false end.

Definition is_print (e : event) : bool :=
  match e with EPrint _ => true | _ => false end.

(** The commands announced by a [Running] line, with their numbers. *)
Fixpoint attempts (t : list event) : list (nat * json) :=
  match t with
  | [] => []
  | EPrint (LRunning i _ cmd) :: t' => (i, cmd) :: attempts t'
  | _ :: t' => attempts t'
  end.

(** How the attempt of one command ended, as reported. *)
Inductive report : Type :=
| Succeeded
| ExitedWith (returncode : Z)
| TimedOut
| Failed (e : exn).

Fixpoint reports (t : list event) : list report :=
  match t with
  | [] => []
  | EPrint LSuccess :: t' => Succeeded :: reports t'
  | EPrint (LExitCode rc) :: t' => ExitedWith rc :: reports t'
  | EPrint LTimeout :: t' => TimedOut :: reports t'
  | EPrint (LError e) :: t' => Failed e :: reports t'
  | _ :: t' => reports t'
  end.

(** The Tool Results of a history that answer the request [id]. *)
Definition is_result_for (id : string) (m : message) : bool :=
  match m with
  | ToolMessage tool_call_id _ _ => tool_call_id =? id
  | _ => false
  end.

(** [cmd] passes the Safety Validator. *)
Definition is_safe {World : Type} {host : Host World} (cmd : json) : bool :=
  safe (validate_command_safety cmd).

(** The commands of a plan, as [_execute_commands] iterates them (none when
    the plan is no dict or its [commands] cannot be iterated). *)
Definition plan_commands (result : json) : list json :=
  match py_get result "commands" (JArr []) with
  | Ok commands => match py_iter commands with Ok cmds => cmds | Raise _ => [] end
  | Raise _ => []
  end.

(** [requires_confirmation] as [_execute_commands] tests it. *)
Definition plan_requires_confirmation (result : json) : bool :=
  match py_get result "requires_confirmation" (JBool true) with
  | Ok v => truthy v
  | Raise _ => false
  end.

(** A plan that [_execute_commands] can display: a dict whose [commands] can
    be iterated, and whose [warnings] are empty or can be. *)
Definition displayable (result : json) : bool :=
  match result with
  | JObj items =>
      match py_iter (dict_get "commands" (JArr []) items) with
      | Ok _ =>
          let warnings := dict_get "warnings" (JArr []) items in
          if truthy warnings then
            match py_iter warnings with Ok _ => true | Raise _ => false end
          else true
      | Raise _ => false
      end
  | _ => false
  end.

(** What [_execute_commands] prints of a plan before anything else. *)
Definition plan_lines (result : json) : list line :=
  match result with
  | JObj items =>
      let explanation := dict_get "explanation" (JStr "") items in
      let warnings := dict_get "warnings" (JArr []) items in
      (if truthy explanation then [LExplanation explanation] else []) ++
      (if truthy warnings then
         LWarningsHeader ::
         map LWarning (match py_iter warnings with Ok ws => ws | Raise _ => [] end) ++
         [LBlank]
       else []) ++
      LCommandsHeader ::
      map (fun i_cmd => LCommand (fst i_cmd) (snd i_cmd)) (enumerate 1 (plan_commands result)) ++
      [LBlank]
  | _ => []
  end%list.

(** ** Reading the program

    What the statements below say of a run, told without the monad. *)

Section Readings.

Context {World : Type} {host : Host World}.

(** A state with the history of [s], the given world and more trace. *)
Definition moved (s : state World) (w : World) (evs : list event) : state World :=
  {| conversation_history := conversation_history s;
     world := w;
     trace := trace s ++ evs |}.

(** A state with more history and more trace. *)
Definition answered (s : state World) (ms : list message) (evs : list event) : state World :=
  {| conversation_history := conversation_history s ++ ms;
     world := world s;
     trace := trace s ++ evs |}.

(** The prompt of [_execute_commands]. *)
Definition confirmation_prompt : string := "Execute these commands? (y/N): ".

(** Whether [_execute_commands] asks the user. *)
Definition asks (result : json) (auto_confirm : bool) : bool :=
  plan_requires_confirmation result && negb auto_confirm.

(** Whether the user, if asked in world [w], consents. *)
Definition consents (w : World) : bool :=
  lower (fst (input confirmation_prompt w)) =? "y".

(** The world once the question, if any, was answered. *)
Definition world_after_question (result : json) (auto_confirm : bool) (w : World) : World :=
  if asks result auto_confirm then snd (input confirmation_prompt w) else w.

(** What the attempt of [cmd] in world [w] comes to: the argument vector is
    built, then run with the time limit. *)
Definition attempt (cmd : json) (w : World) : result completed_process * World :=
  match build_shell_command cmd with
  | Ok argv => subprocess_run argv command_timeout w
  | Raise e => (Raise e, w)
  end.

(** All the commands attempted in order, each in the world the one before
    left, whatever that one came to. *)
Fixpoint attempt_all (cmds : list json) (w : World) : list (result completed_process) * World :=
  match cmds with
  | [] => ([], w)
  | cmd :: cmds' =>
      let (o, w1) := attempt cmd w in
      let (os, w2) := attempt_all cmds' w1 in
      (o :: os, w2)
  end.

(** The processes that the attempts of [cmds] start, in order: one for each
    command whose argument vector can be built, run with the time limit. *)
Definition processes_of (cmds : list json) : list event :=
  flat_map (fun cmd => match build_shell_command cmd with
                       | Ok argv => [ESubprocess argv command_timeout]
                       | Raise _ => []
                       end) cmds.

(** The report that an outcome gets. *)
Definition report_of (o : result completed_process) : report :=
  match o with
  | Ok p => if (returncode p =? 0)%Z then Succeeded else ExitedWith (returncode p)
  | Raise e => if exn_class e =? "TimeoutExpired" then TimedOut else Failed e
  end.

(** The lines of the display of a plan. *)
Definition is_plan_line (l : line) : bool :=
  match l with
  | LExplanation _ | LWarningsHeader | LWarning _ | LBlank | LCommandsHeader
  | LCommand _ _ => true
  | _ => false
  end.

(** The two lines that open the execution. *)
Definition opening_lines : list event :=
  [EPrint LExecuting;
   EPrint (LUsingShell (dict_get "shell" "unknown" get_platform_info)
                       (dict_get "shell_type" "" get_platform_info)
                       (dict_get "platform" "unknown platform" get_platform_info))].

(** The question put to the user and the answer given in world [w]. *)
Definition question (w : World) : event :=
  EInput confirmation_prompt (fst (input confirmation_prompt w)).

(** The first piece of a split: the text up to the first separator, or all
    of it. *)
Definition first_piece (sep s : string) : string :=
  match str_find sep s with
  | Some i => str_take i s
  | None => s
  end.

(** The text that [_parse_llm_response] hands to [json.loads]: the first
    labeled block, else the first block, else the whole content. *)
Definition candidate (content : string) : result string :=
  if str_in fence_json content then block_after fence_json content
  else if str_in fence content then block_after fence content
  else Ok content.

(** What the tool called with the decoded arguments comes to. *)
Definition tool_outcome (function_name : string) (arguments : json) (w : World)
  : result json :=
  match arguments with
  | JObj kwargs => call_tool function_name kwargs w
  | _ => Raise (Exn "TypeError" "argument after ** must be a mapping")
  end.

(** The payload of the Tool Result: the result, or the error description. *)
Definition payload (o : result json) : json :=
  match o with
  | Ok v => v
  | Raise e => JObj [("error", JStr (exn_str e))]
  end.

(** The Tool Results that the dispatch of one request appends: one when its
    arguments decode and its tool is registered, else none. *)
Definition result_messages (w : World) (tc : tool_call) : list message :=
  match json_loads (tc_arguments tc) with
  | Ok arguments =>
      if is_tool_function (tc_name tc)
      then [ToolMessage (tc_id tc) (tc_name tc)
              (json_dumps (payload (tool_outcome (tc_name tc) arguments w)))]
      else []
  | Raise _ => []
  end.


(** The [tools] that [chat] passes on: none when they are empty. *)
Definition passed_tools (tools : option (list tool_definition))
  : option (list tool_definition) :=
  match tools with
  | Some (_ :: _) => tools
  | _ => None
  end.

(** The [messages] that [chat] sends. *)
Definition sent_messages (prompt : string) (s : state World) (user_message : string)
  : list message :=
  [SystemMessage prompt] ++ conversation_history s ++ [UserMessage user_message].

(** The assistant turn kept in the history. *)
Definition assistant_turn (m : assistant_message) : message :=
  AssistantMessage (match am_content m with Some c => c | None => ""%string end)
                   (am_tool_calls m).

(** [m] adds at most [n] steps that [p] accepts to the trace, however it
    ends. *)
Definition adds_at_most (p : event -> bool) (n : nat) {A : Type} (m : M World A) : Prop :=
  forall s, List.length (filter p (trace (snd (m s))))
            <= List.length (filter p (trace s)) + n.

(** A backend that asks for tools in every response, with arguments that
    decode. *)
Definition always_asks_for_tools : Prop :=
  forall messages tools w,
  exists m rest tc tcs,
    fst (litellm_completion messages tools w) = Ok {| choices := m :: rest |} /\
    am_tool_calls m = Some (tc :: tcs) /\
    forall tc', In tc' (tc :: tcs) ->
                exists arguments, json_loads (tc_arguments tc') = Ok arguments.

End Readings.

(** ** Logs that only grow

    The trace and the conversation history are logs: code adds entries at
    their end.  [logs proj P m] says that [m], however it ends, leaves the
    log [proj] as it was but for new entries at its end, each of which
    satisfies [P]. *)

Section LogReadings.

Context {World : Type} {host : Host World}.

Definition logs {L : Type} (proj : state World -> list L) (P : L -> Prop)
  {A : Type} (m : M World A) : Prop :=
  forall s, exists l, proj (snd (m s)) = (proj s ++ l)%list /\ Forall P l.

(** A step of the trace that is no process, or is a process whose argument
    vector was built from a command that passes the Safety Validator, run
    with the time limit. *)
Definition vetted (e : event) : Prop :=
  match e with
  | ESubprocess argv timeout =>
      exists cmd, is_safe cmd = true /\ build_shell_command cmd = Ok argv /\
                  timeout = command_timeout
  | _ => True
  end.

(** A turn that the history may hold: any but a system turn. *)
Definition stored_turn (m : message) : Prop :=
  match m with
  | SystemMessage _ => False
  | _ => True
  end.

(** A step of the trace that is no invocation of a tool, or invokes a tool
    of [TOOL_FUNCTIONS]. *)
Definition registered_call (e : event) : Prop :=
  match e with
  | EToolCall function_name _ => is_tool_function function_name = true
  | _ => True
  end.

(** The message of the rounds after the first. *)
Definition continuation_prompt : string := "Continue with the task.".

(** A step of the trace that is no call of the backend, or is a call as the
    task [task_description] makes them: the system prompt first, the context
    of the task or the continuation prompt last, the whole of
    [TOOL_DEFINITIONS] attached. *)
Definition task_call (task_description : string) (e : event) : Prop :=
  match e with
  | ECompletion messages tools =>
      tools = Some TOOL_DEFINITIONS /\
      exists history user_message,
        messages = (SystemMessage system_prompt :: history ++ [UserMessage user_message])%list /\
        (user_message = build_context task_description \/
         user_message = continuation_prompt)
  | _ => True
  end.

(** The state in which the content of the first response is looked at:
    [shown] was printed, the backend was called with [context] and answered
    [m]. *)
Definition after_first_call (s : state World) (context : string) (m : assistant_message)
  (w' : World) (shown : list event) : state World :=
  {| conversation_history :=
       (conversation_history s ++ [UserMessage context; assistant_turn m])%list;
     world := w';
     trace := (trace s ++ shown ++
               [ESleep RateLimitSeconds;
                ECompletion (sent_messages system_prompt s context)
                  (passed_tools (Some TOOL_DEFINITIONS))])%list |}.

(** The line that opens the display of a plan, and the line that displays
    a conversational answer. *)
Definition is_plan_header (e : event) : bool :=
  match e with EPrint LCommandsHeader => true | _ => false end.

Definition is_answer (e : event) : bool :=
  match e with EPrint (LAnswer _) => true | _ => false end.

(** A response that asks for no tool and has no content. *)
Definition says_nothing (m : assistant_message) : Prop :=
  (am_tool_calls m = None \/ am_tool_calls m = Some []) /\
  (am_content m = None \/ am_content m = Some ""%string).

(** A backend whose every response is such. *)
Definition always_says_nothing : Prop :=
  forall messages tools w,
  exists m rest,
    fst (litellm_completion messages tools w) = Ok {| choices := m :: rest |} /\
    says_nothing m.

(** The last message of each call of the backend, in the order of the
    calls. *)
Fixpoint asked (t : list event) : list message :=
  match t with
  | [] => []
  | ECompletion messages _ :: t' => last messages (UserMessage "") :: asked t'
  | _ :: t' => asked t'
  end.

End LogReadings.

(** * Properties *)

Open Scope list_scope.

Section MonadFacts.

Context {World : Type}.

Lemma add_trace_nil (s : state World) : add_trace s [] = s.
Proof. destruct s; unfold add_trace; simpl. now rewrite app_nil_r. Qed.

Lemma add_trace_app (s : state World) (a b : list event) :
  add_trace (add_trace s a) b = add_trace s (a ++ b).
Proof. unfold add_trace; simpl. now rewrite app_assoc. Qed.

Lemma emit_run (e : event) (s : state World) : emit e s = (Ok tt, add_trace s [e]).
Proof. reflexivity. Qed.

Lemma print_run (l : line) (s : state World) :
  print l s = (Ok tt, add_trace s [EPrint l]).
Proof. reflexivity. Qed.

Lemma lift_run {A : Type} (r : result A) (s : state World) : lift r s = (r, s).
Proof. reflexivity. Qed.

Lemma ret_run {A : Type} (a : A) (s : state World) : ret a s = (Ok a, s).
Proof. reflexivity. Qed.

Lemma bind_run {A B : Type} (m : M World A) (k : A -> M World B) (s : state World) :
  bind m k s = match m s with
               | (Ok a, s') => k a s'
               | (Raise e, s') => (Raise e, s')
               end.
Proof. reflexivity. Qed.

Lemma bind_ok {A B : Type} (m : M World A) (k : A -> M World B) (s s' : state World) (a : A) :
  m s = (Ok a, s') -> bind m k s = k a s'.
Proof. intros E. unfold bind. now rewrite E. Qed.

Lemma bind_raise {A B : Type} (m : M World A) (k : A -> M World B) (s s' : state World) (e : exn) :
  m s = (Raise e, s') -> bind m k s = (Raise e, s').
Proof. intros E. unfold bind. now rewrite E. Qed.

Lemma for_each_cons {A : Type} (x : A) (l : list A) (body : A -> M World flow)
  (s : state World) :
  for_each (x :: l) body s
  = match body x s with
    | (Ok Next, s') => for_each l body s'
    | (Ok Return, s') => (Ok Return, s')
    | (Raise e, s') => (Raise e, s')
    end.
Proof.
  simpl. unfold bind. destruct (body x s) as [[[|]|e] s']; reflexivity.
Qed.

(** A loop whose body only prints one line per item. *)
Lemma for_each_print {A : Type} (f : A -> line) (l : list A) (s : state World) :
  for_each l (fun x => print (f x) ;; ret Next) s
  = (Ok Next, add_trace s (map (fun x => EPrint (f x)) l)).
Proof.
  revert s. induction l as [|x l IH]; intros s; simpl.
  - now rewrite add_trace_nil.
  - unfold bind at 1. unfold bind at 1. rewrite print_run. unfold ret at 1.
    rewrite IH, add_trace_app. reflexivity.
Qed.

Lemma for_each_app {A : Type} (a b : list A) (body : A -> M World flow)
  (s s1 : state World) :
  for_each a body s = (Ok Next, s1) ->
  for_each (a ++ b) body s = for_each b body s1.
Proof.
  revert s. induction a as [|x a IH]; intros s H.
  - simpl in H. rewrite ret_run in H. injection H as <-. reflexivity.
  - simpl app. rewrite for_each_cons in *.
    destruct (body x s) as [[[|]|e] s2]; try discriminate.
    now apply IH.
Qed.

Lemma filter_add_trace (p : event -> bool) (s : state World) (evs : list event) :
  filter p (trace (add_trace s evs)) = filter p (trace s) ++ filter p evs.
Proof. simpl. apply filter_app. Qed.

End MonadFacts.

(** Unfolds the monad, for goals that run straight-line code. *)
Ltac run_monad :=
  unfold bind, ret, lift, raise, print, sleep, emit, try_except, with_world,
    history_append, get_history; simpl.

(** Reads the components of a state that is given explicitly. *)
Tactic Notation "read_state" :=
  cbn [fst snd trace world conversation_history add_trace].
Tactic Notation "read_state" "in" hyp(H) :=
  cbn [fst snd trace world conversation_history add_trace] in H.

Section ExecuteCommands.

Context {World : Type} {host : Host World}.

Lemma moved_same (s : state World) (evs : list event) :
  moved s (world s) evs = add_trace s evs.
Proof. reflexivity. Qed.

Lemma moved_moved (s : state World) (w w' : World) (a b : list event) :
  moved (moved s w a) w' b = moved s w' (a ++ b).
Proof. unfold moved; simpl. now rewrite app_assoc. Qed.

Lemma attempts_app (a b : list event) : attempts (a ++ b) = attempts a ++ attempts b.
Proof.
  induction a as [|e a IH]; simpl; [reflexivity|].
  destruct e as [l| | | | | |]; try assumption.
  destruct l; simpl; try assumption. now rewrite IH.
Qed.

Lemma reports_app (a b : list event) : reports (a ++ b) = reports a ++ reports b.
Proof.
  induction a as [|e a IH]; simpl; [reflexivity|].
  destruct e as [l| | | | | |]; try assumption.
  destruct l; simpl; try assumption; now rewrite IH.
Qed.

(** The display of a plan that can be displayed. *)
Lemma display_plan_run (items : list (string * json)) (s : state World) :
  displayable (JObj items) = true ->
  display_plan (JObj items) s
  = (Ok (dict_get "commands" (JArr []) items,
         dict_get "requires_confirmation" (JBool true) items),
     add_trace s (map EPrint (plan_lines (JObj items)))).
Proof.
  unfold displayable, display_plan, plan_lines, plan_commands. simpl py_get.
  intros D.
  destruct (py_iter (dict_get "commands" (JArr []) items)) as [cmds|e] eqn:Ecmds;
    [|discriminate].
  do 4 (rewrite bind_run, lift_run; cbv beta iota).
  set (explanation := dict_get "explanation" (JStr "") items).
  set (warnings := dict_get "warnings" (JArr []) items) in *.
  rewrite bind_run.
  assert (Hexp : forall s0 : state World,
             (if truthy explanation then print (LExplanation explanation) else ret tt) s0
             = (Ok tt, add_trace s0 (map EPrint
                  (if truthy explanation then [LExplanation explanation] else [])))).
  { intros s0. destruct (truthy explanation); simpl map.
    - apply print_run.
    - now rewrite ret_run, add_trace_nil. }
  rewrite Hexp; cbv beta iota. rewrite bind_run.
  assert (Hw : forall s0 : state World,
             (if truthy warnings then
                print LWarningsHeader ;;
                ws <- lift (py_iter warnings) ;;
                for_each ws (fun warning => print (LWarning warning) ;; ret Next) ;;
                print LBlank
              else ret tt) s0
             = (Ok tt, add_trace s0 (map EPrint
                  (if truthy warnings
                   then LWarningsHeader ::
                        map LWarning
                          (match py_iter warnings with Ok ws => ws | Raise _ => [] end) ++
                        [LBlank]
                   else [])))).
  { intros s0. destruct (truthy warnings).
    - destruct (py_iter warnings) as [ws|e]; [|discriminate].
      rewrite bind_run, print_run; cbv beta iota.
      rewrite bind_run, lift_run; cbv beta iota.
      rewrite bind_run, (for_each_print LWarning); cbv beta iota.
      rewrite print_run, !add_trace_app.
      simpl. now rewrite map_app, map_map.
    - now rewrite ret_run, add_trace_nil. }
  rewrite Hw; cbv beta iota.
  rewrite bind_run, print_run; cbv beta iota.
  rewrite bind_run, lift_run, Ecmds; cbv beta iota.
  rewrite bind_run, (for_each_print (fun i_cmd => LCommand (fst i_cmd) (snd i_cmd)));
    cbv beta iota.
  rewrite bind_run, print_run; cbv beta iota. rewrite ret_run.
  rewrite !add_trace_app. f_equal. f_equal.
  rewrite !map_app. simpl. rewrite map_app, map_map. simpl.
  repeat rewrite <- app_assoc. reflexivity.
Qed.

Lemma plan_lines_plan (result : json) : forallb is_plan_line (plan_lines result) = true.
Proof.
  destruct result; try reflexivity. unfold plan_lines.
  rewrite !forallb_app. simpl. rewrite !forallb_app. simpl.
  repeat (apply andb_true_iff; split); try reflexivity.
  - destruct (truthy _); reflexivity.
  - destruct (truthy _); [|reflexivity]. simpl. rewrite forallb_app. simpl.
    rewrite andb_true_r. apply forallb_forall. intros x Hx.
    apply in_map_iff in Hx. destruct Hx as [y [<- _]]. reflexivity.
  - apply forallb_forall. intros x Hx.
    apply in_map_iff in Hx. destruct Hx as [y [<- _]]. reflexivity.
Qed.

(** The display of a plan announces no attempt, reports no outcome, and
    asks nothing of a collaborator. *)
Lemma plan_lines_quiet (ls : list line) :
  forallb is_plan_line ls = true ->
  attempts (map EPrint ls) = [] /\ reports (map EPrint ls) = [].
Proof.
  induction ls as [|l ls IH]; intros H; simpl in *; [split; reflexivity|].
  apply andb_true_iff in H. destruct H as [Hl H]. destruct (IH H) as [IA IR].
  destruct l; try discriminate; simpl; split; assumption.
Qed.

Lemma filter_prints (p : event -> bool) (ls : list line) :
  (forall l, p (EPrint l) = false) -> filter p (map EPrint ls) = [].
Proof.
  intros H. induction ls as [|l ls IH]; simpl; [reflexivity|]. now rewrite H.
Qed.

Lemma filter_validates (p : event -> bool) (cmds : list json) :
  (forall c, p (EValidate c) = false) -> filter p (map EValidate cmds) = [].
Proof.
  intros H. induction cmds as [|c cmds IH]; simpl; [reflexivity|]. now rewrite H.
Qed.

Lemma attempts_validates (cmds : list json) : attempts (map EValidate cmds) = [].
Proof. induction cmds; simpl; auto. Qed.

Lemma reports_validates (cmds : list json) : reports (map EValidate cmds) = [].
Proof. induction cmds; simpl; auto. Qed.

(** Where an event that [p] accepts stands in [a ++ b], when [p] accepts
    nothing of [a]: after all of [a]. *)
Lemma split_after_prefix (p : event -> bool) (a b before after : list event) (x : event) :
  filter p a = [] -> p x = true ->
  before ++ x :: after = a ++ b ->
  exists b', before = a ++ b'.
Proof.
  revert before. induction a as [|y a IH]; intros before Ha Hx E.
  - exists before. reflexivity.
  - simpl in Ha. destruct (p y) eqn:Hy; [discriminate|].
    destruct before as [|z before]; simpl in E.
    + injection E as E1 E2. subst y. congruence.
    + injection E as E1 E2. subst z.
      destruct (IH before Ha Hx E2) as [b' Hb']. exists b'. simpl. now rewrite Hb'.
Qed.

(** A plan that cannot be displayed: the display raises, after printing at
    most a part of the plan. *)
Lemma display_plan_raise (result : json) (s : state World) :
  displayable result = false ->
  exists e ls, display_plan result s = (Raise e, add_trace s (map EPrint ls)).
Proof.
  intros D. unfold display_plan.
  destruct result as [| | | | | |items];
    try (eexists; exists []; rewrite bind_run, lift_run; cbv beta iota;
         now rewrite add_trace_nil).
  unfold displayable in D. simpl py_get.
  do 4 (rewrite bind_run, lift_run; cbv beta iota).
  set (explanation := dict_get "explanation" (JStr "") items).
  set (warnings := dict_get "warnings" (JArr []) items) in *.
  assert (Hexp : exists l1, forall s0 : state World,
             (if truthy explanation then print (LExplanation explanation) else ret tt) s0
             = (Ok tt, add_trace s0 (map EPrint l1))).
  { destruct (truthy explanation).
    - exists [LExplanation explanation]. intros. apply print_run.
    - exists []. intros. now rewrite ret_run, add_trace_nil. }
  destruct Hexp as [l1 Hexp]. rewrite bind_run, Hexp; cbv beta iota.
  rewrite bind_run.
  destruct (py_iter (dict_get "commands" (JArr []) items)) as [cmds|e] eqn:Ecmds.
  - destruct (truthy warnings); [|discriminate].
    destruct (py_iter warnings) as [ws|e]; [discriminate|].
    exists e, (l1 ++ [LWarningsHeader]).
    rewrite bind_run, print_run; cbv beta iota.
    rewrite bind_run, lift_run; cbv beta iota.
    rewrite add_trace_app, map_app. reflexivity.
  - destruct (truthy warnings).
    + destruct (py_iter warnings) as [ws|e'].
      * exists e, (l1 ++ LWarningsHeader :: map LWarning ws ++ [LBlank; LCommandsHeader]).
        rewrite bind_run, print_run; cbv beta iota.
        rewrite bind_run, lift_run; cbv beta iota.
        rewrite bind_run, (for_each_print LWarning); cbv beta iota.
        rewrite print_run; cbv beta iota.
        rewrite bind_run, print_run; cbv beta iota.
        rewrite bind_run, lift_run; cbv beta iota.
        rewrite !add_trace_app. f_equal. f_equal.
        rewrite !map_app. simpl. rewrite map_app, map_map. simpl.
        repeat rewrite <- app_assoc. reflexivity.
      * exists e', (l1 ++ [LWarningsHeader]).
        rewrite bind_run, print_run; cbv beta iota.
        rewrite bind_run, lift_run; cbv beta iota.
        rewrite add_trace_app, map_app. reflexivity.
    + exists e, (l1 ++ [LCommandsHeader]).
      rewrite ret_run; cbv beta iota.
      rewrite bind_run, print_run; cbv beta iota.
      rewrite bind_run, lift_run; cbv beta iota.
      rewrite add_trace_app, map_app. reflexivity.
Qed.

Lemma displayable_dict (result : json) :
  displayable result = true -> exists items, result = JObj items.
Proof. destruct result; simpl; try discriminate. eauto. Qed.

Lemma displayable_commands (items : list (string * json)) :
  displayable (JObj items) = true ->
  py_iter (dict_get "commands" (JArr []) items) = Ok (plan_commands (JObj items)).
Proof.
  unfold displayable, plan_commands, py_get. intros H.
  destruct (py_iter (dict_get "commands" (JArr []) items)) eqn:E; [|discriminate].
  reflexivity.
Qed.

(** The safety loop over commands that all pass: each is validated, in
    order, and the loop falls through. *)
Lemma check_safety_all_safe (cmds : list json) (s : state World) :
  forallb is_safe cmds = true ->
  for_each cmds check_safety s = (Ok Next, add_trace s (map EValidate cmds)).
Proof.
  revert s. induction cmds as [|c cmds IH]; intros s Hs; simpl.
  - now rewrite ret_run, add_trace_nil.
  - simpl in Hs. apply andb_true_iff in Hs. destruct Hs as [Hc Hs].
    rewrite bind_run. unfold check_safety at 1.
    rewrite bind_run, emit_run; cbv beta iota.
    unfold is_safe in Hc. rewrite Hc. cbn [negb].
    rewrite ret_run; cbv beta iota.
    rewrite IH by assumption. now rewrite add_trace_app.
Qed.

(** The safety loop over commands one of which fails: the commands up to
    the first that fails are validated, its reason is printed, and the
    function returns. *)
Lemma check_safety_unsafe (cmds : list json) (s : state World) :
  forallb is_safe cmds = false ->
  exists pre c post,
    cmds = pre ++ c :: post /\ forallb is_safe pre = true /\ is_safe c = false /\
    for_each cmds check_safety s
    = (Ok Return,
       add_trace s (map EValidate pre ++
                    [EValidate c; EPrint (LSafetyFailed (reason (validate_command_safety c)))])).
Proof.
  revert s. induction cmds as [|c cmds IH]; intros s Hs; simpl in Hs; [discriminate|].
  destruct (is_safe c) eqn:Hc.
  - simpl in Hs. destruct (IH (add_trace s [EValidate c]) Hs)
      as (pre & c' & post & E & Hpre & Hc' & Hrun).
    exists (c :: pre), c', post. repeat split.
    + simpl. now rewrite E.
    + simpl. now rewrite Hc.
    + assumption.
    + simpl for_each. rewrite bind_run. unfold check_safety at 1.
      rewrite bind_run, emit_run; cbv beta iota.
      unfold is_safe in Hc. rewrite Hc. cbn [negb].
      rewrite ret_run; cbv beta iota.
      rewrite Hrun, add_trace_app. reflexivity.
  - exists [], c, cmds. repeat split; try assumption.
    simpl for_each. rewrite bind_run. unfold check_safety at 1.
    rewrite bind_run, emit_run; cbv beta iota.
    unfold is_safe in Hc. rewrite Hc. cbn [negb].
    rewrite bind_run, print_run; cbv beta iota.
    rewrite ret_run; cbv beta iota. rewrite ret_run, add_trace_app. reflexivity.
Qed.

(** One attempt: the command is announced, attempted in the current world,
    and its outcome reported; the loop goes on whatever the outcome. *)
Lemma run_command_run (commands : json) (n i : nat) (cmd : json) (s : state World) :
  py_len commands = Ok n ->
  exists evs,
    run_command commands (i, cmd) s
    = (Ok Next, moved s (snd (attempt cmd (world s))) evs) /\
    attempts evs = [(i, cmd)] /\
    reports evs = [report_of (fst (attempt cmd (world s)))] /\
    filter is_validate evs = [] /\
    filter is_input evs = [] /\
    filter is_completion evs = [] /\
    filter is_subprocess evs = processes_of [cmd].
Proof.
  intros Hn. unfold run_command, attempt, report_of, moved, processes_of.
  rewrite Hn. run_monad.
  destruct (build_shell_command cmd) as [argv|e]; simpl.
  - destruct (subprocess_run argv command_timeout (world s)) as [[p|e] w']; simpl.
    + destruct (stdout p =? "")%string, (stderr p =? "")%string,
        (returncode p =? 0)%Z; simpl;
        repeat rewrite <- app_assoc; simpl;
        (eexists; split; [reflexivity|]); simpl; repeat split; reflexivity.
    + destruct (exn_class e =? "TimeoutExpired")%string; simpl;
        repeat rewrite <- app_assoc; simpl;
        (eexists; split; [reflexivity|]); simpl; repeat split; reflexivity.
  - destruct (exn_class e =? "TimeoutExpired")%string; simpl;
      repeat rewrite <- app_assoc; simpl;
      (eexists; split; [reflexivity|]); simpl; repeat split; reflexivity.
Qed.

(** The execution loop: every command is attempted, in the plan's order, in
    the world the one before left; none of the outcomes stops the loop. *)
Lemma run_commands_run (commands : json) (n : nat) (cmds : list json) (k : nat)
  (s : state World) :
  py_len commands = Ok n ->
  exists evs,
    for_each (enumerate k cmds) (run_command commands) s
    = (Ok Next, moved s (snd (attempt_all cmds (world s))) evs) /\
    attempts evs = enumerate k cmds /\
    reports evs = map report_of (fst (attempt_all cmds (world s))) /\
    filter is_validate evs = [] /\
    filter is_input evs = [] /\
    filter is_completion evs = [] /\
    filter is_subprocess evs = processes_of cmds.
Proof.
  intros Hn. revert k s. induction cmds as [|c cmds IH]; intros k s.
  - exists []. simpl. rewrite ret_run. unfold moved. rewrite app_nil_r.
    destruct s; simpl; repeat split; reflexivity.
  - destruct (run_command_run commands n k c s Hn)
      as (e1 & R1 & A1 & P1 & V1 & I1 & C1 & S1).
    simpl attempt_all.
    destruct (attempt c (world s)) as [o w1] eqn:Ea. simpl fst in *. simpl snd in *.
    destruct (IH (S k) (moved s w1 e1)) as (e2 & R2 & A2 & P2 & V2 & I2 & C2 & S2).
    simpl world in R2, P2.
    destruct (attempt_all cmds w1) as [os w2] eqn:Eall. simpl fst in *. simpl snd in *.
    exists (e1 ++ e2). simpl enumerate.
    rewrite for_each_cons, R1, R2, moved_moved.
    assert (Hp : processes_of [c] ++ processes_of cmds = processes_of (c :: cmds))
      by (unfold processes_of; simpl; now rewrite app_nil_r).
    rewrite attempts_app, reports_app, !filter_app, A1, A2, P1, P2, V1, V2, I1, I2, C1, C2,
      S1, S2, Hp.
    simpl. repeat split; reflexivity.
Qed.

Lemma attempt_all_length (cmds : list json) (w : World) :
  List.length (fst (attempt_all cmds w)) = List.length cmds.
Proof.
  revert w. induction cmds as [|c cmds IH]; intros w; simpl; [reflexivity|].
  destruct (attempt c w) as [o w1]. specialize (IH w1).
  destruct (attempt_all cmds w1) as [os w2]. simpl in *. now rewrite IH.
Qed.

Lemma py_iter_len (commands : json) (cmds : list json) :
  py_iter commands = Ok cmds -> exists n, py_len commands = Ok n.
Proof. destruct commands; simpl; try discriminate; eauto. Qed.

(** A plan that cannot be displayed is not executed: the call raises. *)
Lemma execute_undisplayable (result : json) (auto_confirm dry_run : bool) (s : state World) :
  displayable result = false ->
  exists e ls,
    _execute_commands result auto_confirm dry_run s = (Raise e, add_trace s (map EPrint ls)).
Proof.
  intros D. destruct (display_plan_raise result s D) as (e & ls & E).
  exists e, ls. unfold _execute_commands. now rewrite bind_run, E.
Qed.

(** A dry run displays the plan and stops. *)
Lemma execute_dry_run (items : list (string * json)) (auto_confirm : bool) (s : state World) :
  displayable (JObj items) = true ->
  _execute_commands (JObj items) auto_confirm true s
  = (Ok tt, add_trace s (map EPrint (plan_lines (JObj items) ++ [LDryRun]))).
Proof.
  intros D. unfold _execute_commands.
  rewrite bind_run, (display_plan_run items s D); cbv beta iota.
  rewrite print_run, add_trace_app, map_app. reflexivity.
Qed.

(** A plan with an unsafe command is rejected once the first unsafe command
    is met. *)
Lemma execute_unsafe (items : list (string * json)) (auto_confirm : bool) (s : state World) :
  displayable (JObj items) = true ->
  forallb is_safe (plan_commands (JObj items)) = false ->
  exists pre c post,
    plan_commands (JObj items) = pre ++ c :: post /\
    forallb is_safe pre = true /\ is_safe c = false /\
    _execute_commands (JObj items) auto_confirm false s
    = (Ok tt,
       add_trace s (map EPrint (plan_lines (JObj items)) ++ map EValidate pre ++
                    [EValidate c; EPrint (LSafetyFailed (reason (validate_command_safety c)))])).
Proof.
  intros D U.
  destruct (check_safety_unsafe _ (add_trace s (map EPrint (plan_lines (JObj items)))) U)
    as (pre & c & post & E & Hpre & Hc & Hrun).
  exists pre, c, post. repeat split; try assumption.
  unfold _execute_commands.
  rewrite bind_run, (display_plan_run items s D); cbv beta iota.
  rewrite bind_run, lift_run, (displayable_commands items D); cbv beta iota.
  rewrite bind_run, Hrun; cbv beta iota.
  rewrite ret_run, add_trace_app. reflexivity.
Qed.

(** A safe plan that the user, asked, does not consent to is cancelled. *)
Lemma execute_declined (items : list (string * json)) (auto_confirm : bool) (s : state World) :
  displayable (JObj items) = true ->
  forallb is_safe (plan_commands (JObj items)) = true ->
  asks (JObj items) auto_confirm = true ->
  consents (world s) = false ->
  _execute_commands (JObj items) auto_confirm false s
  = (Ok tt,
     moved s (snd (input confirmation_prompt (world s)))
       (map EPrint (plan_lines (JObj items)) ++
        map EValidate (plan_commands (JObj items)) ++
        [question (world s); EPrint LCancelled])).
Proof.
  intros D Sf A C. unfold _execute_commands.
  rewrite bind_run, (display_plan_run items s D); cbv beta iota.
  rewrite bind_run, lift_run, (displayable_commands items D); cbv beta iota.
  rewrite bind_run, check_safety_all_safe by assumption; cbv beta iota.
  unfold asks, plan_requires_confirmation in A. simpl py_get in A. rewrite A.
  unfold consents, confirmation_prompt in C. unfold question, confirmation_prompt.
  unfold ask. run_monad.
  destruct (input "Execute these commands? (y/N): " (world s)) as [answer w'] eqn:Ei.
  simpl in *. rewrite C. simpl. unfold moved. simpl.
  repeat rewrite <- app_assoc. reflexivity.
Qed.

(** A safe plan that is not asked about, or is consented to, is executed:
    every command is attempted in order. *)
Lemma execute_runs (items : list (string * json)) (auto_confirm : bool) (s : state World) :
  displayable (JObj items) = true ->
  forallb is_safe (plan_commands (JObj items)) = true ->
  asks (JObj items) auto_confirm = false \/ consents (world s) = true ->
  exists evs,
    _execute_commands (JObj items) auto_confirm false s
    = (Ok tt,
       moved s
         (snd (attempt_all (plan_commands (JObj items))
                 (world_after_question (JObj items) auto_confirm (world s))))
         (map EPrint (plan_lines (JObj items)) ++
          map EValidate (plan_commands (JObj items)) ++
          (if asks (JObj items) auto_confirm then [question (world s)] else []) ++
          opening_lines ++ evs)) /\
    attempts evs = enumerate 1 (plan_commands (JObj items)) /\
    reports evs
    = map report_of
        (fst (attempt_all (plan_commands (JObj items))
                (world_after_question (JObj items) auto_confirm (world s)))) /\
    filter is_validate evs = [] /\
    filter is_input evs = [] /\
    filter is_completion evs = [] /\
    filter is_subprocess evs = processes_of (plan_commands (JObj items)).
Proof.
  intros D Sf AC.
  destruct (py_iter_len _ _ (displayable_commands items D)) as [n Hn].
  unfold world_after_question.
  set (w1 := if asks (JObj items) auto_confirm
             then snd (input confirmation_prompt (world s)) else world s).
  set (pre := map EPrint (plan_lines (JObj items)) ++
              map EValidate (plan_commands (JObj items)) ++
              (if asks (JObj items) auto_confirm then [question (world s)] else []) ++
              opening_lines).
  destruct (run_commands_run _ n (plan_commands (JObj items)) 1 (moved s w1 pre) Hn)
    as (evs & R & A & P & V & I & C & Pr).
  exists evs. split; [|repeat split; assumption].
  unfold _execute_commands.
  rewrite bind_run, (display_plan_run items s D); cbv beta iota.
  rewrite bind_run, lift_run, (displayable_commands items D); cbv beta iota.
  rewrite bind_run, check_safety_all_safe by assumption; cbv beta iota.
  rewrite bind_run.
  assert (Hq : (if truthy (dict_get "requires_confirmation" (JBool true) items) &&
                   negb auto_confirm
                then
                  response <- ask "Execute these commands? (y/N): " ;;
                  (if negb (lower response =? "y")%string
                   then print LCancelled ;; ret Return
                   else ret Next)
                else ret Next)
                 (add_trace
                    (add_trace s (map EPrint (plan_lines (JObj items))))
                    (map EValidate (plan_commands (JObj items))))
               = (Ok Next,
                  moved s w1
                    (map EPrint (plan_lines (JObj items)) ++
                     map EValidate (plan_commands (JObj items)) ++
                     (if asks (JObj items) auto_confirm then [question (world s)] else [])))).
  { unfold asks, plan_requires_confirmation in *. simpl py_get in *. subst w1.
    destruct (truthy (dict_get "requires_confirmation" (JBool true) items) &&
              negb auto_confirm).
    - destruct AC as [AC|AC]; [discriminate|].
      unfold consents, confirmation_prompt in AC. unfold question, confirmation_prompt.
      unfold ask. run_monad.
      destruct (input "Execute these commands? (y/N): " (world s)) as [answer w'].
      simpl in *. rewrite AC. simpl. unfold moved. simpl.
      repeat rewrite <- app_assoc. reflexivity.
    - rewrite ret_run, add_trace_app, app_nil_r. reflexivity. }
  rewrite Hq; cbv beta iota.
  rewrite bind_run, print_run; cbv beta iota.
  rewrite bind_run, print_run; cbv beta iota.
  rewrite bind_run.
  replace (add_trace (add_trace (moved s w1 _) _) _) with (moved s w1 pre).
  - rewrite R; cbv beta iota. rewrite ret_run, moved_moved.
    subst pre. simpl world. repeat rewrite <- app_assoc. reflexivity.
  - subst pre. unfold add_trace, moved, opening_lines. simpl.
    repeat rewrite <- app_assoc. reflexivity.
Qed.

Lemma not_all_safe (cmds : list json) (c : json) :
  In c cmds -> is_safe c = false -> forallb is_safe cmds = false.
Proof.
  intros Hin Hc. destruct (forallb is_safe cmds) eqn:E; [|reflexivity].
  rewrite forallb_forall in E. rewrite (E c Hin) in Hc. discriminate.
Qed.

(** C1. For every plan and every execution with [dry_run = false]: if the
    Safety Validator finds a command of the plan unsafe, the execution runs
    no process and leaves the world as it was, and a plan that could be
    displayed is rejected with the reason given for an unsafe command of it;
    and wherever a process is run, every command of the plan has passed the
    Safety Validator, and was validated before that process was started. *)
Theorem C1_unsafe_plan_runs_nothing :
  forall (result : json) (auto_confirm : bool) (s : state World),
    let r := fst (_execute_commands result auto_confirm false s) in
    let s' := snd (_execute_commands result auto_confirm false s) in
    ((exists c, In c (plan_commands result) /\ is_safe c = false) ->
     filter is_subprocess (trace s') = filter is_subprocess (trace s) /\
     world s' = world s /\
     (displayable result = true ->
      r = Ok tt /\
      exists c before,
        In c (plan_commands result) /\ is_safe c = false /\
        trace s' = trace s ++ before ++
                   [EPrint (LSafetyFailed (reason (validate_command_safety c)))])) /\
    (forall before argv timeout after,
        trace s' = trace s ++ before ++ ESubprocess argv timeout :: after ->
        forall c, In c (plan_commands result) ->
                  is_safe c = true /\ In (EValidate c) before).
Proof.
  intros result auto_confirm s r s'. subst r s'.
  destruct (displayable result) eqn:D.
  - destruct (displayable_dict result D) as [items ->].
    destruct (forallb is_safe (plan_commands (JObj items))) eqn:Sf.
    + (* every command is safe *)
      split.
      { intros (c & Hin & Hc). rewrite (not_all_safe _ c Hin Hc) in Sf. discriminate. }
      intros before argv timeout after E c Hin. split.
      { rewrite forallb_forall in Sf. now apply Sf. }
      destruct (asks (JObj items) auto_confirm) eqn:A;
        [destruct (consents (world s)) eqn:C|].
      2:{ (* declined: nothing was run *)
          rewrite (execute_declined items auto_confirm s D Sf A C) in E. read_state in E.
          apply app_inv_head in E. exfalso.
          assert (H : In (ESubprocess argv timeout)
                        (map EPrint (plan_lines (JObj items)) ++
                         map EValidate (plan_commands (JObj items)) ++
                         [question (world s); EPrint LCancelled])).
          { rewrite E. apply in_or_app. right. now left. }
          repeat (apply in_app_or in H; destruct H as [H|H]).
          - apply in_map_iff in H. destruct H as [x [H _]]. discriminate.
          - apply in_map_iff in H. destruct H as [x [H _]]. discriminate.
          - destruct H as [H|[H|[]]]; discriminate. }
      all: (destruct (execute_runs items auto_confirm s D Sf) as (evs & R & _);
            [auto|]; rewrite R in E; read_state in E; apply app_inv_head in E;
            assert (E2 : before ++ ESubprocess argv timeout :: after
                         = (map EPrint (plan_lines (JObj items)) ++
                            map EValidate (plan_commands (JObj items)) ++
                            (if asks (JObj items) auto_confirm
                             then [question (world s)] else []) ++
                            opening_lines) ++ evs)
              by (rewrite <- E; repeat rewrite <- app_assoc; reflexivity);
            apply (split_after_prefix is_subprocess) in E2;
            [destruct E2 as [b' ->]; apply in_or_app; left;
             apply in_or_app; right; apply in_or_app; left;
             apply in_map; assumption
            | rewrite !filter_app, filter_prints, filter_validates by reflexivity;
              destruct (asks _ _); reflexivity
            | reflexivity]).
    + (* some command is unsafe *)
      destruct (execute_unsafe items auto_confirm s D Sf)
        as (pre & c & post & E & Hpre & Hc & R).
      rewrite R. read_state. split.
      * intros _. rewrite !filter_app, filter_prints, filter_validates by reflexivity.
        simpl. rewrite app_nil_r. repeat split.
        exists c, (map EPrint (plan_lines (JObj items)) ++ map EValidate pre ++ [EValidate c]).
        repeat split.
        -- rewrite E. apply in_or_app. right. now left.
        -- assumption.
        -- repeat rewrite <- app_assoc. reflexivity.
      * intros before argv timeout after E' c0 _. exfalso.
        apply app_inv_head in E'.
        assert (H : In (ESubprocess argv timeout)
                      (map EPrint (plan_lines (JObj items)) ++ map EValidate pre ++
                       [EValidate c;
                        EPrint (LSafetyFailed (reason (validate_command_safety c)))])).
        { rewrite E'. apply in_or_app. right. now left. }
        repeat (apply in_app_or in H; destruct H as [H|H]).
        -- apply in_map_iff in H. destruct H as [x [H _]]. discriminate.
        -- apply in_map_iff in H. destruct H as [x [H _]]. discriminate.
        -- destruct H as [H|[H|[]]]; discriminate.
  - destruct (execute_undisplayable result auto_confirm false s D) as (e & ls & R).
    rewrite R. read_state. split.
    + intros _. rewrite filter_app, filter_prints by reflexivity.
      rewrite app_nil_r. split; [reflexivity|]. split; [reflexivity|]. discriminate.
    + intros before argv timeout after E c _. exfalso.
      apply app_inv_head in E.
      assert (H : In (ESubprocess argv timeout) (map EPrint ls)).
      { rewrite E. apply in_or_app. right. now left. }
      apply in_map_iff in H. destruct H as [x [H _]]. discriminate.
Qed.

Lemma lower_char_y (c : ascii) :
  lower_char c = "y"%char -> c = "y"%char \/ c = "Y"%char.
Proof.
  destruct c as [[] [] [] [] [] [] [] []]; vm_compute; intros H;
    try discriminate; auto.
Qed.

(** The answers that [response.lower() != 'y'] lets pass. *)
Lemma lower_is_y (a : string) :
  lower a = "y"%string <-> a = "y"%string \/ a = "Y"%string.
Proof.
  split.
  - destruct a as [|c [|c' a]]; simpl; try discriminate.
    intros H. injection H as H. destruct (lower_char_y c H) as [-> | ->]; auto.
  - intros [-> | ->]; reflexivity.
Qed.

Lemma quiet_prefix (result : json) (cmds : list json) (q evs : list event) :
  (q = [] \/ exists w, q = [question w]) ->
  attempts (map EPrint (plan_lines result) ++ map EValidate cmds ++ q ++
            opening_lines ++ evs) = attempts evs /\
  reports (map EPrint (plan_lines result) ++ map EValidate cmds ++ q ++
           opening_lines ++ evs) = reports evs.
Proof.
  intros Hq.
  destruct (plan_lines_quiet _ (plan_lines_plan result)) as [A R].
  rewrite !attempts_app, !reports_app, A, R, attempts_validates, reports_validates.
  destruct Hq as [-> | [w ->]]; split; reflexivity.
Qed.

(** C2. For every safe plan executed with [dry_run = false]: the user is
    asked exactly when the plan requires confirmation and [auto_confirm] is
    false; when asked, any answer but [y] (or [Y]: the answer is lowered)
    cancels the plan, no command being attempted and no process run; with
    [auto_confirm] the user is not asked and every command is executed,
    whatever [requires_confirmation] says: each command is announced and
    attempted in the plan's order, in the world the one before left, the
    processes started are those of the commands (one for each command whose
    argument vector can be built), every attempt is reported, and the world
    at the end is the one the attempts left. *)
Theorem C2_confirmation_gate :
  forall (items : list (string * json)) (auto_confirm : bool) (s : state World),
    displayable (JObj items) = true ->
    forallb is_safe (plan_commands (JObj items)) = true ->
    let r := fst (_execute_commands (JObj items) auto_confirm false s) in
    let s' := snd (_execute_commands (JObj items) auto_confirm false s) in
    exists new,
      trace s' = trace s ++ new /\ r = Ok tt /\
      filter is_input new
      = (if plan_requires_confirmation (JObj items) && negb auto_confirm
         then [question (world s)] else []) /\
      (plan_requires_confirmation (JObj items) && negb auto_confirm = true ->
       fst (input confirmation_prompt (world s)) <> "y"%string ->
       fst (input confirmation_prompt (world s)) <> "Y"%string ->
       attempts new = [] /\ filter is_subprocess new = [] /\
       world s' = snd (input confirmation_prompt (world s)) /\
       exists before, new = before ++ [EPrint LCancelled]) /\
      (auto_confirm = true ->
       filter is_input new = [] /\
       attempts new = enumerate 1 (plan_commands (JObj items)) /\
       filter is_subprocess new = processes_of (plan_commands (JObj items)) /\
       reports new
       = map report_of (fst (attempt_all (plan_commands (JObj items)) (world s))) /\
       List.length (reports new) = List.length (plan_commands (JObj items)) /\
       world s' = snd (attempt_all (plan_commands (JObj items)) (world s))).
Proof.
  intros items auto_confirm s D Sf r s'. subst r s'.
  fold (asks (JObj items) auto_confirm).
  destruct (asks (JObj items) auto_confirm) eqn:A;
    [destruct (consents (world s)) eqn:C|].
  - (* asked, and the user consents *)
    destruct (execute_runs items auto_confirm s D Sf) as (evs & R & At & _ & _ & I & _);
      [auto|].
    rewrite R, A. read_state. eexists. split; [reflexivity|]. split; [reflexivity|].
    split; [|split].
    + rewrite !filter_app, filter_prints, filter_validates, I by reflexivity. reflexivity.
    + intros _ Hy HY. unfold consents in C. apply String.eqb_eq, lower_is_y in C.
      tauto.
    + intros ->. unfold asks in A. rewrite andb_false_r in A. discriminate.
  - (* asked, and the user does not *)
    rewrite (execute_declined items auto_confirm s D Sf A C). read_state.
    eexists. split; [reflexivity|]. split; [reflexivity|].
    split; [|split].
    + rewrite !filter_app, filter_prints, filter_validates by reflexivity. reflexivity.
    + intros _ _ _.
      destruct (plan_lines_quiet _ (plan_lines_plan (JObj items))) as [Ap _].
      rewrite !attempts_app, Ap, attempts_validates.
      rewrite !filter_app, filter_prints, filter_validates by reflexivity.
      repeat split.
      exists (map EPrint (plan_lines (JObj items)) ++
              map EValidate (plan_commands (JObj items)) ++ [question (world s)]).
      repeat rewrite <- app_assoc. reflexivity.
    + intros ->. unfold asks in A. rewrite andb_false_r in A. discriminate.
  - (* not asked *)
    destruct (execute_runs items auto_confirm s D Sf)
      as (evs & R & At & Rp & _ & I & _ & Pr); [auto|].
    unfold world_after_question in R, Rp. rewrite A in Rp.
    rewrite R, A. read_state. eexists. split; [reflexivity|]. split; [reflexivity|].
    split; [|split].
    + rewrite !filter_app, filter_prints, filter_validates, I by reflexivity. reflexivity.
    + discriminate.
    + intros _.
      destruct (quiet_prefix (JObj items) (plan_commands (JObj items)) [] evs)
        as [Aq Rq]; [auto|].
      split; [|split; [|split; [|split; [|split]]]].
      * rewrite !filter_app, filter_prints, filter_validates, I by reflexivity. reflexivity.
      * rewrite Aq. exact At.
      * rewrite !filter_app, filter_prints, filter_validates, Pr by reflexivity.
        reflexivity.
      * rewrite Rq. exact Rp.
      * rewrite Rq, Rp, length_map. apply attempt_all_length.
      * reflexivity.
Qed.

(** C8. For every safe plan that is not asked about or is consented to:
    the commands are attempted strictly in the plan's order, each in the
    world that the one before left, whatever that one came to (a non-zero
    exit code, the time limit of 300 seconds, any other failure); every
    command gets its own report, the call itself ends normally, and running
    out of time is reported as [TimedOut], a non-zero exit code as
    [ExitedWith]. *)
Theorem C8_outcomes_do_not_halt :
  forall (items : list (string * json)) (auto_confirm : bool) (s : state World),
    displayable (JObj items) = true ->
    forallb is_safe (plan_commands (JObj items)) = true ->
    asks (JObj items) auto_confirm = false \/ consents (world s) = true ->
    let cmds := plan_commands (JObj items) in
    let w := world_after_question (JObj items) auto_confirm (world s) in
    let r := fst (_execute_commands (JObj items) auto_confirm false s) in
    let s' := snd (_execute_commands (JObj items) auto_confirm false s) in
    exists new,
      trace s' = trace s ++ new /\ r = Ok tt /\
      attempts new = enumerate 1 cmds /\
      reports new = map report_of (fst (attempt_all cmds w)) /\
      List.length (reports new) = List.length cmds /\
      world s' = snd (attempt_all cmds w) /\
      command_timeout = 300%Z /\
      (forall e, exn_class e = "TimeoutExpired"%string -> report_of (Raise e) = TimedOut) /\
      (forall p, returncode p <> 0%Z -> report_of (Ok p) = ExitedWith (returncode p)).
Proof.
  intros items auto_confirm s D Sf AC cmds w r s'. subst cmds w r s'.
  destruct (execute_runs items auto_confirm s D Sf AC) as (evs & R & At & Rp & _).
  rewrite R. read_state. eexists. split; [reflexivity|]. split; [reflexivity|].
  destruct (quiet_prefix (JObj items) (plan_commands (JObj items))
              (if asks (JObj items) auto_confirm then [question (world s)] else []) evs)
    as [Aq Rq].
  { destruct (asks _ _); eauto. }
  rewrite Aq, Rq, At, Rp, length_map, attempt_all_length.
  repeat split.
  - intros e He. unfold report_of. now rewrite He.
  - intros p Hp. unfold report_of.
    destruct (returncode p =? 0)%Z eqn:E; [|reflexivity].
    apply Z.eqb_eq in E. contradiction.
Qed.

(** C9. For every plan executed with [dry_run = true]: the world and the
    history are left as they were and the call only prints, so the Safety
    Validator is not called, the user is not asked and no process is run;
    a plan that can be displayed is displayed in full (explanation,
    warnings, numbered commands), then the dry-run notice is printed and
    the call returns; a second dry run leaves the world unchanged too. *)
Theorem C9_dry_run_only_displays :
  forall (result : json) (auto_confirm : bool) (s : state World),
    let r := fst (_execute_commands result auto_confirm true s) in
    let s' := snd (_execute_commands result auto_confirm true s) in
    world s' = world s /\
    conversation_history s' = conversation_history s /\
    (exists ls, trace s' = trace s ++ map EPrint ls) /\
    filter is_validate (trace s') = filter is_validate (trace s) /\
    filter is_input (trace s') = filter is_input (trace s) /\
    filter is_subprocess (trace s') = filter is_subprocess (trace s) /\
    (displayable result = true ->
     r = Ok tt /\ trace s' = trace s ++ map EPrint (plan_lines result ++ [LDryRun])) /\
    world (snd (_execute_commands result auto_confirm true s')) = world s.
Proof.
  intros result auto_confirm s r s'. subst r s'.
  assert (H : forall s0 : state World,
             exists r ls,
               _execute_commands result auto_confirm true s0
               = (r, add_trace s0 (map EPrint ls)) /\
               (displayable result = true ->
                r = Ok tt /\ ls = plan_lines result ++ [LDryRun])).
  { intros s0. destruct (displayable result) eqn:D.
    - destruct (displayable_dict result D) as [items ->].
      exists (Ok tt), (plan_lines (JObj items) ++ [LDryRun]). split.
      + apply execute_dry_run, D.
      + auto.
    - destruct (execute_undisplayable result auto_confirm true s0 D) as (e & ls & R).
      exists (Raise e), ls. split; [exact R|discriminate]. }
  destruct (H s) as (r & ls & R & Hd). rewrite R. read_state.
  destruct (H (add_trace s (map EPrint ls))) as (r2 & ls2 & R2 & _). rewrite R2.
  read_state.
  rewrite !filter_app, !filter_prints, !app_nil_r by reflexivity.
  repeat split; eauto;
    match goal with
    | D : displayable result = true |- _ => destruct (Hd D) as [-> ->]; reflexivity
    end.
Qed.

End ExecuteCommands.

(** ** Splitting text *)

Section StringFacts.

Lemma str_take_app (a b : string) : str_take (String.length a) (a ++ b)%string = a.
Proof. induction a as [|c a IH]; simpl; [now destruct b|now rewrite IH]. Qed.

Lemma str_drop_app (a b : string) : str_drop (String.length a) (a ++ b)%string = b.
Proof. induction a as [|c a IH]; simpl; [now destruct b|exact IH]. Qed.

Lemma str_drop_add (n m : nat) (s : string) :
  str_drop (n + m) s = str_drop m (str_drop n s).
Proof.
  revert s. induction n as [|n IH]; intros s; simpl; [reflexivity|].
  destruct s as [|c s]; [now destruct m|apply IH].
Qed.

Lemma str_drop_length (n : nat) (s : string) :
  String.length (str_drop n s) = String.length s - n.
Proof.
  revert s. induction n as [|n IH]; intros s; simpl; [lia|].
  destruct s as [|c s]; simpl; [reflexivity|apply IH].
Qed.

Lemma starts_with_length (sub s : string) :
  starts_with sub s = true -> String.length sub <= String.length s.
Proof.
  unfold starts_with. revert sub. induction s as [|d s IH]; intros [|c sub] H;
    simpl in *; try lia; try discriminate.
  destruct (ascii_dec c d); [|discriminate]. apply IH in H. lia.
Qed.

Lemma str_find_bound (sub s : string) (i : nat) :
  str_find sub s = Some i -> i + String.length sub <= String.length s.
Proof.
  revert i. induction s as [|c s IH]; intros i; cbn [str_find].
  - destruct (starts_with sub "") eqn:E; [|discriminate].
    intros H. injection H as <-. apply starts_with_length in E. simpl in *. lia.
  - destruct (starts_with sub (String c s)) eqn:E.
    + intros H. injection H as <-. apply starts_with_length in E. simpl in *. lia.
    + destruct (str_find sub s) as [j|]; [|discriminate].
      cbn [option_map]. intros H. injection H as <-. specialize (IH j eq_refl).
      simpl. lia.
Qed.

Lemma split_fuel_first (fuel : nat) (sep s : string) :
  sep <> ""%string -> String.length s <= fuel ->
  index (split_fuel fuel sep s) 0 = Ok (first_piece sep s).
Proof.
  intros Hsep Hfuel. unfold first_piece. destruct fuel as [|fuel]; simpl.
  - destruct s as [|c s]; [|simpl in Hfuel; lia].
    destruct (str_find sep "") as [i|] eqn:E; [|reflexivity].
    apply str_find_bound in E. simpl in E.
    destruct sep; [contradiction|simpl in E; lia].
  - destruct (str_find sep s); reflexivity.
Qed.

Lemma split_first (sep s : string) :
  sep <> ""%string -> index (split sep s) 0 = Ok (first_piece sep s).
Proof. intros H. apply split_fuel_first; [assumption|lia]. Qed.

(** The second piece of a split: the first piece of what follows the first
    separator. *)
Lemma split_second (sep s : string) (i : nat) :
  sep <> ""%string -> str_find sep s = Some i ->
  index (split sep s) 1
  = Ok (first_piece sep (str_drop (i + String.length sep) s)).
Proof.
  intros Hsep E. unfold split.
  pose proof (str_find_bound _ _ _ E) as B.
  assert (Hl : 0 < String.length sep) by (destruct sep; [contradiction|simpl; lia]).
  destruct (String.length s) as [|n] eqn:L; [lia|].
  simpl. rewrite E. unfold index. simpl.
  change (index (split_fuel n sep (str_drop (i + String.length sep) s)) 0
          = Ok (first_piece sep (str_drop (i + String.length sep) s))).
  apply split_fuel_first; [assumption|]. rewrite str_drop_length. lia.
Qed.

Lemma str_in_find (sub s : string) (i : nat) :
  str_find sub s = Some i -> str_in sub s = true.
Proof. unfold str_in. now intros ->. Qed.

Lemma str_in_split (sep s : string) :
  sep <> ""%string -> str_in sep s = true ->
  exists after, index (split sep s) 1 = Ok after.
Proof.
  unfold str_in. intros Hsep H. destruct (str_find sep s) as [i|] eqn:E; [|discriminate].
  eexists. apply (split_second sep s i Hsep E).
Qed.

Lemma starts_with_app (sub a b : string) :
  starts_with sub a = true -> starts_with sub (a ++ b)%string = true.
Proof.
  unfold starts_with. revert sub. induction a as [|c a IH]; intros [|d sub] H;
    simpl in *; try reflexivity; try discriminate.
  - now destruct b.
  - destruct (ascii_dec d c); [|discriminate]. now apply IH.
Qed.

Lemma starts_with_take (sub s : string) (k : nat) :
  starts_with sub s = true -> String.length sub <= k ->
  starts_with sub (str_take k s) = true.
Proof.
  unfold starts_with. revert sub k. induction s as [|c s IH]; intros [|d sub] k H L;
    simpl in *; try discriminate.
  - now destruct k.
  - now destruct k.
  - destruct k as [|k]; [lia|]. simpl.
    destruct (ascii_dec d c); [|discriminate]. apply IH; [assumption|lia].
Qed.

Lemma starts_with_of_take (sub s : string) (k : nat) :
  starts_with sub (str_take k s) = true -> starts_with sub s = true.
Proof.
  unfold starts_with. revert sub k. induction s as [|c s IH]; intros [|d sub] k H;
    simpl in *; try reflexivity.
  - destruct k; simpl in H; discriminate.
  - destruct k as [|k]; simpl in H; [discriminate|].
    destruct (ascii_dec d c); [|discriminate]. now apply (IH sub k).
Qed.

Lemma str_take_take (j k : nat) (s : string) :
  j <= k -> str_take j (str_take k s) = str_take j s.
Proof.
  revert k s. induction j as [|j IH]; intros k s L.
  - now destruct (str_take k s).
  - destruct k as [|k]; [lia|]. destruct s as [|c s]; simpl; [reflexivity|].
    rewrite IH by lia. reflexivity.
Qed.

(** The first occurrence is still the first in a prefix that holds it. *)
Lemma str_find_take (sub s : string) (j k : nat) :
  str_find sub s = Some j -> j + String.length sub <= k ->
  str_find sub (str_take k s) = Some j.
Proof.
  revert j k. induction s as [|c s IH]; intros j k; cbn [str_find].
  - destruct (starts_with sub "") eqn:E; [|discriminate].
    intros H L. injection H as <-.
    destruct k; cbn [str_take str_find]; now rewrite E.
  - destruct (starts_with sub (String c s)) eqn:E.
    + intros H L. injection H as <-.
      destruct (str_take k (String c s)) eqn:T; cbn [str_find];
        rewrite <- T, (starts_with_take _ _ _ E) by lia; reflexivity.
    + destruct (str_find sub s) as [j'|] eqn:F; [|discriminate].
      cbn [option_map]. intros H L. injection H as <-.
      destruct k as [|k]; [lia|]. cbn [str_take str_find].
      destruct (starts_with sub (String c (str_take k s))) eqn:E'.
      * apply (starts_with_of_take sub (String c s) (S k)) in E'. congruence.
      * rewrite (IH j' k eq_refl) by lia. reflexivity.
Qed.

(** Before the first occurrence there is none. *)
Lemma str_find_before (sub a b : string) :
  sub <> ""%string ->
  str_find sub (a ++ b)%string = Some (String.length a) -> str_find sub a = None.
Proof.
  intros Hsub. induction a as [|c a IH]; cbn [str_find String.append String.length].
  - intros _. destruct (starts_with sub "") eqn:E; [|reflexivity].
    apply starts_with_length in E. destruct sub; [contradiction|simpl in E; lia].
  - destruct (starts_with sub (String c (a ++ b))) eqn:E; [discriminate|].
    destruct (str_find sub (a ++ b)) as [j|] eqn:F; [|discriminate].
    cbn [option_map]. intros H. injection H as ->.
    destruct (starts_with sub (String c a)) eqn:E'.
    + apply (starts_with_app _ _ b) in E'. cbn [String.append] in E'. congruence.
    + now rewrite IH.
Qed.

(** The text of the block that follows the first [opening]: of what follows
    it, the part before the next [opening], up to its first fence. *)
Lemma block_after_find (opening content : string) (i : nat) :
  opening <> ""%string -> str_find opening content = Some i ->
  block_after opening content
  = Ok (strip (first_piece fence
                 (first_piece opening (str_drop (i + String.length opening) content)))).
Proof.
  intros Ho E. unfold block_after.
  rewrite (split_second opening content i Ho E).
  change "```"%string with fence. rewrite split_first by discriminate. reflexivity.
Qed.

(** [block_after] never raises on a text that contains the opening. *)
Lemma block_after_ok (opening content : string) :
  opening <> ""%string -> str_in opening content = true ->
  exists block, block_after opening content = Ok block.
Proof.
  unfold str_in. intros Ho H.
  destruct (str_find opening content) as [i|] eqn:E; [|discriminate].
  eexists. apply (block_after_find opening content i Ho E).
Qed.

(** The block that [opening] opens at the end of [pre], closed by the first
    fence after it, any later [opening] standing after that fence. *)
Lemma block_after_body (opening pre body post : string) :
  opening <> ""%string ->
  str_find opening (pre ++ opening ++ body ++ fence ++ post)%string
  = Some (String.length pre) ->
  str_find fence (body ++ fence ++ post)%string = Some (String.length body) ->
  (forall k, str_find opening (body ++ fence ++ post)%string = Some k ->
             String.length body + String.length fence <= k) ->
  block_after opening (pre ++ opening ++ body ++ fence ++ post)%string = Ok (strip body).
Proof.
  intros Ho Hfirst Hclosed Hnext.
  rewrite (block_after_find _ _ _ Ho Hfirst).
  rewrite str_drop_add, str_drop_app, str_drop_app.
  assert (Hb : str_find fence body = None)
    by (apply (str_find_before fence body (fence ++ post)); [discriminate|assumption]).
  unfold first_piece at 2.
  destruct (str_find opening (body ++ fence ++ post)) as [k|] eqn:Ek.
  - specialize (Hnext k eq_refl).
    unfold first_piece. rewrite (str_find_take _ _ _ k Hclosed Hnext).
    rewrite str_take_take by lia. now rewrite str_take_app.
  - unfold first_piece. rewrite Hclosed. now rewrite str_take_app.
Qed.

End StringFacts.

(** ** The response parser *)

Section Parser.

Context {World : Type} {host : Host World}.

Lemma dict_lookup_app {V : Type} (k : string) (a b : list (string * V)) :
  dict_lookup k (a ++ b)
  = match dict_lookup k a with Some v => Some v | None => dict_lookup k b end.
Proof.
  induction a as [|[k' v] a IH]; simpl; [reflexivity|].
  destruct (k' =? k)%string; [reflexivity|exact IH].
Qed.

(** A key that is absent, added with the value that [get] defaults to. *)
Lemma dict_get_absent_default {V : Type} (k k' : string) (d d' : V)
  (items : list (string * V)) :
  dict_lookup k items = None -> (k' = k -> d' = d) ->
  dict_get k' d' (items ++ [(k, d)]) = dict_get k' d' items.
Proof.
  intros H Hd. unfold dict_get. rewrite dict_lookup_app.
  destruct (dict_lookup k' items); [reflexivity|].
  simpl. destruct (k =? k')%string eqn:E; [|reflexivity].
  apply String.eqb_eq in E. symmetry. apply Hd. now symmetry.
Qed.

(** A plan without the field [k] is executed as the plan with [k] set to
    [d], when [d] is what the read of [k] defaults to; the four reads of
    [_execute_commands] are listed with their defaults. *)
Lemma execute_with_default (items : list (string * json)) (k : string) (d : json)
  (auto_confirm dry_run : bool) (s0 : state World) :
  dict_lookup k items = None ->
  (forall k' d',
      In (k', d') [("commands", JArr []); ("explanation", JStr ""); ("warnings", JArr []);
                   ("requires_confirmation", JBool true)] ->
      k' = k -> d' = d) ->
  _execute_commands (JObj items) auto_confirm dry_run s0
  = _execute_commands (JObj (items ++ [(k, d)])) auto_confirm dry_run s0.
Proof.
  intros H Hd. unfold _execute_commands, display_plan. cbn [py_get].
  rewrite !(dict_get_absent_default k _ d _ items H).
  - reflexivity.
  - apply Hd. simpl. tauto.
  - apply Hd. simpl. tauto.
  - apply Hd. simpl. tauto.
  - apply Hd. simpl. tauto.
Qed.

Lemma candidate_ok (content : string) : exists t, candidate content = Ok t.
Proof.
  unfold candidate.
  destruct (str_in fence_json content) eqn:E1.
  - apply block_after_ok; [discriminate|assumption].
  - destruct (str_in fence content) eqn:E2.
    + apply block_after_ok; [discriminate|assumption].
    + eauto.
Qed.

Lemma parse_run (content : string) (s : state World) :
  _parse_llm_response content s
  = (Ok match candidate content with
        | Ok t => match json_loads t with Ok v => v | Raise _ => JNull end
        | Raise _ => JNull
        end, s).
Proof.
  unfold _parse_llm_response, candidate, try_except.
  destruct (str_in fence_json content).
  - rewrite bind_run, lift_run. destruct (block_after fence_json content) as [t|e];
      [|reflexivity].
    rewrite lift_run. destruct (json_loads t); reflexivity.
  - destruct (str_in fence content).
    + rewrite bind_run, lift_run. destruct (block_after fence content) as [t|e];
        [|reflexivity].
      rewrite lift_run. destruct (json_loads t); reflexivity.
    + rewrite lift_run. destruct (json_loads content); reflexivity.
Qed.

(** C7. The response parser is total: on every text it returns and leaves
    the state alone; at each of its three stages (labeled block, any block,
    whole text) the text to decode is taken without an error, and the
    answer is the decoded value, or [None] when that text does not decode. *)
Theorem C7_parser_total :
  forall (content : string) (s : state World),
    exists v t,
      _parse_llm_response content s = (Ok v, s) /\
      candidate content = Ok t /\
      (str_in fence_json content = true -> block_after fence_json content = Ok t) /\
      (str_in fence_json content = false -> str_in fence content = true ->
       block_after fence content = Ok t) /\
      (str_in fence_json content = false -> str_in fence content = false -> t = content) /\
      (forall e, json_loads t = Raise e -> v = JNull) /\
      (forall x, json_loads t = Ok x -> v = x).
Proof.
  intros content s. destruct (candidate_ok content) as [t Ht].
  exists (match json_loads t with Ok v => v | Raise _ => JNull end), t.
  rewrite parse_run, Ht. split; [reflexivity|]. split; [reflexivity|].
  unfold candidate in Ht.
  repeat split.
  - intros E. now rewrite E in Ht.
  - intros E1 E2. now rewrite E1, E2 in Ht.
  - intros E1 E2. rewrite E1, E2 in Ht. now injection Ht.
  - intros e E. now rewrite E.
  - intros x E. now rewrite E.
Qed.

(** C6, as amended.  A text whose first labeled fence (or, when it has no
    labeled fence, whose first fence) opens a block that is closed by the
    first fence after it, any later labeled fence standing after that closing
    fence, and whose body decodes: the parser returns the decoded body.  And
    for every plan that is executed, a field among [explanation],
    [warnings] and [requires_confirmation] that is absent is taken as the
    empty string, the empty list and true: [_execute_commands] does to the
    plan without the field what it does to the plan with the field set to
    that value, in every mode and every state. *)
Theorem C6_first_block_round_trip :
  forall (labeled : bool) (pre body post : string) (plan : json) (s : state World),
    let opening := if labeled then fence_json else fence in
    let content := (pre ++ opening ++ body ++ fence ++ post)%string in
    (labeled = false -> str_in fence_json content = false) ->
    str_find opening content = Some (String.length pre) ->
    str_find fence (body ++ fence ++ post)%string = Some (String.length body) ->
    (labeled = true ->
     forall k, str_find fence_json (body ++ fence ++ post)%string = Some k ->
               String.length body + String.length fence <= k) ->
    json_loads (strip body) = Ok plan ->
    _parse_llm_response content s = (Ok plan, s) /\
    (forall items auto_confirm dry_run s0,
        (dict_lookup "explanation" items = None ->
         _execute_commands (JObj items) auto_confirm dry_run s0
         = _execute_commands (JObj (items ++ [("explanation", JStr "")]))
             auto_confirm dry_run s0) /\
        (dict_lookup "warnings" items = None ->
         _execute_commands (JObj items) auto_confirm dry_run s0
         = _execute_commands (JObj (items ++ [("warnings", JArr [])]))
             auto_confirm dry_run s0) /\
        (dict_lookup "requires_confirmation" items = None ->
         _execute_commands (JObj items) auto_confirm dry_run s0
         = _execute_commands (JObj (items ++ [("requires_confirmation", JBool true)]))
             auto_confirm dry_run s0)).
Proof.
  intros labeled pre body post plan s opening content Hunl Hfirst Hclosed Hnext Hplan.
  split.
  - rewrite parse_run. unfold candidate. subst opening content.
    destruct labeled.
    + rewrite (str_in_find _ _ _ Hfirst).
      rewrite (block_after_body fence_json pre body post); try assumption;
        [|discriminate|now apply Hnext].
      now rewrite Hplan.
    + rewrite (Hunl eq_refl), (str_in_find _ _ _ Hfirst).
      rewrite (block_after_find fence _ _ ltac:(discriminate) Hfirst).
      rewrite str_drop_add, !str_drop_app.
      unfold first_piece at 2. rewrite Hclosed, str_take_app.
      unfold first_piece.
      rewrite (str_find_before fence body (fence ++ post) ltac:(discriminate) Hclosed).
      now rewrite Hplan.
  - intros items auto_confirm dry_run s0.
    split; [|split]; intros E; apply execute_with_default; try assumption;
      intros k' d' [H|[H|[H|[H|[]]]]] Hk; injection H as <- <-;
      first [reflexivity|discriminate Hk].
Qed.

End Parser.

(** ** Tool dispatch *)

Section Dispatch.

Context {World : Type} {host : Host World}.

Lemma answered_answered (s : state World) (m1 m2 : list message) (e1 e2 : list event) :
  answered (answered s m1 e1) m2 e2 = answered s (m1 ++ m2) (e1 ++ e2).
Proof. unfold answered; simpl. now rewrite !app_assoc. Qed.

(** Arguments that do not decode: the exception leaves the dispatch. *)
Lemma handle_tool_call_undecoded (tc : tool_call) (s : state World) (e : exn) :
  json_loads (tc_arguments tc) = Raise e ->
  handle_tool_call tc s = (Raise e, s).
Proof. intros E. unfold handle_tool_call. now rewrite bind_run, lift_run, E. Qed.

(** Arguments that decode: the dispatch goes on to the next request, having
    appended the Tool Result of a registered tool, and only printed a
    warning for an unknown one. *)
Lemma handle_tool_call_decoded (tc : tool_call) (s : state World) (arguments : json) :
  json_loads (tc_arguments tc) = Ok arguments ->
  exists evs,
    handle_tool_call tc s = (Ok Next, answered s (result_messages (world s) tc) evs) /\
    filter is_completion evs = [] /\
    (is_tool_function (tc_name tc) = false ->
     evs = [ESleep ToolCallDelaySeconds;
            EPrint (LCallingTool (tc_name tc) arguments);
            EPrint (LUnknownTool (tc_name tc))]).
Proof.
  intros E. unfold handle_tool_call, result_messages, tool_outcome, answered.
  rewrite E. unfold add_tool_response, invoke_tool. run_monad.
  destruct (is_tool_function (tc_name tc)); simpl.
  - destruct arguments as [| | | | | |kwargs]; simpl;
      try (eexists; repeat rewrite <- app_assoc; simpl;
           split; [reflexivity|]; split; [reflexivity|discriminate]).
    destruct (call_tool (tc_name tc) kwargs (world s)) as [v|e]; simpl;
      eexists; repeat rewrite <- app_assoc; simpl;
      (split; [reflexivity|]); split; [reflexivity|discriminate|reflexivity|discriminate].
  - eexists. repeat rewrite <- app_assoc. simpl. rewrite app_nil_r.
    split; [reflexivity|]. split; reflexivity.
Qed.

Lemma handle_tool_calls_decoded (tool_calls : list tool_call) (s : state World) :
  (forall tc, In tc tool_calls -> exists arguments, json_loads (tc_arguments tc) = Ok arguments) ->
  exists evs,
    for_each tool_calls handle_tool_call s
    = (Ok Next, answered s (flat_map (result_messages (world s)) tool_calls) evs) /\
    filter is_completion evs = [].
Proof.
  revert s. induction tool_calls as [|tc tcs IH]; intros s H.
  - exists []. simpl. rewrite ret_run. unfold answered. rewrite !app_nil_r.
    destruct s; split; reflexivity.
  - destruct (H tc (or_introl eq_refl)) as [a Ha].
    destruct (handle_tool_call_decoded tc s a Ha) as (e1 & R1 & C1 & _).
    destruct (IH (answered s (result_messages (world s) tc) e1)) as (e2 & R2 & C2).
    { intros tc' Hin. apply H. now right. }
    exists (e1 ++ e2). rewrite for_each_cons, R1, R2, answered_answered.
    rewrite filter_app, C1, C2. split; reflexivity.
Qed.







End Dispatch.

(** ** The conversation session *)

Section Chat.

Context {World : Type} {host : Host World}.

(** C10. For every message sent through [chat]: if the backend call raises,
    [chat] raises an exception that carries the backend's error text and the
    history is what it was; the user turn and the assistant turn are
    appended, in this order, once the backend has answered; and whenever the
    history has changed, the backend had answered. *)
Theorem C10_failed_call_leaves_history :
  forall (user_message : string) (tools : option (list tool_definition))
         (use_planning_mode : bool) (prompt : string) (s : state World),
    (if use_planning_mode then read_planner_prompt else Ok system_prompt) = Ok prompt ->
    let answer := litellm_completion (sent_messages prompt s user_message)
                    (passed_tools tools) (world s) in
    let r := fst (chat user_message tools use_planning_mode s) in
    let s' := snd (chat user_message tools use_planning_mode s) in
    (forall e, fst answer = Raise e ->
       r = Raise (Exn "Exception" ("LiteLLM error: " ++ exn_str e)%string) /\
       conversation_history s' = conversation_history s) /\
    (forall response m rest, fst answer = Ok response -> choices response = m :: rest ->
       r = Ok response /\
       conversation_history s'
       = conversation_history s ++ [UserMessage user_message; assistant_turn m]) /\
    (conversation_history s' <> conversation_history s ->
     exists response, fst answer = Ok response).
Proof.
  intros user_message tools use_planning_mode prompt s Hp answer r s'.
  subst answer r s'. unfold chat, sent_messages, passed_tools, assistant_turn, completion.
  rewrite bind_run.
  assert (Hprompt : (if use_planning_mode then lift read_planner_prompt else ret system_prompt) s
                    = (Ok prompt, s)).
  { destruct use_planning_mode; [rewrite lift_run|rewrite ret_run]; congruence. }
  rewrite Hprompt; cbv beta iota. run_monad.
  destruct (litellm_completion _ _ (world s)) as [[response|e] w']; simpl.
  - destruct (choices response) as [|m rest] eqn:Ec; simpl.
    + split; [discriminate|]. split; [|eauto].
      intros response' m' rest' E1 E2. injection E1 as <-. congruence.
    + split; [discriminate|]. split; [|eauto].
      intros response' m' rest' E1 E2. injection E1 as <-.
      rewrite Ec in E2. injection E2 as <- <-.
      split; [reflexivity|]. now rewrite <- app_assoc.
  - split; [|split].
    + intros e' E. injection E as <-. split; reflexivity.
    + discriminate.
    + intros H. contradiction.
Qed.

End Chat.


(** ** The bound of the orchestration loop *)

Section Bound.

Context {World : Type} {host : Host World}.

Variable p : event -> bool.

Lemma adds_ret {A : Type} (a : A) : adds_at_most p 0 (ret (World := World) a).
Proof. intros s. simpl. lia. Qed.

Lemma adds_lift {A : Type} (r : result A) : adds_at_most p 0 (lift (World := World) r).
Proof. intros s. simpl. lia. Qed.

Lemma adds_raise {A : Type} (e : exn) : adds_at_most p 0 (raise (World := World) (A := A) e).
Proof. intros s. simpl. lia. Qed.

Lemma adds_emit (e : event) : p e = false -> adds_at_most p 0 (emit (World := World) e).
Proof.
  intros H s. simpl. rewrite filter_app. simpl. rewrite H, app_nil_r. lia.
Qed.

Lemma adds_emit_one (e : event) : adds_at_most p 1 (emit (World := World) e).
Proof.
  intros s. simpl. rewrite filter_app, length_app. simpl. destruct (p e); simpl; lia.
Qed.

Lemma adds_history_append (m : message) :
  adds_at_most p 0 (history_append (World := World) m).
Proof. intros s. simpl. lia. Qed.

Lemma adds_get_history : adds_at_most p 0 (get_history (World := World)).
Proof. intros s. simpl. lia. Qed.

Lemma adds_with_world {A : Type} (f : World -> result A * World) :
  adds_at_most p 0 (with_world f).
Proof. intros s. unfold with_world. destruct (f (world s)). simpl. lia. Qed.

Lemma adds_reading {A : Type} (f : World -> result A) :
  adds_at_most p 0 (fun s => (f (world s), s)).
Proof. intros s. simpl. lia. Qed.

Lemma adds_weaken {A : Type} (n n' : nat) (m : M World A) :
  n <= n' -> adds_at_most p n m -> adds_at_most p n' m.
Proof. intros L H s. specialize (H s). lia. Qed.

Lemma adds_bind {A B : Type} (n k : nat) (m : M World A) (f : A -> M World B) :
  adds_at_most p n m -> (forall a, adds_at_most p k (f a)) ->
  adds_at_most p (n + k) (bind m f).
Proof.
  intros Hm Hf s. unfold bind. specialize (Hm s).
  destruct (m s) as [[a|e] s1]; simpl in *; [|lia].
  specialize (Hf a s1). lia.
Qed.

Lemma adds_bind_quiet {A B : Type} (m : M World A) (f : A -> M World B) :
  adds_at_most p 0 m -> (forall a, adds_at_most p 0 (f a)) ->
  adds_at_most p 0 (bind m f).
Proof. intros Hm Hf. apply (adds_bind 0 0); assumption. Qed.

Lemma adds_try_except {A : Type} (n k : nat) (m : M World A) (h : exn -> M World A) :
  adds_at_most p n m -> (forall e, adds_at_most p k (h e)) ->
  adds_at_most p (n + k) (try_except m h).
Proof.
  intros Hm Hh s. unfold try_except. specialize (Hm s).
  destruct (m s) as [[a|e] s1]; simpl in *; [lia|].
  specialize (Hh e s1). lia.
Qed.

Lemma adds_for_each {A : Type} (l : list A) (body : A -> M World flow) :
  (forall x, adds_at_most p 0 (body x)) -> adds_at_most p 0 (for_each l body).
Proof.
  intros H. induction l as [|x l IH]; simpl.
  - apply adds_ret.
  - apply adds_bind_quiet; [apply H|]. intros [|]; [exact IH|apply adds_ret].
Qed.

End Bound.

(** Proves that straight-line code adds no step that [p] accepts. *)
Ltac quiet :=
  repeat first
    [ apply adds_ret | apply adds_lift | apply adds_raise
    | apply adds_history_append | apply adds_get_history | apply adds_with_world
    | apply adds_reading
    | apply adds_emit; reflexivity
    | apply adds_for_each; intros
    | apply adds_bind_quiet; [|intros]
    | apply (adds_try_except _ 0 0); [|intros]
    | match goal with
      | |- adds_at_most _ _ (if ?b then _ else _) => destruct b
      | |- adds_at_most _ _ (match ?x with _ => _ end) => destruct x
      | |- adds_at_most _ _ (let (_, _) := ?x in _) => destruct x
      end ].

Section Loop.

Context {World : Type} {host : Host World}.

Lemma handle_tool_calls_quiet (tool_calls : list tool_call) :
  adds_at_most is_completion 0 (_handle_tool_calls tool_calls).
Proof.
  unfold _handle_tool_calls, handle_tool_call, add_tool_response, invoke_tool,
    print, sleep.
  quiet.
Qed.

Lemma parse_quiet (content : string) :
  adds_at_most is_completion 0 (_parse_llm_response content).
Proof. intros s. rewrite parse_run. simpl. lia. Qed.

Lemma execute_commands_quiet (result : json) (auto_confirm dry_run : bool) :
  adds_at_most is_completion 0 (_execute_commands result auto_confirm dry_run).
Proof.
  unfold _execute_commands, display_plan, check_safety, ask, run_command, print.
  quiet.
Qed.

Lemma chat_one_call (user_message : string) (tools : option (list tool_definition))
  (use_planning_mode : bool) :
  adds_at_most is_completion 1 (chat user_message tools use_planning_mode).
Proof.
  unfold chat, completion, sleep.
  apply (adds_bind _ 0 1); [quiet|]. intros prompt.
  apply (adds_bind _ 0 1); [quiet|]. intros history.
  apply (adds_try_except _ 1 0); [|intros; quiet].
  apply (adds_bind _ 0 1); [quiet|]. intros _.
  apply (adds_bind _ 1 0); [|intros; quiet].
  apply (adds_bind _ 1 0); [apply adds_emit_one|intros; quiet].
Qed.

(** The final branch of a round: the content is parsed, and executed or
    displayed. *)
Lemma final_answer_quiet (content : string) (auto_confirm dry_run : bool) :
  adds_at_most is_completion 0
    (result <- _parse_llm_response content ;;
     has_commands <-
       (if truthy result then lift (py_contains "commands" result) else ret false) ;;
     if has_commands then _execute_commands result auto_confirm dry_run
     else print (LAnswer content)).
Proof.
  apply adds_bind_quiet; [apply parse_quiet|]. intros result.
  apply adds_bind_quiet; [quiet|]. intros [|].
  - apply execute_commands_quiet.
  - unfold print. quiet.
Qed.

(** Each round of the loop calls the backend at most once. *)
Lemma quick_task_loop_calls (remaining iteration : nat) (context : string)
  (auto_confirm dry_run : bool) :
  adds_at_most is_completion remaining
    (quick_task_loop remaining iteration context auto_confirm dry_run).
Proof.
  revert iteration. induction remaining as [|remaining IH]; intros iteration.
  - simpl. unfold print. quiet.
  - cbn [quick_task_loop].
    apply (adds_bind _ 1 remaining).
    + apply (adds_try_except _ 1 0).
      * apply (adds_bind _ 1 0); [apply chat_one_call|intros; quiet].
      * intros e. unfold print. quiet.
    + intros [response|]; [|apply (adds_weaken _ 0); [lia|quiet]].
      apply (adds_bind _ 0 remaining); [quiet|]. intros message.
      destruct (am_tool_calls message) as [[|tc tcs]|].
      * destruct (am_content message) as [[|c content']|]; try apply IH.
        apply (adds_weaken _ 0); [lia|apply final_answer_quiet].
      * apply (adds_bind _ 0 remaining); [apply handle_tool_calls_quiet|].
        intros _. apply IH.
      * destruct (am_content message) as [[|c content']|]; try apply IH.
        apply (adds_weaken _ 0); [lia|apply final_answer_quiet].
Qed.

(** X1. Whatever the backend, the tools and the user do, and however the
    task ends, [execute_quick_task] calls the backend at most
    [max_iterations] = 10 times. *)
Theorem at_most_ten_round_trips :
  forall (task_description : string) (auto_confirm dry_run : bool) (s : state World),
    List.length
      (filter is_completion
         (trace (snd (execute_quick_task task_description auto_confirm dry_run s))))
    <= List.length (filter is_completion (trace s)) + 10.
Proof.
  intros task_description auto_confirm dry_run.
  change 10 with (0 + max_iterations).
  apply (adds_bind _ 0 max_iterations (print (LTask task_description))).
  - unfold print. quiet.
  - intros _. apply quick_task_loop_calls.
Qed.

End Loop.

Section Runaway.

Context {World : Type} {host : Host World}.

(** [chat] once the backend has answered. *)
Lemma chat_answered (user_message : string) (tools : option (list tool_definition))
  (s : state World) (m : assistant_message) (rest : list assistant_message) (w' : World) :
  litellm_completion (sent_messages system_prompt s user_message) (passed_tools tools)
    (world s) = (Ok {| choices := m :: rest |}, w') ->
  chat user_message tools false s
  = (Ok {| choices := m :: rest |},
     {| conversation_history :=
          conversation_history s ++ [UserMessage user_message; assistant_turn m];
        world := w';
        trace := trace s ++ [ESleep RateLimitSeconds;
                             ECompletion (sent_messages system_prompt s user_message)
                               (passed_tools tools)] |}).
Proof.
  intros E. unfold chat, completion, assistant_turn. unfold sent_messages, passed_tools in *.
  run_monad. simpl in E. rewrite E. simpl.
  repeat rewrite <- app_assoc. reflexivity.
Qed.

Lemma runaway_loop (remaining iteration : nat) (context : string)
  (auto_confirm dry_run : bool) (s : state World) :
  always_asks_for_tools ->
  exists s' evs,
    quick_task_loop remaining iteration context auto_confirm dry_run s = (Ok tt, s') /\
    trace s' = trace s ++ evs ++ [EPrint LMaxIterations] /\
    List.length (filter is_completion evs) = remaining.
Proof.
  intros Hb. revert iteration s. induction remaining as [|remaining IH]; intros iteration s.
  - exists (add_trace s [EPrint LMaxIterations]), []. simpl. repeat split.
  - cbn [quick_task_loop].
    set (user_message := if (S iteration =? 1)%nat then context
                         else "Continue with the task."%string).
    destruct (Hb (sent_messages system_prompt s user_message)
                (passed_tools (Some TOOL_DEFINITIONS)) (world s))
      as (m & rest & tc & tcs & Ea & Etc & Hdec).
    destruct (litellm_completion (sent_messages system_prompt s user_message)
                (passed_tools (Some TOOL_DEFINITIONS)) (world s)) as [r w'] eqn:El.
    simpl in Ea. subst r.
    pose proof (chat_answered user_message (Some TOOL_DEFINITIONS) s m rest w' El) as Hc.
    remember {| conversation_history :=
                  conversation_history s ++ [UserMessage user_message; assistant_turn m];
                world := w';
                trace := trace s ++ [ESleep RateLimitSeconds;
                                     ECompletion (sent_messages system_prompt s user_message)
                                       (passed_tools (Some TOOL_DEFINITIONS))] |} as s1 eqn:Es1.
    destruct (handle_tool_calls_decoded (tc :: tcs) s1 Hdec) as (evs2 & Rh & Ch).
    destruct (IH (S iteration)
                (answered s1 (flat_map (result_messages (world s1)) (tc :: tcs)) evs2))
      as (s' & evs3 & Rl & Tl & Cl).
    exists s', ([ESleep RateLimitSeconds;
                 ECompletion (sent_messages system_prompt s user_message)
                   (passed_tools (Some TOOL_DEFINITIONS))] ++ evs2 ++ evs3).
    split; [|split].
    + rewrite bind_run. unfold try_except at 1. rewrite bind_run, Hc; cbv beta iota.
      rewrite ret_run; cbv beta iota.
      rewrite bind_run, lift_run; cbn [choices index nth_error]; cbv beta iota.
      rewrite Etc. unfold _handle_tool_calls. rewrite bind_run, bind_run, Rh; cbv beta iota.
      rewrite ret_run; cbv beta iota. exact Rl.
    + rewrite Tl. cbn [trace answered]. rewrite Es1. cbn [trace].
      repeat rewrite <- app_assoc. reflexivity.
    + rewrite !filter_app, !length_app, Ch, Cl. reflexivity.
Qed.

(** X2. When every response carries tool calls whose arguments decode, the
    task ends normally after exactly ten calls of the backend, the last
    thing printed being the notice that the maximum of iterations was
    reached. *)
Theorem runaway_tool_calls_hit_the_bound :
  always_asks_for_tools ->
  forall (task_description : string) (auto_confirm dry_run : bool) (s : state World),
  exists evs,
    fst (execute_quick_task task_description auto_confirm dry_run s) = Ok tt /\
    trace (snd (execute_quick_task task_description auto_confirm dry_run s))
    = trace s ++ evs ++ [EPrint LMaxIterations] /\
    List.length (filter is_completion evs) = 10.
Proof.
  intros Hb task_description auto_confirm dry_run s.
  unfold execute_quick_task. rewrite bind_run, print_run; cbv beta iota.
  destruct (runaway_loop (max_iterations - 0) 0 (build_context task_description)
              auto_confirm dry_run (add_trace s [EPrint (LTask task_description)]) Hb)
    as (s' & evs & R & T & C).
  exists (EPrint (LTask task_description) :: evs). rewrite R. cbn [fst snd].
  split; [reflexivity|]. split.
  - rewrite T. cbn [trace add_trace]. rewrite <- app_assoc. reflexivity.
  - simpl. exact C.
Qed.

End Runaway.

Section Terminal.

Context {World : Type} {host : Host World}.

(** A round in which the backend fails. *)
Lemma round_with_transport_failure (remaining : nat) (context : string)
  (auto_confirm dry_run : bool) (s : state World) (e : exn) (w' : World) :
  litellm_completion (sent_messages system_prompt s context)
    (passed_tools (Some TOOL_DEFINITIONS)) (world s) = (Raise e, w') ->
  quick_task_loop (S remaining) 0 context auto_confirm dry_run s
  = (Ok tt,
     moved s w'
       [ESleep RateLimitSeconds;
        ECompletion (sent_messages system_prompt s context)
          (passed_tools (Some TOOL_DEFINITIONS));
        EPrint (LLLMError (Exn "Exception" ("LiteLLM error: " ++ exn_str e)%string))]).
Proof.
  intros E. cbn [quick_task_loop Nat.eqb]. unfold chat, completion.
  unfold sent_messages, passed_tools in *. run_monad. simpl in E. rewrite E. simpl.
  unfold moved. repeat rewrite <- app_assoc. reflexivity.
Qed.

(** X3. A failure of the backend in the first round ends the task at once,
    normally, with the error reported: the backend was called once, nothing
    was appended to the history, nothing else happened. *)
Theorem transport_failure_ends_task :
  forall (task_description : string) (auto_confirm dry_run : bool) (s : state World)
         (e : exn) (w' : World),
    litellm_completion (sent_messages system_prompt s (build_context task_description))
      (passed_tools (Some TOOL_DEFINITIONS)) (world s) = (Raise e, w') ->
    execute_quick_task task_description auto_confirm dry_run s
    = (Ok tt,
       moved s w'
         [EPrint (LTask task_description);
          ESleep RateLimitSeconds;
          ECompletion (sent_messages system_prompt s (build_context task_description))
            (passed_tools (Some TOOL_DEFINITIONS));
          EPrint (LLLMError (Exn "Exception" ("LiteLLM error: " ++ exn_str e)%string))]).
Proof.
  intros task_description auto_confirm dry_run s e w' E.
  unfold execute_quick_task. change (max_iterations - 0) with (S 9).
  rewrite bind_run, print_run; cbv beta iota.
  rewrite (round_with_transport_failure 9 _ auto_confirm dry_run
             (add_trace s [EPrint (LTask task_description)]) e w' E).
  unfold moved, add_trace. cbn [conversation_history world trace].
  repeat rewrite <- app_assoc. reflexivity.
Qed.

End Terminal.

(** ** Concrete runs *)

Section Checks.

Import Scenario.

(** The plan of three commands whose second is unsafe: nothing is run. *)
Lemma C1_witness :
  (exists c, In c (plan_commands (JObj plan_unsafe)) /\ is_safe (host := host_n) c = false) /\
  filter is_subprocess
    (trace (snd (_execute_commands (host := host_n) (JObj plan_unsafe) true false Demo.start)))
  = [] /\
  world (snd (_execute_commands (host := host_n) (JObj plan_unsafe) true false Demo.start))
  = [].
Proof.
  assert (U : exists c, In c (plan_commands (JObj plan_unsafe)) /\
                        is_safe (host := host_n) c = false).
  { exists (JStr "rm -rf /"). split; [right; left; reflexivity|reflexivity]. }
  split; [exact U|].
  destruct (C1_unsafe_plan_runs_nothing (host := host_n) (JObj plan_unsafe) true Demo.start)
    as [H _].
  destruct (H U) as (H1 & H2 & _). split; [exact H1|exact H2].
Defined.

(** A safe plan that requires confirmation, and the answer [n]: the user is
    asked once and nothing is attempted.  The same plan with [auto_confirm]:
    the user is not asked and the three commands are run, in order. *)
Lemma C2_witness :
  displayable (JObj plan_slow) = true /\
  forallb (is_safe (host := host_n)) (plan_commands (JObj plan_slow)) = true /\
  (exists new,
     trace (snd (_execute_commands (host := host_n) (JObj plan_slow) false false Demo.start))
     = new /\
     filter is_input new = [EInput confirmation_prompt "n"] /\
     attempts new = []) /\
  (exists new,
     trace (snd (_execute_commands (host := host_n) (JObj plan_slow) true false Demo.start))
     = new /\
     filter is_input new = [] /\
     filter is_subprocess new
     = [ESubprocess ["bash"; "-c"; "ls"] 300; ESubprocess ["bash"; "-c"; "sleep 999"] 300;
        ESubprocess ["bash"; "-c"; "pwd"] 300] /\
     world (snd (_execute_commands (host := host_n) (JObj plan_slow) true false Demo.start))
     = [["bash"; "-c"; "ls"]; ["bash"; "-c"; "sleep 999"]; ["bash"; "-c"; "pwd"]]).
Proof.
  split; [reflexivity|]. split; [reflexivity|]. split.
  - destruct (C2_confirmation_gate (host := host_n) plan_slow false Demo.start
                eq_refl eq_refl) as (new & T & _ & I & Hd & _).
    exists new. split; [exact T|]. split; [exact I|].
    destruct Hd as (A & _); [reflexivity|discriminate|discriminate|exact A].
  - destruct (C2_confirmation_gate (host := host_n) plan_slow true Demo.start
                eq_refl eq_refl) as (new & T & _ & _ & _ & Ha).
    destruct (Ha eq_refl) as (I & _ & P & _ & _ & W).
    exists new. split; [exact T|]. split; [exact I|]. split; [exact P|exact W].
Defined.



(** C4 fails on the code.  A request whose arguments do not decode: the
    exception of [json.loads] leaves the dispatch, and with it the task;
    the history holds no Tool Result for the request. *)
Theorem C4_undecodable_arguments_escape :
  fst (_handle_tool_calls (host := host_n) [malformed_call] Demo.start)
  = Raise (Exn "JSONDecodeError" "Expecting value") /\
  fst (execute_quick_task (host := Demo.host (backend_asking malformed_call) "n")
         "list files" false false Demo.start)
  = Raise (Exn "JSONDecodeError" "Expecting value") /\
  filter (is_result_for (tc_id malformed_call))
    (conversation_history
       (snd (execute_quick_task (host := Demo.host (backend_asking malformed_call) "n")
               "list files" false false Demo.start)))
  = [].
Proof. vm_compute. repeat split. Qed.

(** C5 fails on the code.  Ten responses that all carry a tool call, the
    arguments of the tenth being cut short: the task ends in the tenth
    round with the exception of [json.loads], and the notice of the maximum
    of iterations is not printed. *)
Theorem C5_tenth_round_can_crash :
  let run := execute_quick_task (host := Demo.host (backend_turning 29) "n")
               "list files" false false Demo.start in
  fst run = Raise (Exn "JSONDecodeError" "Expecting value") /\
  List.length (filter is_completion (trace (snd run))) = 10 /\
  existsb (fun e => match e with EPrint LMaxIterations => true | _ => false end)
    (trace (snd run)) = false.
Proof. vm_compute. repeat split. Qed.

(** A labeled block in the middle of a text is returned decoded. *)
Lemma C6_witness :
  str_find fence_json text_with_block = Some 10 /\
  json_loads (Host := host_n) (strip block_body) = Ok (JObj [("commands", JArr [JStr "ls -la"])]) /\
  _parse_llm_response (host := host_n) text_with_block Demo.start
  = (Ok (JObj [("commands", JArr [JStr "ls -la"])]), Demo.start).
Proof.
  split; [reflexivity|]. split; [reflexivity|].
  refine (proj1 (C6_first_block_round_trip (host := host_n) true "Run this: " block_body
                   " and tell me." (JObj [("commands", JArr [JStr "ls -la"])]) Demo.start
                   _ _ _ _ _)).
  - discriminate.
  - reflexivity.
  - reflexivity.
  - intros _ k H. vm_compute in H. discriminate.
  - reflexivity.
Defined.

(** Two texts that hold a well-formed labeled block with the four fields
    of a plan, which the parser does not return.  In the first the block
    stands alone and its command holds three backticks: the body is cut at
    them and the parser returns [None].  In the second the block is the
    second labeled block of the text: the parser returns the first. *)
Lemma C6_well_formed_block_not_returned :
  text_with_backticks = (fence_json ++ backtick_body ++ fence)%string /\
  json_loads (Host := host_n) (strip backtick_body) = Ok backtick_plan /\
  fst (_parse_llm_response (host := host_n) text_with_backticks Demo.start) = Ok JNull /\
  json_loads (Host := host_n) (strip second_body) = Ok second_plan /\
  fst (_parse_llm_response (host := host_n) text_with_second_block Demo.start)
  = Ok (JObj [("note", JStr "format")]).
Proof. vm_compute. repeat split. Qed.

(** Three safe commands, the second of which runs out of time: the three
    are attempted and each reports its outcome. *)
Lemma C8_witness :
  displayable (JObj plan_slow) = true /\
  forallb (is_safe (host := host_n)) (plan_commands (JObj plan_slow)) = true /\
  exists new,
    trace (snd (_execute_commands (host := host_n) (JObj plan_slow) true false Demo.start))
    = new /\
    attempts new = [(1, JStr "ls"); (2, JStr "sleep 999"); (3, JStr "pwd")] /\
    reports new = [Succeeded; TimedOut; Succeeded].
Proof.
  split; [reflexivity|]. split; [reflexivity|].
  destruct (C8_outcomes_do_not_halt (host := host_n) plan_slow true Demo.start
              eq_refl eq_refl (or_introl eq_refl)) as (new & T & _ & A & R & _).
  exists new. split; [exact T|]. split; [exact A|exact R].
Defined.

(** The dry run of a plan prints the plan and the notice, and nothing else
    happens. *)
Lemma C9_witness :
  displayable (JObj plan_slow) = true /\
  trace (snd (_execute_commands (host := host_n) (JObj plan_slow) false true Demo.start))
  = map EPrint
      [LExplanation (JStr "List, wait, locate."); LWarningsHeader;
       LWarning (JStr "The second command is slow."); LBlank; LCommandsHeader;
       LCommand 1 (JStr "ls"); LCommand 2 (JStr "sleep 999"); LCommand 3 (JStr "pwd");
       LBlank; LDryRun].
Proof.
  split; [reflexivity|].
  destruct (C9_dry_run_only_displays (host := host_n) (JObj plan_slow) false Demo.start)
    as (_ & _ & _ & _ & _ & _ & H & _).
  exact (proj2 (H eq_refl)).
Defined.

(** The backend is down: [chat] raises and the history stays empty. *)
Lemma C10_witness :
  fst (litellm_completion (Host := host_n)
         (sent_messages (system_prompt (Host := host_n)) Demo.start "hello") None [])
  = Raise (Exn "APIConnectionError" "Connection refused") /\
  fst (chat (host := host_n) "hello" None false Demo.start)
  = Raise (Exn "Exception" "LiteLLM error: Connection refused") /\
  conversation_history (snd (chat (host := host_n) "hello" None false Demo.start)) = [].
Proof.
  split; [reflexivity|].
  destruct (C10_failed_call_leaves_history (host := host_n) "hello" None false
              (system_prompt (Host := host_n)) Demo.start eq_refl) as (H & _).
  exact (H (Exn "APIConnectionError" "Connection refused") eq_refl).
Defined.

(** A backend that asks for [known_call] in every round. *)
Lemma runaway_witness :
  always_asks_for_tools (host := Demo.host (backend_asking known_call) "n") /\
  fst (execute_quick_task (host := Demo.host (backend_asking known_call) "n")
         "list files" false false Demo.start) = Ok tt.
Proof.
  assert (H : always_asks_for_tools (host := Demo.host (backend_asking known_call) "n")).
  { intros messages tools w.
    exists {| am_content := None; am_tool_calls := Some [known_call] |}, [], known_call, [].
    split; [reflexivity|]. split; [reflexivity|].
    intros tc' [<-|[]]. eexists. vm_compute. reflexivity. }
  split; [exact H|].
  destruct (runaway_tool_calls_hit_the_bound (host := Demo.host (backend_asking known_call) "n")
              H "list files" false false Demo.start) as (evs & R & _).
  exact R.
Defined.

(** The backend is down: the task ends with the error reported. *)
Lemma transport_failure_witness :
  fst (execute_quick_task (host := host_n) "list files" false false Demo.start) = Ok tt /\
  conversation_history
    (snd (execute_quick_task (host := host_n) "list files" false false Demo.start)) = [].
Proof.
  assert (E : litellm_completion (Host := host_n)
                (sent_messages (system_prompt (Host := host_n)) Demo.start
                   (build_context (host := host_n) "list files"))
                (passed_tools (Some TOOL_DEFINITIONS)) (world Demo.start)
              = (Raise (Exn "APIConnectionError" "Connection refused"), []))
    by (vm_compute; reflexivity).
  rewrite (transport_failure_ends_task (host := host_n) "list files" false false
             Demo.start _ _ E).
  cbn [fst snd moved conversation_history Demo.start]. split; reflexivity.
Defined.

End Checks.

(** ** Logs that only grow: the rules *)

Section Logs.

Context {World L : Type}.

Variable proj : state World -> list L.
Variable P : L -> Prop.

Lemma logs_same {A : Type} (m : M World A) :
  (forall s, proj (snd (m s)) = proj s) -> logs proj P m.
Proof. intros H s. exists []. rewrite H, app_nil_r. split; [reflexivity|constructor]. Qed.

Lemma logs_ret {A : Type} (a : A) : logs proj P (ret a).
Proof. apply logs_same. reflexivity. Qed.

Lemma logs_lift {A : Type} (r : result A) : logs proj P (lift r).
Proof. apply logs_same. reflexivity. Qed.

Lemma logs_raise {A : Type} (e : exn) : logs proj P (raise (A := A) e).
Proof. apply logs_same. reflexivity. Qed.

Lemma logs_reading {A : Type} (f : World -> result A) :
  logs proj P (fun s => (f (world s), s)).
Proof. apply logs_same. reflexivity. Qed.

(** In the continuation, the value bound is one that [m] can return. *)
Lemma logs_bind {A B : Type} (m : M World A) (k : A -> M World B) :
  logs proj P m ->
  (forall a, (exists s, fst (m s) = Ok a) -> logs proj P (k a)) ->
  logs proj P (bind m k).
Proof.
  intros Hm Hk s. unfold bind. destruct (Hm s) as (l1 & E1 & F1).
  destruct (m s) as [[a|e] s1] eqn:Em; simpl in *.
  - destruct (Hk a (ex_intro _ s (f_equal fst Em)) s1) as (l2 & E2 & F2).
    exists (l1 ++ l2). rewrite E2, E1, app_assoc. split; [reflexivity|].
    apply Forall_app. split; assumption.
  - exists l1. split; assumption.
Qed.

Lemma logs_try_except {A : Type} (m : M World A) (h : exn -> M World A) :
  logs proj P m -> (forall e, logs proj P (h e)) -> logs proj P (try_except m h).
Proof.
  intros Hm Hh s. unfold try_except. destruct (Hm s) as (l1 & E1 & F1).
  destruct (m s) as [[a|e] s1]; simpl in *.
  - exists l1. split; assumption.
  - destruct (Hh e s1) as (l2 & E2 & F2).
    exists (l1 ++ l2). rewrite E2, E1, app_assoc. split; [reflexivity|].
    apply Forall_app. split; assumption.
Qed.

Lemma logs_for_each {A : Type} (l : list A) (body : A -> M World flow) :
  (forall x, In x l -> logs proj P (body x)) -> logs proj P (for_each l body).
Proof.
  induction l as [|x l IH]; intros H; simpl.
  - apply logs_ret.
  - apply logs_bind; [apply H; now left|]. intros [|] _.
    + apply IH. intros y Hy. apply H. now right.
    + apply logs_ret.
Qed.

End Logs.

Section LogSteps.

Context {World : Type}.

Lemma writes_emit (P : event -> Prop) (e : event) :
  P e -> logs (World := World) trace P (emit e).
Proof.
  intros H s. exists [e]. split; [reflexivity|]. constructor; [assumption|constructor].
Qed.

Lemma writes_history_append (P : event -> Prop) (m : message) :
  logs (World := World) trace P (history_append m).
Proof. apply logs_same. reflexivity. Qed.

Lemma writes_get_history (P : event -> Prop) :
  logs (World := World) trace P get_history.
Proof. apply logs_same. reflexivity. Qed.

Lemma writes_with_world (P : event -> Prop) {A : Type} (f : World -> result A * World) :
  logs trace P (with_world f).
Proof. apply logs_same. intros s. unfold with_world. now destruct (f (world s)). Qed.

Lemma appends_emit (P : message -> Prop) (e : event) :
  logs (World := World) conversation_history P (emit e).
Proof. apply logs_same. reflexivity. Qed.

Lemma appends_history_append (P : message -> Prop) (m : message) :
  P m -> logs (World := World) conversation_history P (history_append m).
Proof.
  intros H s. exists [m]. split; [reflexivity|]. constructor; [assumption|constructor].
Qed.

Lemma appends_get_history (P : message -> Prop) :
  logs (World := World) conversation_history P get_history.
Proof. apply logs_same. reflexivity. Qed.

Lemma appends_with_world (P : message -> Prop) {A : Type} (f : World -> result A * World) :
  logs conversation_history P (with_world f).
Proof. apply logs_same. intros s. unfold with_world. now destruct (f (world s)). Qed.

End LogSteps.

(** Proves [logs] of straight-line code, the condition on each new entry
    being left to [tac]. *)
Ltac logs_steps_by tac :=
  repeat first
    [ apply logs_ret | apply logs_lift | apply logs_raise | apply logs_reading
    | apply writes_history_append | apply writes_get_history | apply writes_with_world
    | apply appends_emit | apply appends_get_history | apply appends_with_world
    | apply writes_emit; solve [tac]
    | apply appends_history_append; solve [tac]
    | apply logs_for_each; intros
    | apply logs_bind; [|intros]
    | apply logs_try_except; [|intros]
    | match goal with
      | |- logs _ _ (if ?b then _ else _) => destruct b
      | |- logs _ _ (match ?x with _ => _ end) => destruct x
      | |- logs _ _ (let (_, _) := ?x in _) => destruct x
      end ].

Ltac logs_steps := logs_steps_by ltac:(first [exact I | reflexivity | auto]).

(** ** What a whole task writes to its logs *)

Section TaskLogs.

Context {World : Type} {host : Host World}.

(** The final branch of a round. *)
Lemma final_answer_logs {L : Type} (proj : state World -> list L) (P : L -> Prop)
  (content : string) (auto_confirm dry_run : bool) :
  logs proj P (_parse_llm_response content) ->
  (forall result, logs proj P (_execute_commands result auto_confirm dry_run)) ->
  logs proj P (print (LAnswer content)) ->
  logs proj P
    (result <- _parse_llm_response content ;;
     has_commands <-
       (if truthy result then lift (py_contains "commands" result) else ret false) ;;
     if has_commands then _execute_commands result auto_confirm dry_run
     else print (LAnswer content)).
Proof.
  intros Hparse Hexec Hprint.
  apply logs_bind; [apply Hparse|]. intros result _.
  apply logs_bind.
  - destruct (truthy result); [apply logs_lift|apply logs_ret].
  - intros [|] _; [apply Hexec|apply Hprint].
Qed.

(** What holds of the log entries of the parts of a task holds of the log
    entries of the task. *)
Lemma task_logs {L : Type} (proj : state World -> list L) (P : L -> Prop)
  (task_description : string) (auto_confirm dry_run : bool) :
  (forall l, logs proj P (print l)) ->
  (forall user_message,
      user_message = build_context task_description \/
      user_message = continuation_prompt ->
      logs proj P (chat user_message (Some TOOL_DEFINITIONS) false)) ->
  (forall tool_calls, logs proj P (_handle_tool_calls tool_calls)) ->
  (forall content, logs proj P (_parse_llm_response content)) ->
  (forall result, logs proj P (_execute_commands result auto_confirm dry_run)) ->
  logs proj P (execute_quick_task task_description auto_confirm dry_run).
Proof.
  intros Hprint Hchat Htools Hparse Hexec.
  unfold execute_quick_task. apply logs_bind; [apply Hprint|]. intros _ _.
  generalize (max_iterations - 0) as remaining. generalize 0 as iteration.
  intros iteration remaining. revert iteration.
  induction remaining as [|remaining IH]; intros iteration.
  - apply Hprint.
  - cbn [quick_task_loop]. apply logs_bind.
    + apply logs_try_except.
      * apply logs_bind; [|intros; apply logs_ret].
        apply Hchat. destruct (S iteration =? 1)%nat; [left|right]; reflexivity.
      * intros e. apply logs_bind; [apply Hprint|]. intros; apply logs_ret.
    + intros [response|] _; [|apply logs_ret].
      apply logs_bind; [apply logs_lift|]. intros message _.
      destruct (am_tool_calls message) as [[|tc tcs]|].
      * destruct (am_content message) as [[|c content']|];
          [apply IH|apply final_answer_logs; auto|apply IH].
      * apply logs_bind; [apply Htools|]. intros _ _. apply IH.
      * destruct (am_content message) as [[|c content']|];
          [apply IH|apply final_answer_logs; auto|apply IH].
Qed.

Lemma in_enumerate {A : Type} (l : list A) (k i : nat) (x : A) :
  In (i, x) (enumerate k l) -> In x l.
Proof.
  revert k. induction l as [|y l IH]; intros k; simpl; [tauto|].
  intros [H|H]; [injection H as _ ->; now left|right; eapply IH; eassumption].
Qed.

(** The safety loop falls through only when every command passes. *)
Lemma check_safety_passed (cmds : list json) (s : state World) :
  fst (for_each cmds check_safety s) = Ok Next -> forallb is_safe cmds = true.
Proof.
  intros H. destruct (forallb is_safe cmds) eqn:E; [reflexivity|].
  destruct (check_safety_unsafe cmds s E) as (pre & c & post & _ & _ & _ & R).
  rewrite R in H. discriminate.
Qed.

(** What [chat] writes: the pause, then the call. *)
Lemma chat_writes (P : event -> Prop) (user_message : string)
  (tools : option (list tool_definition)) (use_planning_mode : bool) :
  P (ESleep RateLimitSeconds) ->
  (forall prompt history,
      (if use_planning_mode then read_planner_prompt else Ok system_prompt) = Ok prompt ->
      P (ECompletion ([SystemMessage prompt] ++ history ++ [UserMessage user_message])
           (passed_tools tools))) ->
  logs (World := World) trace P (chat user_message tools use_planning_mode).
Proof.
  intros Hs Hc. unfold chat, completion, sleep.
  apply logs_bind; [destruct use_planning_mode; [apply logs_lift|apply logs_ret]|].
  intros prompt [s0 Hp].
  assert (Hprompt : (if use_planning_mode then read_planner_prompt else Ok system_prompt)
                    = Ok prompt) by (destruct use_planning_mode; exact Hp).
  apply logs_bind; [apply writes_get_history|]. intros history _.
  apply logs_try_except; [|intros; apply logs_raise].
  apply logs_bind; [apply writes_emit, Hs|]. intros _ _.
  apply logs_bind.
  - apply logs_bind; [|intros _ _; apply writes_with_world].
    apply writes_emit. exact (Hc prompt history Hprompt).
  - intros response _. logs_steps.
Qed.

(** What the dispatch writes: pauses, lines, and invocations of registered
    tools. *)
Lemma handle_tool_calls_writes (P : event -> Prop) (tool_calls : list tool_call) :
  (forall l, P (EPrint l)) ->
  P (ESleep ToolCallDelaySeconds) ->
  (forall function_name kwargs,
      is_tool_function function_name = true -> P (EToolCall function_name kwargs)) ->
  logs (World := World) trace P (_handle_tool_calls tool_calls).
Proof.
  intros Hprint Hsleep Hcall. unfold _handle_tool_calls.
  apply logs_bind; [|intros; apply logs_ret].
  apply logs_for_each. intros tc _. unfold handle_tool_call, sleep, print.
  apply logs_bind; [apply logs_lift|]. intros arguments _.
  apply logs_bind; [apply writes_emit, Hsleep|]. intros _ _.
  apply logs_bind; [apply writes_emit, Hprint|]. intros _ _.
  apply logs_bind; [|intros; apply logs_ret].
  destruct (is_tool_function (tc_name tc)) eqn:Hreg; [|apply writes_emit, Hprint].
  unfold add_tool_response, invoke_tool.
  apply logs_try_except.
  - apply logs_bind.
    + destruct arguments; try apply logs_raise.
      apply logs_bind; [apply writes_emit, Hcall, Hreg|]. intros _ _.
      apply logs_reading.
    + intros result _. apply logs_bind; [apply writes_emit, Hprint|].
      intros _ _. apply writes_history_append.
  - intros e. apply logs_bind; [apply writes_emit, Hprint|].
    intros _ _. apply writes_history_append.
Qed.

Lemma parse_logs {L : Type} (proj : state World -> list L) (P : L -> Prop)
  (content : string) :
  logs proj P (_parse_llm_response content).
Proof. apply logs_same. intros s. now rewrite parse_run. Qed.

(** What the display of a plan writes: lines. *)
Lemma display_plan_writes (P : event -> Prop) (result : json) :
  (forall l, P (EPrint l)) -> logs (World := World) trace P (display_plan result).
Proof. intros HP. unfold display_plan, print. logs_steps. Qed.

(** What the execution of a plan writes: lines, calls of the validator, the
    question, processes. *)
Lemma execute_commands_writes (P : event -> Prop) (result : json)
  (auto_confirm dry_run : bool) :
  (forall l, P (EPrint l)) ->
  (forall cmd, P (EValidate cmd)) ->
  (forall prompt answer, P (EInput prompt answer)) ->
  (forall argv timeout, P (ESubprocess argv timeout)) ->
  logs (World := World) trace P (_execute_commands result auto_confirm dry_run).
Proof.
  intros Hprint Hvalidate Hinput Hrun.
  unfold _execute_commands, display_plan, check_safety, ask, run_command, print.
  logs_steps.
Qed.

(** With [dry_run]: lines only. *)
Lemma execute_commands_dry_writes (P : event -> Prop) (result : json) (auto_confirm : bool) :
  (forall l, P (EPrint l)) ->
  logs (World := World) trace P (_execute_commands result auto_confirm true).
Proof.
  intros HP. unfold _execute_commands.
  apply logs_bind; [now apply display_plan_writes|].
  intros [commands requires_confirmation] _. unfold print. apply writes_emit, HP.
Qed.

(** With [auto_confirm]: no question. *)
Lemma execute_commands_auto_writes (P : event -> Prop) (result : json) (dry_run : bool) :
  (forall l, P (EPrint l)) ->
  (forall cmd, P (EValidate cmd)) ->
  (forall argv timeout, P (ESubprocess argv timeout)) ->
  logs (World := World) trace P (_execute_commands result true dry_run).
Proof.
  intros Hprint Hvalidate Hrun. unfold _execute_commands.
  apply logs_bind; [now apply display_plan_writes|].
  intros [commands requires_confirmation] _.
  destruct dry_run; [unfold print; logs_steps|].
  apply logs_bind; [apply logs_lift|]. intros cmds _.
  apply logs_bind; [unfold check_safety, print; logs_steps|].
  intros [|] _; [|apply logs_ret].
  cbn [negb]. rewrite andb_false_r.
  apply logs_bind; [apply logs_ret|]. intros [|] _; [|apply logs_ret].
  unfold run_command, print. logs_steps.
Qed.

(** The attempt of a command that passes the validator runs a vetted
    process, or none. *)
Lemma run_command_vetted (commands : json) (i : nat) (cmd : json) :
  is_safe cmd = true -> logs (World := World) trace vetted (run_command commands (i, cmd)).
Proof.
  intros Hs. unfold run_command, print.
  apply logs_bind; [logs_steps|]. intros n _.
  apply logs_bind; [logs_steps|]. intros _ _.
  apply logs_bind; [|intros; apply logs_ret].
  apply logs_try_except; [|intros; logs_steps].
  apply logs_bind; [apply logs_lift|]. intros run_cmd [s0 Hb]. simpl in Hb.
  apply logs_bind.
  - apply writes_emit. exists cmd. repeat split; assumption.
  - intros _ _. logs_steps.
Qed.

Lemma execute_commands_vetted (result : json) (auto_confirm dry_run : bool) :
  logs (World := World) trace vetted (_execute_commands result auto_confirm dry_run).
Proof.
  unfold _execute_commands.
  apply logs_bind; [apply display_plan_writes; intros; exact I|].
  intros [commands requires_confirmation] _.
  destruct dry_run; [unfold print; logs_steps|].
  apply logs_bind; [apply logs_lift|]. intros cmds _.
  apply logs_bind; [unfold check_safety, print; logs_steps|].
  intros [|] [s0 Hs0]; [|apply logs_ret].
  apply check_safety_passed in Hs0. rewrite forallb_forall in Hs0.
  apply logs_bind; [unfold ask, print; logs_steps|].
  intros [|] _; [|apply logs_ret].
  apply logs_bind; [unfold print; logs_steps|]. intros _ _.
  apply logs_bind; [unfold print; logs_steps|]. intros _ _.
  apply logs_bind; [|intros; apply logs_ret].
  apply logs_for_each. intros [i cmd] Hin.
  apply run_command_vetted, Hs0. eapply in_enumerate, Hin.
Qed.

(** X5. Every process that a task runs has, as its argument vector, the one
    built from a command that passed the Safety Validator, and is run with
    the time limit of 300 seconds; this holds whatever the backend, the
    tools and the user do and however the task ends. *)
Theorem every_process_was_vetted :
  forall (task_description : string) (auto_confirm dry_run : bool) (s : state World),
  exists evs,
    trace (snd (execute_quick_task task_description auto_confirm dry_run s))
    = trace s ++ evs /\
    forall argv timeout,
      In (ESubprocess argv timeout) evs ->
      exists cmd, is_safe cmd = true /\ build_shell_command cmd = Ok argv /\
                  timeout = 300%Z.
Proof.
  intros task_description auto_confirm dry_run s.
  destruct (task_logs trace vetted task_description auto_confirm dry_run)
    with (s := s) as (evs & E & F).
  - intros l. unfold print. apply writes_emit. exact I.
  - intros. apply chat_writes; intros; exact I.
  - intros. apply handle_tool_calls_writes; intros; exact I.
  - intros. apply parse_logs.
  - intros. apply execute_commands_vetted.
  - exists evs. split; [exact E|]. intros argv timeout Hin.
    rewrite Forall_forall in F. exact (F _ Hin).
Qed.

(** X6. A task run with [dry_run] starts no process, calls the Safety
    Validator for no command and asks the user nothing, whatever the backend
    answers and whatever the tools do, in every round of the task. *)
Theorem dry_run_task_only_talks :
  forall (task_description : string) (auto_confirm : bool) (s : state World),
  exists evs,
    trace (snd (execute_quick_task task_description auto_confirm true s))
    = trace s ++ evs /\
    Forall (fun e => is_subprocess e = false /\ is_input e = false /\
                     is_validate e = false) evs.
Proof.
  intros task_description auto_confirm s.
  apply (task_logs trace
           (fun e => is_subprocess e = false /\ is_input e = false /\
                     is_validate e = false) task_description auto_confirm true).
  - intros l. unfold print. apply writes_emit. repeat split.
  - intros. apply chat_writes; intros; repeat split.
  - intros. apply handle_tool_calls_writes; intros; repeat split.
  - intros. apply parse_logs.
  - intros. apply execute_commands_dry_writes. intros; repeat split.
Qed.

(** X7. A task run with [auto_confirm] never reads an answer from the user:
    no round of the task and no plan, whatever its [requires_confirmation]
    says, reaches the confirmation prompt. *)
Theorem auto_confirm_task_never_prompts :
  forall (task_description : string) (dry_run : bool) (s : state World),
  exists evs,
    trace (snd (execute_quick_task task_description true dry_run s))
    = trace s ++ evs /\
    Forall (fun e => is_input e = false) evs.
Proof.
  intros task_description dry_run s.
  apply (task_logs trace (fun e => is_input e = false) task_description true dry_run).
  - intros l. unfold print. apply writes_emit. reflexivity.
  - intros. apply chat_writes; intros; reflexivity.
  - intros. apply handle_tool_calls_writes; intros; reflexivity.
  - intros. apply parse_logs.
  - intros. apply execute_commands_auto_writes; intros; reflexivity.
Qed.

Lemma chat_appends (user_message : string) (tools : option (list tool_definition))
  (use_planning_mode : bool) :
  logs (World := World) conversation_history stored_turn
    (chat user_message tools use_planning_mode).
Proof. unfold chat, completion, sleep. logs_steps. Qed.

Lemma handle_tool_calls_appends (tool_calls : list tool_call) :
  logs (World := World) conversation_history stored_turn (_handle_tool_calls tool_calls).
Proof.
  unfold _handle_tool_calls, handle_tool_call, add_tool_response, invoke_tool,
    sleep, print.
  logs_steps.
Qed.

Lemma execute_commands_appends (P : message -> Prop) (result : json)
  (auto_confirm dry_run : bool) :
  logs (World := World) conversation_history P
    (_execute_commands result auto_confirm dry_run).
Proof.
  unfold _execute_commands, display_plan, check_safety, ask, run_command, print.
  logs_steps.
Qed.

(** X8. Over a whole task the conversation history only grows: the history
    at the end is the history at the start followed by the turns of the
    task, and each of these is a user, an assistant or a tool-result turn
    (the system prompt is sent with every call and never stored). *)
Theorem task_history_is_append_only :
  forall (task_description : string) (auto_confirm dry_run : bool) (s : state World),
  exists turns,
    conversation_history (snd (execute_quick_task task_description auto_confirm dry_run s))
    = conversation_history s ++ turns /\
    Forall stored_turn turns.
Proof.
  intros task_description auto_confirm dry_run s.
  apply (task_logs conversation_history stored_turn task_description auto_confirm dry_run).
  - intros l. unfold print. apply appends_emit.
  - intros. apply chat_appends.
  - intros. apply handle_tool_calls_appends.
  - intros. apply parse_logs.
  - intros. apply execute_commands_appends.
Qed.

(** X9. The only tools that a task invokes are those of [TOOL_FUNCTIONS]: a
    request of the model that names anything else invokes nothing, in any
    round and whatever the other requests are. *)
Theorem task_invokes_registered_tools_only :
  forall (task_description : string) (auto_confirm dry_run : bool) (s : state World),
  exists evs,
    trace (snd (execute_quick_task task_description auto_confirm dry_run s))
    = trace s ++ evs /\
    forall function_name kwargs,
      In (EToolCall function_name kwargs) evs -> In function_name TOOL_FUNCTIONS.
Proof.
  intros task_description auto_confirm dry_run s.
  destruct (task_logs trace registered_call task_description auto_confirm dry_run)
    with (s := s) as (evs & E & F).
  - intros l. unfold print. apply writes_emit. exact I.
  - intros. apply chat_writes; intros; exact I.
  - intros. apply handle_tool_calls_writes; intros; [exact I|exact I|assumption].
  - intros. apply parse_logs.
  - intros. apply execute_commands_writes; intros; exact I.
  - exists evs. split; [exact E|]. intros function_name kwargs Hin.
    rewrite Forall_forall in F. specialize (F _ Hin). simpl in F.
    unfold is_tool_function in F. apply existsb_exists in F.
    destruct F as (name & Hname & Heq). apply String.eqb_eq in Heq. now subst.
Qed.

(** X10. Every call of the backend that a task makes carries the system
    prompt as its first message, the context of the task or the fixed
    continuation prompt as its last, and the whole of [TOOL_DEFINITIONS]. *)
Theorem task_calls_carry_prompt_and_tools :
  forall (task_description : string) (auto_confirm dry_run : bool) (s : state World),
  exists evs,
    trace (snd (execute_quick_task task_description auto_confirm dry_run s))
    = trace s ++ evs /\
    forall messages tools,
      In (ECompletion messages tools) evs ->
      tools = Some TOOL_DEFINITIONS /\
      exists history user_message,
        messages = SystemMessage system_prompt :: history ++ [UserMessage user_message] /\
        (user_message = build_context task_description \/
         user_message = "Continue with the task."%string).
Proof.
  intros task_description auto_confirm dry_run s.
  destruct (task_logs trace (task_call task_description) task_description
              auto_confirm dry_run) with (s := s) as (evs & E & F).
  - intros l. unfold print. apply writes_emit. exact I.
  - intros user_message Hum. apply chat_writes; [exact I|].
    intros prompt history Hp. injection Hp as <-.
    split; [reflexivity|]. exists history, user_message. split; [reflexivity|exact Hum].
  - intros. apply handle_tool_calls_writes; intros; exact I.
  - intros. apply parse_logs.
  - intros. apply execute_commands_writes; intros; exact I.
  - exists evs. split; [exact E|]. intros messages tools Hin.
    rewrite Forall_forall in F. exact (F _ Hin).
Qed.

End TaskLogs.

(** ** What the rounds of a task ask *)

Section Asked.

Context {World : Type} {host : Host World}.

Lemma asked_app (a b : list event) : asked (a ++ b) = asked a ++ asked b.
Proof.
  induction a as [|e a IH]; [reflexivity|].
  destruct e; simpl; rewrite IH; reflexivity.
Qed.

Lemma asked_quiet (evs : list event) :
  Forall (fun e => is_completion e = false) evs -> asked evs = [].
Proof.
  induction 1 as [|e evs He _ IH]; [reflexivity|].
  destruct e; simpl in *; try assumption. discriminate.
Qed.

Lemma last_sent (prompt user_message : string) (s : state World) (d : message) :
  last (sent_messages prompt s user_message) d = UserMessage user_message.
Proof.
  unfold sent_messages. rewrite app_assoc. apply last_last.
Qed.

(** What [chat] adds to the trace, however it ends. *)
Lemma chat_trace (user_message : string) (tools : option (list tool_definition))
  (s : state World) :
  trace (snd (chat user_message tools false s))
  = trace s ++ [ESleep RateLimitSeconds;
                ECompletion (sent_messages system_prompt s user_message)
                  (passed_tools tools)].
Proof.
  unfold chat, completion, sent_messages, passed_tools. run_monad.
  destruct (litellm_completion _ _ (world s)) as [[response|e] w']; simpl.
  - destruct (choices response) as [|m rest]; simpl;
      repeat rewrite <- app_assoc; reflexivity.
  - repeat rewrite <- app_assoc; reflexivity.
Qed.

Lemma handle_tool_calls_silent (tool_calls : list tool_call) :
  logs (World := World) trace (fun e => is_completion e = false)
    (_handle_tool_calls tool_calls).
Proof. apply handle_tool_calls_writes; intros; reflexivity. Qed.

Lemma final_answer_silent (content : string) (auto_confirm dry_run : bool) :
  logs (World := World) trace (fun e => is_completion e = false)
    (result <- _parse_llm_response content ;;
     has_commands <-
       (if truthy result then lift (py_contains "commands" result) else ret false) ;;
     if has_commands then _execute_commands result auto_confirm dry_run
     else print (LAnswer content)).
Proof.
  apply final_answer_logs.
  - apply parse_logs.
  - intros. apply execute_commands_writes; intros; reflexivity.
  - unfold print. apply writes_emit. reflexivity.
Qed.

(** The rounds that are left ask first for the task, if this is the first
    round, and from then on with the continuation prompt. *)
Lemma quick_task_loop_asks (remaining iteration : nat) (context : string)
  (auto_confirm dry_run : bool) (s : state World) :
  exists evs,
    trace (snd (quick_task_loop remaining iteration context auto_confirm dry_run s))
    = trace s ++ evs /\
    match remaining with
    | O => asked evs = []
    | S r =>
        exists k, k <= r /\
          asked evs
          = UserMessage (if (S iteration =? 1)%nat then context else continuation_prompt)
            :: repeat (UserMessage continuation_prompt) k
    end.
Proof.
  revert iteration s. induction remaining as [|remaining IH]; intros iteration s.
  - exists [EPrint LMaxIterations]. cbn [quick_task_loop]. rewrite print_run.
    split; reflexivity.
  - set (user_message := if (S iteration =? 1)%nat then context else continuation_prompt).
    set (call := [ESleep RateLimitSeconds;
                  ECompletion (sent_messages system_prompt s user_message)
                    (passed_tools (Some TOOL_DEFINITIONS))]).
    assert (Hcall : asked call = [UserMessage user_message])
      by (unfold call; cbn [asked]; now rewrite last_sent).
    (* a round that ends the task *)
    assert (Hstop : forall (m : M World unit) (s1 : state World),
               logs trace (fun e => is_completion e = false) m ->
               trace s1 = trace s ++ call ->
               exists evs,
                 trace (snd (m s1)) = trace s ++ evs /\
                 exists k, k <= remaining /\
                   asked evs = UserMessage user_message
                               :: repeat (UserMessage continuation_prompt) k).
    { intros m s1 Hm T1. destruct (Hm s1) as (l & E & F).
      exists (call ++ l). rewrite E, T1, <- app_assoc. split; [reflexivity|].
      exists 0. split; [lia|]. rewrite asked_app, Hcall, (asked_quiet l F). reflexivity. }
    (* a round that is followed by the next *)
    assert (Hnext : forall (s2 : state World) (l : list event),
               trace s2 = trace s ++ call ++ l ->
               Forall (fun e => is_completion e = false) l ->
               exists evs,
                 trace (snd (quick_task_loop remaining (S iteration) context
                               auto_confirm dry_run s2)) = trace s ++ evs /\
                 exists k, k <= remaining /\
                   asked evs = UserMessage user_message
                               :: repeat (UserMessage continuation_prompt) k).
    { intros s2 l T2 F. destruct (IH (S iteration) s2) as (evs & E & A).
      exists (call ++ l ++ evs). rewrite E, T2, <- !app_assoc. split; [reflexivity|].
      rewrite !asked_app, Hcall, (asked_quiet l F). simpl.
      destruct remaining as [|r].
      - exists 0. split; [lia|]. now rewrite A.
      - destruct A as (k & Hk & A). exists (S k). split; [lia|]. now rewrite A. }
    cbn [quick_task_loop].
    change (if (S iteration =? 1)%nat then context else "Continue with the task."%string)
      with user_message.
    pose proof (chat_trace user_message (Some TOOL_DEFINITIONS) s) as T1. fold call in T1.
    rewrite bind_run. unfold try_except at 1. rewrite bind_run.
    destruct (chat user_message (Some TOOL_DEFINITIONS) false s) as [[response|e] s1];
      cbn [snd] in T1; cbv beta iota.
    + rewrite ret_run; cbv beta iota. rewrite bind_run, lift_run.
      destruct (index (choices response) 0) as [message|e]; cbv beta iota.
      * destruct (am_tool_calls message) as [[|tc tcs]|].
        -- destruct (am_content message) as [[|c content']|].
           ++ apply (Hnext s1 []); [now rewrite app_nil_r|constructor].
           ++ apply Hstop; [apply final_answer_silent|exact T1].
           ++ apply (Hnext s1 []); [now rewrite app_nil_r|constructor].
        -- rewrite bind_run.
           destruct (handle_tool_calls_silent (tc :: tcs) s1) as (l & E & F).
           destruct (_handle_tool_calls (tc :: tcs) s1) as [[[]|e] s2];
             cbn [snd] in E; cbv beta iota.
           ++ apply (Hnext s2 l); [now rewrite E, T1, <- app_assoc|exact F].
           ++ exists (call ++ l). cbn [snd]. rewrite E, T1, <- app_assoc.
              split; [reflexivity|]. exists 0. split; [lia|].
              rewrite asked_app, Hcall, (asked_quiet l F). reflexivity.
        -- destruct (am_content message) as [[|c content']|].
           ++ apply (Hnext s1 []); [now rewrite app_nil_r|constructor].
           ++ apply Hstop; [apply final_answer_silent|exact T1].
           ++ apply (Hnext s1 []); [now rewrite app_nil_r|constructor].
      * exists call. cbn [snd]. split; [exact T1|]. exists 0. split; [lia|].
        rewrite Hcall. reflexivity.
    + rewrite bind_run, print_run; cbv beta iota. rewrite ret_run; cbv beta iota.
      rewrite ret_run. cbn [snd add_trace trace].
      exists (call ++ [EPrint (LLLMError e)]). rewrite T1, <- app_assoc.
      split; [reflexivity|]. exists 0. split; [lia|]. rewrite asked_app, Hcall. reflexivity.
Qed.

(** X11. The first call of the backend in a task ends with the context of
    the task as user message; every later call, of which there are at most
    nine, ends with the fixed continuation prompt, the task not being sent
    again. *)
Theorem first_the_task_then_the_continuation :
  forall (task_description : string) (auto_confirm dry_run : bool) (s : state World),
  exists evs k,
    trace (snd (execute_quick_task task_description auto_confirm dry_run s))
    = trace s ++ evs /\
    k <= 9 /\
    asked evs
    = UserMessage (build_context task_description)
      :: repeat (UserMessage "Continue with the task.") k.
Proof.
  intros task_description auto_confirm dry_run s.
  unfold execute_quick_task. change (max_iterations - 0) with (S 9).
  rewrite bind_run, print_run; cbv beta iota.
  destruct (quick_task_loop_asks (S 9) 0 (build_context task_description)
              auto_confirm dry_run (add_trace s [EPrint (LTask task_description)]))
    as (evs & E & k & Hk & A).
  exists (EPrint (LTask task_description) :: evs), k.
  rewrite E. cbn [trace add_trace]. rewrite <- app_assoc.
  split; [reflexivity|]. split; [exact Hk|exact A].
Qed.

End Asked.

(** ** The conversation session: edges and compositions *)

Section Session.

Context {World : Type} {host : Host World}.

(** X12. When the backend answers with a response that holds no choice,
    [chat] has already appended the user turn: it raises the wrapped
    [IndexError] and leaves in the history a user turn that no assistant
    turn follows. *)
Theorem empty_choices_leave_a_dangling_turn :
  forall (user_message : string) (tools : option (list tool_definition))
         (use_planning_mode : bool) (prompt : string) (s : state World)
         (response : response) (w' : World),
    (if use_planning_mode then read_planner_prompt else Ok system_prompt) = Ok prompt ->
    litellm_completion (sent_messages prompt s user_message) (passed_tools tools) (world s)
    = (Ok response, w') ->
    choices response = [] ->
    chat user_message tools use_planning_mode s
    = (Raise (Exn "Exception" "LiteLLM error: list index out of range"),
       {| conversation_history := conversation_history s ++ [UserMessage user_message];
          world := w';
          trace := trace s ++ [ESleep RateLimitSeconds;
                               ECompletion (sent_messages prompt s user_message)
                                 (passed_tools tools)] |}).
Proof.
  intros user_message tools use_planning_mode prompt s response w' Hp E Hc.
  unfold chat, completion. unfold sent_messages, passed_tools in *.
  rewrite bind_run.
  assert (Hprompt : (if use_planning_mode then lift read_planner_prompt else ret system_prompt) s
                    = (Ok prompt, s)).
  { destruct use_planning_mode; [rewrite lift_run|rewrite ret_run]; congruence. }
  rewrite Hprompt; cbv beta iota. run_monad. simpl in E. rewrite E. simpl.
  rewrite Hc. simpl. repeat rewrite <- app_assoc. reflexivity.
Qed.

(** X13. In planning mode the planner prompt is read before anything else
    and outside the [try]: when it cannot be read the error leaves [chat] as
    it is, not wrapped, and nothing has happened - no pause, no call, no
    turn; when it can, it takes the place of the system prompt in the call,
    and the history gets the same two turns as in quick mode. *)
Theorem planning_mode_reads_its_prompt_first :
  forall (user_message : string) (tools : option (list tool_definition)) (s : state World),
    (forall e, read_planner_prompt = Raise e ->
               chat user_message tools true s = (Raise e, s)) /\
    (forall prompt m rest w',
        read_planner_prompt = Ok prompt ->
        litellm_completion (sent_messages prompt s user_message) (passed_tools tools)
          (world s) = (Ok {| choices := m :: rest |}, w') ->
        chat user_message tools true s
        = (Ok {| choices := m :: rest |},
           {| conversation_history :=
                conversation_history s ++ [UserMessage user_message; assistant_turn m];
              world := w';
              trace := trace s ++ [ESleep RateLimitSeconds;
                                   ECompletion
                                     (SystemMessage prompt
                                      :: conversation_history s ++ [UserMessage user_message])
                                     (passed_tools tools)] |})).
Proof.
  intros user_message tools s. split.
  - intros e E. unfold chat. now rewrite bind_run, lift_run, E.
  - intros prompt m rest w' Hp E.
    unfold chat, completion, assistant_turn. unfold sent_messages, passed_tools in *.
    rewrite bind_run, lift_run, Hp; cbv beta iota.
    run_monad. simpl in E. rewrite E. simpl.
    repeat rewrite <- app_assoc. reflexivity.
Qed.

(** X14. A call of [chat] that follows an answered one sends the whole
    conversation: the messages of the first call, the assistant turn that
    answered it, and the new user message. *)
Theorem second_call_sends_the_conversation :
  forall (first second : string) (tools tools' : option (list tool_definition))
         (s : state World) (m : assistant_message) (rest : list assistant_message)
         (w' : World),
    litellm_completion (sent_messages system_prompt s first) (passed_tools tools) (world s)
    = (Ok {| choices := m :: rest |}, w') ->
    let s1 := snd (chat first tools false s) in
    trace (snd (chat second tools' false s1))
    = trace s1 ++
      [ESleep RateLimitSeconds;
       ECompletion (sent_messages system_prompt s first ++
                    [assistant_turn m; UserMessage second])
         (passed_tools tools')].
Proof.
  intros first second tools tools' s m rest w' E s1. subst s1.
  rewrite chat_trace. rewrite (chat_answered first tools s m rest w' E).
  unfold sent_messages. cbn [snd conversation_history trace].
  repeat rewrite <- app_assoc. reflexivity.
Qed.

(** X15. After [reset_conversation] nothing of what was said is sent again:
    the next call carries the system prompt and the new user message only,
    whatever the history held; the world and the trace are not touched by
    the reset. *)
Theorem reset_forgets_the_conversation :
  forall (user_message : string) (tools : option (list tool_definition)) (s : state World),
    let s0 := snd (reset_conversation s) in
    conversation_history s0 = [] /\ world s0 = world s /\ trace s0 = trace s /\
    trace (snd (chat user_message tools false s0))
    = trace s ++
      [ESleep RateLimitSeconds;
       ECompletion [SystemMessage system_prompt; UserMessage user_message]
         (passed_tools tools)].
Proof.
  intros user_message tools s s0. subst s0.
  split; [reflexivity|]. split; [reflexivity|]. split; [reflexivity|].
  rewrite chat_trace. reflexivity.
Qed.

End Session.

(** ** Tool dispatch: a request that does not decode *)

Section DispatchStops.

Context {World : Type} {host : Host World}.

(** X16. The dispatch stops at the first request whose arguments do not
    decode: the decoding error leaves [_handle_tool_calls]; the requests
    before it have been handled, and their Tool Results are in the history;
    for the request itself and for every request after it nothing is done,
    not even a pause: the state is the one the requests before it left. *)
Theorem dispatch_stops_at_the_first_undecodable_request :
  forall (before after : list tool_call) (tc : tool_call) (e : exn) (s : state World),
    (forall tc', In tc' before ->
                 exists arguments, json_loads (tc_arguments tc') = Ok arguments) ->
    json_loads (tc_arguments tc) = Raise e ->
    fst (_handle_tool_calls before s) = Ok tt /\
    _handle_tool_calls (before ++ tc :: after) s
    = (Raise e, snd (_handle_tool_calls before s)) /\
    conversation_history (snd (_handle_tool_calls (before ++ tc :: after) s))
    = conversation_history s ++ flat_map (result_messages (world s)) before.
Proof.
  intros before after tc e s Hdec Hbad.
  destruct (handle_tool_calls_decoded before s Hdec) as (evs & R & _).
  unfold _handle_tool_calls.
  rewrite !bind_run, R; cbv beta iota. rewrite ret_run. cbn [fst snd].
  rewrite (for_each_app before (tc :: after) handle_tool_call s _ R).
  rewrite for_each_cons, (handle_tool_call_undecoded tc _ e Hbad).
  split; [reflexivity|]. split; reflexivity.
Qed.

End DispatchStops.

(** ** The safety gate fails fast *)

Section FailFast.

Context {World : Type} {host : Host World}.

Lemma check_safety_first_unsafe (pre post : list json) (c : json) (s : state World) :
  forallb is_safe pre = true -> is_safe c = false ->
  for_each (pre ++ c :: post) check_safety s
  = (Ok Return,
     add_trace s (map EValidate pre ++
                  [EValidate c; EPrint (LSafetyFailed (reason (validate_command_safety c)))])).
Proof.
  intros Hpre Hc.
  rewrite (for_each_app pre (c :: post) check_safety s _ (check_safety_all_safe pre s Hpre)).
  rewrite for_each_cons. unfold check_safety at 1.
  rewrite bind_run, emit_run; cbv beta iota.
  unfold is_safe in Hc. rewrite Hc. cbn [negb].
  rewrite bind_run, print_run; cbv beta iota. rewrite ret_run; cbv beta iota.
  rewrite !add_trace_app. reflexivity.
Qed.

(** X17. The safety gate fails fast: for a plan whose first unsafe command
    is [c], after the display the Safety Validator is called for the
    commands up to [c], in the order of the plan, and for no command after
    it; the reason given for [c] is printed and the execution returns
    normally, with or without [auto_confirm], the world untouched. *)
Theorem validation_stops_at_the_first_unsafe_command :
  forall (items : list (string * json)) (pre post : list json) (c : json)
         (auto_confirm : bool) (s : state World),
    displayable (JObj items) = true ->
    plan_commands (JObj items) = pre ++ c :: post ->
    forallb is_safe pre = true ->
    is_safe c = false ->
    _execute_commands (JObj items) auto_confirm false s
    = (Ok tt,
       add_trace s
         (map EPrint (plan_lines (JObj items)) ++
          map EValidate pre ++
          [EValidate c; EPrint (LSafetyFailed (reason (validate_command_safety c)))])).
Proof.
  intros items pre post c auto_confirm s D E Hpre Hc.
  unfold _execute_commands.
  rewrite bind_run, (display_plan_run items s D); cbv beta iota.
  rewrite bind_run, lift_run, (displayable_commands items D); cbv beta iota.
  rewrite E. rewrite bind_run, (check_safety_first_unsafe pre post c _ Hpre Hc); cbv beta iota.
  rewrite ret_run, add_trace_app. reflexivity.
Qed.

End FailFast.

(** ** The round that ends a task *)

Section FinalRound.

Context {World : Type} {host : Host World}.

(** A first round whose response asks for no tool and has content: the
    content is parsed, and what follows depends on the parsed value only. *)
Lemma round_with_final_content (remaining : nat) (context : string)
  (auto_confirm dry_run : bool) (s : state World)
  (m : assistant_message) (rest : list assistant_message) (w' : World)
  (c : ascii) (content' : string) (v : json) :
  litellm_completion (sent_messages system_prompt s context)
    (passed_tools (Some TOOL_DEFINITIONS)) (world s)
  = (Ok {| choices := m :: rest |}, w') ->
  am_tool_calls m = None \/ am_tool_calls m = Some [] ->
  am_content m = Some (String c content') ->
  fst (_parse_llm_response (String c content') s) = Ok v ->
  quick_task_loop (S remaining) 0 context auto_confirm dry_run s
  = (has_commands <-
       (if truthy v then lift (py_contains "commands" v) else ret false) ;;
     if has_commands then _execute_commands v auto_confirm dry_run
     else print (LAnswer (String c content')))
      (after_first_call s context m w' []).
Proof.
  intros E Htc Hc Hv. rewrite parse_run in Hv. cbn [fst] in Hv. injection Hv as Hv.
  cbn [quick_task_loop Nat.eqb].
  rewrite bind_run. unfold try_except at 1. rewrite bind_run.
  rewrite (chat_answered context (Some TOOL_DEFINITIONS) s m rest w' E); cbv beta iota.
  rewrite ret_run; cbv beta iota.
  rewrite bind_run, lift_run; cbn [choices index nth_error]; cbv beta iota.
  destruct Htc as [Htc|Htc]; rewrite Htc, Hc;
    rewrite bind_run, parse_run, Hv; cbv beta iota; reflexivity.
Qed.

Lemma task_with_final_content (task_description : string)
  (auto_confirm dry_run : bool) (s : state World)
  (m : assistant_message) (rest : list assistant_message) (w' : World)
  (c : ascii) (content' : string) (v : json) :
  litellm_completion (sent_messages system_prompt s (build_context task_description))
    (passed_tools (Some TOOL_DEFINITIONS)) (world s)
  = (Ok {| choices := m :: rest |}, w') ->
  am_tool_calls m = None \/ am_tool_calls m = Some [] ->
  am_content m = Some (String c content') ->
  fst (_parse_llm_response (String c content') s) = Ok v ->
  execute_quick_task task_description auto_confirm dry_run s
  = (has_commands <-
       (if truthy v then lift (py_contains "commands" v) else ret false) ;;
     if has_commands then _execute_commands v auto_confirm dry_run
     else print (LAnswer (String c content')))
      (after_first_call s (build_context task_description) m w'
         [EPrint (LTask task_description)]).
Proof.
  intros E Htc Hc Hv.
  unfold execute_quick_task. change (max_iterations - 0) with (S 9).
  rewrite bind_run, print_run; cbv beta iota.
  assert (Hv' : fst (_parse_llm_response (String c content')
                       (add_trace s [EPrint (LTask task_description)])) = Ok v)
    by (rewrite parse_run in *; exact Hv).
  rewrite (round_with_final_content 9 _ auto_confirm dry_run
             (add_trace s [EPrint (LTask task_description)]) m rest w' c content' v
             E Htc Hc Hv').
  unfold after_first_call, add_trace. cbn [conversation_history world trace].
  rewrite app_nil_l, <- app_assoc. reflexivity.
Qed.

(** X4. A first response without tool calls whose content is not empty and
    is parsed to no plan - to [None] because nothing in it decodes, to a
    value that is false (an empty dict, list or str, zero, [false],
    [null]), or to a dict, list or str that does not contain [commands] -
    is a conversational answer: the content is displayed as it is and the
    task ends normally after the one call of the backend, the user turn and
    the assistant turn having been appended to the history. *)
Theorem free_form_answer_is_displayed :
  forall (task_description : string) (auto_confirm dry_run : bool) (s : state World)
         (m : assistant_message) (rest : list assistant_message) (w' : World)
         (c : ascii) (content' : string) (v : json),
    litellm_completion (sent_messages system_prompt s (build_context task_description))
      (passed_tools (Some TOOL_DEFINITIONS)) (world s)
    = (Ok {| choices := m :: rest |}, w') ->
    am_tool_calls m = None \/ am_tool_calls m = Some [] ->
    am_content m = Some (String c content') ->
    fst (_parse_llm_response (String c content') s) = Ok v ->
    truthy v = false \/ py_contains "commands" v = Ok false ->
    execute_quick_task task_description auto_confirm dry_run s
    = (Ok tt,
       {| conversation_history :=
            conversation_history s ++
            [UserMessage (build_context task_description); assistant_turn m];
          world := w';
          trace :=
            trace s ++
            [EPrint (LTask task_description);
             ESleep RateLimitSeconds;
             ECompletion (sent_messages system_prompt s (build_context task_description))
               (passed_tools (Some TOOL_DEFINITIONS));
             EPrint (LAnswer (String c content'))] |}).
Proof.
  intros task_description auto_confirm dry_run s m rest w' c content' v
    E Htc Hc Hv Hno.
  rewrite (task_with_final_content task_description auto_confirm dry_run s m rest w'
             c content' v E Htc Hc Hv).
  assert (Hhas : (if truthy v then lift (py_contains "commands" v) else ret false)
                   (after_first_call s (build_context task_description) m w'
                      [EPrint (LTask task_description)])
                 = (Ok false,
                    after_first_call s (build_context task_description) m w'
                      [EPrint (LTask task_description)])).
  { destruct (truthy v).
    - destruct Hno as [Hno|Hno]; [discriminate|]. now rewrite lift_run, Hno.
    - now rewrite ret_run. }
  rewrite bind_run, Hhas; cbv beta iota. rewrite print_run.
  unfold add_trace, after_first_call. cbn [conversation_history world trace].
  repeat rewrite <- app_assoc. reflexivity.
Qed.

(** X18. A first response without tool calls whose content is parsed to a
    dict with the key [commands] ends the loop: the task is what
    [_execute_commands] does with that dict, with the flags of the task, in
    the state that the one call of the backend left - the task line printed,
    the user turn and the assistant turn appended; no second call is made. *)
Theorem plan_in_first_response_is_executed :
  forall (task_description : string) (auto_confirm dry_run : bool) (s : state World)
         (m : assistant_message) (rest : list assistant_message) (w' : World)
         (c : ascii) (content' : string) (items : list (string * json)) (commands : json),
    litellm_completion (sent_messages system_prompt s (build_context task_description))
      (passed_tools (Some TOOL_DEFINITIONS)) (world s)
    = (Ok {| choices := m :: rest |}, w') ->
    am_tool_calls m = None \/ am_tool_calls m = Some [] ->
    am_content m = Some (String c content') ->
    fst (_parse_llm_response (String c content') s) = Ok (JObj items) ->
    dict_lookup "commands" items = Some commands ->
    execute_quick_task task_description auto_confirm dry_run s
    = _execute_commands (JObj items) auto_confirm dry_run
        {| conversation_history :=
             conversation_history s ++
             [UserMessage (build_context task_description); assistant_turn m];
           world := w';
           trace :=
             trace s ++
             [EPrint (LTask task_description);
              ESleep RateLimitSeconds;
              ECompletion (sent_messages system_prompt s (build_context task_description))
                (passed_tools (Some TOOL_DEFINITIONS))] |}.
Proof.
  intros task_description auto_confirm dry_run s m rest w' c content' items commands
    E Htc Hc Hv Hl.
  rewrite (task_with_final_content task_description auto_confirm dry_run s m rest w'
             c content' (JObj items) E Htc Hc Hv).
  destruct items as [|item items']; [discriminate|].
  cbn [truthy]. rewrite bind_run, lift_run. cbn [py_contains]. rewrite Hl.
  reflexivity.
Qed.

(** X19. A first response without tool calls whose content is parsed to a
    value that is true but cannot be searched - a number other than zero, or
    [true] - makes the task raise: the [TypeError] of
    ['commands' in result] is caught nowhere.  The two turns of the round
    are in the history; nothing is displayed but the task. *)
Theorem unsearchable_answer_raises :
  forall (task_description : string) (auto_confirm dry_run : bool) (s : state World)
         (m : assistant_message) (rest : list assistant_message) (w' : World)
         (c : ascii) (content' : string) (v : json) (e : exn),
    litellm_completion (sent_messages system_prompt s (build_context task_description))
      (passed_tools (Some TOOL_DEFINITIONS)) (world s)
    = (Ok {| choices := m :: rest |}, w') ->
    am_tool_calls m = None \/ am_tool_calls m = Some [] ->
    am_content m = Some (String c content') ->
    fst (_parse_llm_response (String c content') s) = Ok v ->
    truthy v = true ->
    py_contains "commands" v = Raise e ->
    exn_class e = "TypeError" /\
    execute_quick_task task_description auto_confirm dry_run s
    = (Raise e,
       {| conversation_history :=
            conversation_history s ++
            [UserMessage (build_context task_description); assistant_turn m];
          world := w';
          trace :=
            trace s ++
            [EPrint (LTask task_description);
             ESleep RateLimitSeconds;
             ECompletion (sent_messages system_prompt s (build_context task_description))
               (passed_tools (Some TOOL_DEFINITIONS))] |}).
Proof.
  intros task_description auto_confirm dry_run s m rest w' c content' v e
    E Htc Hc Hv Ht He.
  split.
  - destruct v; simpl in He; try discriminate; injection He as <-; reflexivity.
  - rewrite (task_with_final_content task_description auto_confirm dry_run s m rest w'
               c content' v E Htc Hc Hv).
    rewrite Ht, bind_run, lift_run, He. reflexivity.
Qed.

(** X20. A first response without tool calls whose content is parsed to a
    str that contains the word commands, or to a list that holds the str
    commands, is taken for a plan, and the task raises the
    [AttributeError] of [result.get], which only a dict has; nothing of a
    plan is displayed. *)
Theorem answer_that_is_no_dict_raises :
  forall (task_description : string) (auto_confirm dry_run : bool) (s : state World)
         (m : assistant_message) (rest : list assistant_message) (w' : World)
         (c : ascii) (content' : string) (v : json),
    litellm_completion (sent_messages system_prompt s (build_context task_description))
      (passed_tools (Some TOOL_DEFINITIONS)) (world s)
    = (Ok {| choices := m :: rest |}, w') ->
    am_tool_calls m = None \/ am_tool_calls m = Some [] ->
    am_content m = Some (String c content') ->
    fst (_parse_llm_response (String c content') s) = Ok v ->
    py_contains "commands" v = Ok true ->
    (forall items, v <> JObj items) ->
    exists e,
      exn_class e = "AttributeError" /\
      execute_quick_task task_description auto_confirm dry_run s
      = (Raise e,
         {| conversation_history :=
              conversation_history s ++
              [UserMessage (build_context task_description); assistant_turn m];
            world := w';
            trace :=
              trace s ++
              [EPrint (LTask task_description);
               ESleep RateLimitSeconds;
               ECompletion (sent_messages system_prompt s (build_context task_description))
                 (passed_tools (Some TOOL_DEFINITIONS))] |}).
Proof.
  intros task_description auto_confirm dry_run s m rest w' c content' v
    E Htc Hc Hv Hin Hnodict.
  exists (Exn "AttributeError" "object has no attribute 'get'").
  split; [reflexivity|].
  rewrite (task_with_final_content task_description auto_confirm dry_run s m rest w'
             c content' v E Htc Hc Hv).
  assert (Ht : truthy v = true).
  { destruct v as [| | | |str|l|items]; simpl in Hin; try discriminate.
    - destruct str; [discriminate|reflexivity].
    - destruct l; [discriminate|reflexivity].
    - destruct (Hnodict items eq_refl). }
  rewrite Ht, bind_run, lift_run, Hin; cbv beta iota.
  unfold _execute_commands, display_plan. rewrite !bind_run, lift_run.
  destruct v as [| | | |str|l|items]; try reflexivity.
  destruct (Hnodict items eq_refl).
Qed.

End FinalRound.

(** ** Responses that say nothing *)

Section Silence.

Context {World : Type} {host : Host World}.

Lemma silent_loop (remaining iteration : nat) (context : string)
  (auto_confirm dry_run : bool) (s : state World) :
  always_says_nothing ->
  exists s' evs,
    quick_task_loop remaining iteration context auto_confirm dry_run s = (Ok tt, s') /\
    trace s' = trace s ++ evs ++ [EPrint LMaxIterations] /\
    List.length (filter is_completion evs) = remaining /\
    filter is_print evs = [] /\
    List.length (conversation_history s')
    = List.length (conversation_history s) + 2 * remaining.
Proof.
  intros Hb. revert iteration s. induction remaining as [|remaining IH]; intros iteration s.
  - exists (add_trace s [EPrint LMaxIterations]), []. cbn [quick_task_loop].
    rewrite print_run. simpl. repeat split. lia.
  - cbn [quick_task_loop].
    set (user_message := if (S iteration =? 1)%nat then context
                         else "Continue with the task."%string).
    destruct (Hb (sent_messages system_prompt s user_message)
                (passed_tools (Some TOOL_DEFINITIONS)) (world s))
      as (m & rest & Ea & Htc & Hc).
    destruct (litellm_completion (sent_messages system_prompt s user_message)
                (passed_tools (Some TOOL_DEFINITIONS)) (world s)) as [r w'] eqn:El.
    simpl in Ea. subst r.
    pose proof (chat_answered user_message (Some TOOL_DEFINITIONS) s m rest w' El) as Hchat.
    remember {| conversation_history :=
                  conversation_history s ++ [UserMessage user_message; assistant_turn m];
                world := w';
                trace := trace s ++ [ESleep RateLimitSeconds;
                                     ECompletion (sent_messages system_prompt s user_message)
                                       (passed_tools (Some TOOL_DEFINITIONS))] |} as s1 eqn:Es1.
    destruct (IH (S iteration) s1) as (s' & evs & Rl & Tl & Cl & Pl & Hl).
    exists s', ([ESleep RateLimitSeconds;
                 ECompletion (sent_messages system_prompt s user_message)
                   (passed_tools (Some TOOL_DEFINITIONS))] ++ evs).
    split; [|split; [|split; [|split]]].
    + rewrite bind_run. unfold try_except at 1. rewrite bind_run, Hchat; cbv beta iota.
      rewrite ret_run; cbv beta iota.
      rewrite bind_run, lift_run; cbn [choices index nth_error]; cbv beta iota.
      destruct Htc as [-> | ->]; destruct Hc as [-> | ->]; exact Rl.
    + rewrite Tl, Es1. cbn [trace]. repeat rewrite <- app_assoc. reflexivity.
    + simpl. now rewrite Cl.
    + simpl. exact Pl.
    + rewrite Hl, Es1. cbn [conversation_history]. rewrite length_app. simpl. lia.
Qed.

(** X21. A response that asks for no tool and has no content is no answer:
    the loop asks again.  When every response is such, the task ends
    normally after exactly ten calls of the backend, having displayed the
    task line and the notice of the maximum only, and the history has
    grown by ten user turns and ten assistant turns. *)
Theorem empty_responses_are_asked_again :
  always_says_nothing ->
  forall (task_description : string) (auto_confirm dry_run : bool) (s : state World),
  exists evs,
    fst (execute_quick_task task_description auto_confirm dry_run s) = Ok tt /\
    trace (snd (execute_quick_task task_description auto_confirm dry_run s))
    = trace s ++ EPrint (LTask task_description) :: evs ++ [EPrint LMaxIterations] /\
    List.length (filter is_completion evs) = 10 /\
    filter is_print evs = [] /\
    List.length
      (conversation_history (snd (execute_quick_task task_description auto_confirm dry_run s)))
    = List.length (conversation_history s) + 20.
Proof.
  intros Hb task_description auto_confirm dry_run s.
  unfold execute_quick_task. rewrite bind_run, print_run; cbv beta iota.
  destruct (silent_loop (max_iterations - 0) 0 (build_context task_description)
              auto_confirm dry_run (add_trace s [EPrint (LTask task_description)]) Hb)
    as (s' & evs & R & T & C & Pr & H).
  exists evs. rewrite R. cbn [fst snd].
  split; [reflexivity|]. split; [|split; [exact C|split; [exact Pr|exact H]]].
  rewrite T. cbn [trace add_trace]. rewrite <- app_assoc. reflexivity.
Qed.

End Silence.

(** ** The response parser: a block that is not closed *)

Section OpenBlock.

Context {World : Type} {host : Host World}.

Lemma starts_with_shorter (a b s : string) :
  starts_with (a ++ b)%string s = true -> starts_with a s = true.
Proof.
  unfold starts_with. revert s. induction a as [|c a IH]; intros s H.
  - now destruct s.
  - destruct s as [|d s]; simpl in *; [discriminate|].
    destruct (ascii_dec c d); [|discriminate]. now apply IH.
Qed.

(** A text without [a] is without [a ++ b]. *)
Lemma str_find_longer (a b s : string) :
  str_find a s = None -> str_find (a ++ b)%string s = None.
Proof.
  induction s as [|c s IH]; cbn [str_find]; intros H.
  - destruct (starts_with a "") eqn:Ea; [discriminate|].
    destruct (starts_with (a ++ b) "") eqn:Eab; [|reflexivity].
    apply starts_with_shorter in Eab. congruence.
  - destruct (starts_with a (String c s)) eqn:Ea; [discriminate|].
    destruct (starts_with (a ++ b) (String c s)) eqn:Eab.
    + apply starts_with_shorter in Eab. congruence.
    + destruct (str_find a s); [discriminate|]. now rewrite IH.
Qed.

(** X22. A block that is opened and never closed is read to the end of the
    text: when the first labeled fence (or, in a text without labeled
    fence, the first fence) is followed by a body without any fence, and
    the body decodes, the parser returns the decoded body. *)
Theorem unclosed_block_is_read_to_the_end :
  forall (labeled : bool) (pre body : string) (plan : json) (s : state World),
    let opening := if labeled then fence_json else fence in
    let content := (pre ++ opening ++ body)%string in
    (labeled = false -> str_in fence_json content = false) ->
    str_find opening content = Some (String.length pre) ->
    str_find fence body = None ->
    json_loads (strip body) = Ok plan ->
    _parse_llm_response content s = (Ok plan, s).
Proof.
  intros labeled pre body plan s opening content Hunl Hfirst Hopen Hplan.
  rewrite parse_run. unfold candidate. subst opening content.
  assert (Hbody : first_piece fence body = body)
    by (unfold first_piece; now rewrite Hopen).
  destruct labeled.
  - rewrite (str_in_find _ _ _ Hfirst).
    rewrite (block_after_find fence_json _ _ ltac:(discriminate) Hfirst).
    rewrite str_drop_add, !str_drop_app.
    unfold first_piece at 2.
    change fence_json with (fence ++ "json")%string.
    rewrite (str_find_longer fence "json" body Hopen).
    now rewrite Hbody, Hplan.
  - rewrite (Hunl eq_refl), (str_in_find _ _ _ Hfirst).
    rewrite (block_after_find fence _ _ ltac:(discriminate) Hfirst).
    rewrite str_drop_add, !str_drop_app.
    unfold first_piece at 2. rewrite Hopen.
    now rewrite Hbody, Hplan.
Qed.

End OpenBlock.

(** ** The page *)

Section PageFacts.

Context {World : Type} {host : Host World}.

Variable llm_client_init : result unit.
Variable execute_long_task : string -> bool -> bool -> M World unit.

Lemma lstrip_blank (s : string) :
  (forall c, In c (list_ascii_of_string s) -> isspace c = true) -> lstrip s = ""%string.
Proof.
  induction s as [|c s IH]; intros H; [reflexivity|].
  cbn [lstrip]. rewrite (H c) by (now left). apply IH.
  intros d Hd. apply H. now right.
Qed.

(** X23. A task description that is empty or holds white space only is
    refused by the page: it shows the warning, and nothing else happens -
    no client is made, no task is run, in either mode. *)
Theorem blank_description_is_refused :
  forall (task_description : string) (use_long auto_confirm dry_run : bool) (w : World),
    (forall c, In c (list_ascii_of_string task_description) -> isspace c = true) ->
    on_run llm_client_init execute_long_task task_description use_long auto_confirm dry_run w
    = (StWarning "Please enter a task description.", w).
Proof.
  intros task_description use_long auto_confirm dry_run w H.
  unfold on_run, strip. rewrite (lstrip_blank task_description H). reflexivity.
Qed.

(** The first thing that a quick task writes is the task line. *)
Lemma quick_task_begins_with_the_task_line (task_description : string)
  (auto_confirm dry_run : bool) (s : state World) :
  exists evs,
    trace (snd (execute_quick_task task_description auto_confirm dry_run s))
    = trace s ++ EPrint (LTask task_description) :: evs.
Proof.
  unfold execute_quick_task. rewrite bind_run, print_run; cbv beta iota.
  destruct (quick_task_loop_asks (max_iterations - 0) 0 (build_context task_description)
              auto_confirm dry_run (add_trace s [EPrint (LTask task_description)]))
    as (evs & E & _).
  exists evs. rewrite E. cbn [trace add_trace]. now rewrite <- app_assoc.
Qed.

(** X24. In quick mode, for a description that is not blank, the page
    shows either the captured output of the task, which begins with the
    task line of the stripped description, or - when the client could not
    be made or the task raised - that exception; it never shows the notice
    that no output was returned. *)
Theorem quick_mode_shows_output_or_error :
  forall (task_description : string) (auto_confirm dry_run : bool) (w : World),
    strip task_description <> ""%string ->
    let shown := fst (on_run llm_client_init execute_long_task task_description
                        false auto_confirm dry_run w) in
    let task := execute_quick_task (strip task_description) auto_confirm dry_run
                  {| conversation_history := []; world := w; trace := [] |} in
    (forall e, llm_client_init = Raise e -> shown = StError e) /\
    (forall u e, llm_client_init = Ok u -> fst task = Raise e -> shown = StError e) /\
    (forall u, llm_client_init = Ok u -> fst task = Ok tt ->
       exists rest,
         shown = StCode (EPrint (LTask (strip task_description)) :: rest) /\
         EPrint (LTask (strip task_description)) :: rest
         = filter captured (trace (snd task))).
Proof.
  intros task_description auto_confirm dry_run w Hne shown task. subst shown task.
  apply String.eqb_neq in Hne. unfold on_run, run_task. rewrite Hne.
  destruct (quick_task_begins_with_the_task_line (strip task_description)
              auto_confirm dry_run
              {| conversation_history := []; world := w; trace := [] |}) as (evs & T).
  destruct (execute_quick_task (strip task_description) auto_confirm dry_run
              {| conversation_history := []; world := w; trace := [] |})
    as [[[]|e0] s'].
  - cbn [fst snd] in *. split; [|split].
    + intros e ->. reflexivity.
    + intros u e _ H. discriminate.
    + intros u -> _. rewrite T. simpl. eexists. split; reflexivity.
  - cbn [fst snd] in *. split; [|split].
    + intros e ->. reflexivity.
    + intros u e -> H. injection H as <-. reflexivity.
    + intros u _ H. discriminate.
Qed.

End PageFacts.

(** ** One outcome for a task *)

Section OneOutcome.

Context {World : Type} {host : Host World}.

Variable p : event -> bool.

Hypothesis p_sleep : forall d, p (ESleep d) = false.
Hypothesis p_completion : forall messages tools, p (ECompletion messages tools) = false.
Hypothesis p_tool_call : forall function_name kwargs, p (EToolCall function_name kwargs) = false.
Hypothesis p_print :
  forall l, p (EPrint l) = true -> l = LCommandsHeader \/ exists content, l = LAnswer content.

Lemma p_other_line (l : line) :
  match l with LCommandsHeader | LAnswer _ => False | _ => True end -> p (EPrint l) = false.
Proof.
  intros H. destruct (p (EPrint l)) eqn:E; [|reflexivity].
  destruct (p_print l E) as [->|[content ->]]; destruct H.
Qed.

Lemma chat_adds_none (user_message : string) (tools : option (list tool_definition)) :
  adds_at_most p 0 (chat user_message tools false).
Proof.
  unfold chat, completion, sleep.
  repeat first
    [ apply adds_ret | apply adds_lift | apply adds_raise
    | apply adds_history_append | apply adds_get_history | apply adds_with_world
    | apply adds_emit; first [apply p_sleep|apply p_completion]
    | apply adds_bind_quiet; [|intros]
    | apply (adds_try_except _ 0 0); [|intros] ].
Qed.

Lemma handle_tool_calls_adds_none (tool_calls : list tool_call) :
  adds_at_most p 0 (_handle_tool_calls tool_calls).
Proof.
  unfold _handle_tool_calls, handle_tool_call, add_tool_response, invoke_tool,
    print, sleep.
  repeat first
    [ apply adds_ret | apply adds_lift | apply adds_raise
    | apply adds_history_append | apply adds_reading
    | apply adds_emit;
      first [apply p_sleep|apply p_tool_call|apply p_other_line; exact I]
    | apply adds_for_each; intros
    | apply adds_bind_quiet; [|intros]
    | apply (adds_try_except _ 0 0); [|intros]
    | match goal with
      | |- adds_at_most _ _ (if ?b then _ else _) => destruct b
      | |- adds_at_most _ _ (match ?x with _ => _ end) => destruct x
      end ].
Qed.

(** If the final branch of a round adds at most one step that [p] accepts,
    so does the whole loop. *)
Lemma quick_task_loop_adds_once (remaining iteration : nat) (context : string)
  (auto_confirm dry_run : bool) :
  (forall content,
      adds_at_most p 1
        (result <- _parse_llm_response content ;;
         has_commands <-
           (if truthy result then lift (py_contains "commands" result) else ret false) ;;
         if has_commands then _execute_commands result auto_confirm dry_run
         else print (LAnswer content))) ->
  adds_at_most p 1 (quick_task_loop remaining iteration context auto_confirm dry_run).
Proof.
  intros Hfinal. revert iteration. induction remaining as [|remaining IH]; intros iteration.
  - cbn [quick_task_loop]. unfold print. apply (adds_weaken _ 0); [lia|].
    apply adds_emit, p_other_line. exact I.
  - cbn [quick_task_loop].
    apply (adds_bind _ 0 1).
    + apply (adds_try_except _ 0 0).
      * apply adds_bind_quiet; [apply chat_adds_none|intros; apply adds_ret].
      * intros e. unfold print. apply adds_bind_quiet; [|intros; apply adds_ret].
        apply adds_emit, p_other_line. exact I.
    + intros [response|]; [|apply (adds_weaken _ 0); [lia|apply adds_ret]].
      apply (adds_bind _ 0 1); [apply adds_lift|]. intros message.
      destruct (am_tool_calls message) as [[|tc tcs]|].
      * destruct (am_content message) as [[|c content']|]; try apply IH. apply Hfinal.
      * apply (adds_bind _ 0 1); [apply handle_tool_calls_adds_none|].
        intros _. apply IH.
      * destruct (am_content message) as [[|c content']|]; try apply IH. apply Hfinal.
Qed.

Lemma quick_task_adds_once (task_description : string) (auto_confirm dry_run : bool) :
  (forall content,
      adds_at_most p 1
        (result <- _parse_llm_response content ;;
         has_commands <-
           (if truthy result then lift (py_contains "commands" result) else ret false) ;;
         if has_commands then _execute_commands result auto_confirm dry_run
         else print (LAnswer content))) ->
  adds_at_most p 1 (execute_quick_task task_description auto_confirm dry_run).
Proof.
  intros Hfinal. unfold execute_quick_task.
  apply (adds_bind _ 0 1).
  - unfold print. apply adds_emit, p_other_line. exact I.
  - intros _. now apply quick_task_loop_adds_once.
Qed.

End OneOutcome.

Section OneOutcomeOfATask.

Context {World : Type} {host : Host World}.

Lemma display_plan_adds_one_header (result : json) :
  adds_at_most (World := World) (fun e => is_plan_header e || is_answer e) 1
    (display_plan result).
Proof.
  unfold display_plan, print.
  do 6 (apply (adds_bind _ 0 1); [quiet|intros]).
  apply (adds_bind _ 1 0); [apply adds_emit_one|intros; quiet].
Qed.

Lemma execute_commands_adds_one_header (result : json) (auto_confirm dry_run : bool) :
  adds_at_most (World := World) (fun e => is_plan_header e || is_answer e) 1
    (_execute_commands result auto_confirm dry_run).
Proof.
  unfold _execute_commands.
  apply (adds_bind _ 1 0); [apply display_plan_adds_one_header|].
  intros [commands requires_confirmation].
  unfold check_safety, ask, run_command, print. quiet.
Qed.

Lemma execute_commands_adds_one_question (result : json) (auto_confirm dry_run : bool) :
  adds_at_most (World := World) is_input 1 (_execute_commands result auto_confirm dry_run).
Proof.
  unfold _execute_commands.
  apply (adds_bind _ 0 1); [unfold display_plan, print; quiet|].
  intros [commands requires_confirmation].
  destruct dry_run; [apply (adds_weaken _ 0); [lia|unfold print; quiet]|].
  apply (adds_bind _ 0 1); [quiet|]. intros cmds.
  apply (adds_bind _ 0 1); [unfold check_safety, print; quiet|].
  intros [|]; [|apply (adds_weaken _ 0); [lia|quiet]].
  apply (adds_bind _ 1 0).
  - destruct (truthy requires_confirmation && negb auto_confirm);
      [|apply (adds_weaken _ 0); [lia|quiet]].
    apply (adds_bind _ 1 0).
    + unfold ask. apply (adds_bind _ 0 1); [quiet|]. intros answer.
      apply (adds_bind _ 1 0); [apply adds_emit_one|intros; quiet].
    + intros response. unfold print. quiet.
  - intros [|]; [|quiet]. unfold run_command, print. quiet.
Qed.

(** X25. A task has one outcome at most: over a whole task at most one plan
    is displayed or one conversational answer, never both and never two of
    either; and the user is asked for confirmation at most once. *)
Theorem task_has_one_outcome :
  forall (task_description : string) (auto_confirm dry_run : bool) (s : state World),
    let t' := trace (snd (execute_quick_task task_description auto_confirm dry_run s)) in
    List.length (filter (fun e => is_plan_header e || is_answer e) t')
    <= List.length (filter (fun e => is_plan_header e || is_answer e) (trace s)) + 1 /\
    List.length (filter is_input t') <= List.length (filter is_input (trace s)) + 1.
Proof.
  intros task_description auto_confirm dry_run s t'. subst t'. split.
  - apply (quick_task_adds_once (fun e => is_plan_header e || is_answer e)).
    + reflexivity.
    + reflexivity.
    + reflexivity.
    + intros l H. destruct l; try discriminate; [right; eexists; reflexivity|now left].
    + intros content.
      apply (adds_bind _ 0 1); [apply adds_weaken with (n := 0); [lia|]|].
      * intros s0. rewrite parse_run. simpl. lia.
      * intros result. apply (adds_bind _ 0 1); [quiet|]. intros [|].
        -- apply execute_commands_adds_one_header.
        -- unfold print. apply adds_emit_one.
  - apply (quick_task_adds_once is_input).
    + reflexivity.
    + reflexivity.
    + reflexivity.
    + intros l H. discriminate.
    + intros content.
      apply (adds_bind _ 0 1); [apply adds_weaken with (n := 0); [lia|]|].
      * intros s0. rewrite parse_run. simpl. lia.
      * intros result. apply (adds_bind _ 0 1); [quiet|]. intros [|].
        -- apply execute_commands_adds_one_question.
        -- unfold print. apply adds_emit_one.
Qed.

End OneOutcomeOfATask.

(** ** Concrete runs at the edges *)

Section EdgeChecks.

Import Scenario.

(** A response without choice: the user turn stays in the history. *)
Lemma empty_choices_witness :
  chat (host := Demo.host Edge.backend_without_choice "n") "hello" None false Demo.start
  = (Raise (Exn "Exception" "LiteLLM error: list index out of range"),
     {| conversation_history := [UserMessage "hello"];
        world := [];
        trace := [ESleep RateLimitSeconds;
                  ECompletion [SystemMessage "You are a command-line assistant.";
                               UserMessage "hello"] None] |}).
Proof.
  exact (empty_choices_leave_a_dangling_turn
           (host := Demo.host Edge.backend_without_choice "n")
           "hello" None false "You are a command-line assistant." Demo.start
           {| choices := [] |} [] eq_refl eq_refl eq_refl).
Defined.

(** Two calls in a row: the second carries the first exchange. *)
Lemma second_call_witness :
  trace (snd (chat (host := Demo.host (backend_answering "Use ls.") "n") "and then?" None false
                (snd (chat (host := Demo.host (backend_answering "Use ls.") "n")
                        "list files" None false Demo.start))))
  = trace (snd (chat (host := Demo.host (backend_answering "Use ls.") "n")
                  "list files" None false Demo.start)) ++
    [ESleep RateLimitSeconds;
     ECompletion [SystemMessage "You are a command-line assistant.";
                  UserMessage "list files";
                  AssistantMessage "Use ls." None;
                  UserMessage "and then?"] None].
Proof.
  exact (second_call_sends_the_conversation
           (host := Demo.host (backend_answering "Use ls.") "n")
           "list files" "and then?" None None Demo.start
           {| am_content := Some "Use ls."; am_tool_calls := None |} [] [] eq_refl).
Defined.

(** A request that decodes, one that does not, and one more: the first is
    answered, the task of the dispatch ends there. *)
Lemma dispatch_stops_witness :
  fst (_handle_tool_calls (host := host_n) [known_call; malformed_call; failing_call]
         Demo.start)
  = Raise (Exn "JSONDecodeError" "Expecting value") /\
  conversation_history
    (snd (_handle_tool_calls (host := host_n) [known_call; malformed_call; failing_call]
            Demo.start))
  = [ToolMessage "call_1" "check_file_exists" (Demo.jtext "{'ok': true, 'runs': 0}")].
Proof.
  assert (D : forall tc, In tc [known_call] ->
                         exists arguments,
                           json_loads (Host := host_n) (tc_arguments tc) = Ok arguments).
  { intros tc [<-|[]]. eexists. vm_compute. reflexivity. }
  assert (B : json_loads (Host := host_n) (tc_arguments malformed_call)
              = Raise (Exn "JSONDecodeError" "Expecting value"))
    by (vm_compute; reflexivity).
  destruct (dispatch_stops_at_the_first_undecodable_request (host := host_n)
              [known_call] [failing_call] malformed_call _ Demo.start D B)
    as (_ & R & H).
  split.
  - change ([known_call; malformed_call; failing_call])
      with ([known_call] ++ malformed_call :: [failing_call]).
    rewrite R. reflexivity.
  - exact H.
Defined.

(** Three commands, the second unsafe: the third is never validated. *)
Lemma validation_stops_witness :
  filter is_validate
    (trace (snd (_execute_commands (host := host_n) (JObj plan_unsafe) true false Demo.start)))
  = [EValidate (JStr "ls"); EValidate (JStr "rm -rf /")].
Proof.
  rewrite (validation_stops_at_the_first_unsafe_command (host := host_n)
             plan_unsafe [JStr "ls"] [JStr "pwd"] (JStr "rm -rf /") true Demo.start
             eq_refl eq_refl eq_refl eq_refl).
  reflexivity.
Defined.

(** The backend answers with a plan in a labeled block: the plan is
    executed. *)
Lemma plan_in_first_response_witness :
  attempts
    (trace (snd (execute_quick_task (host := Demo.host (backend_answering text_with_block) "n")
                   "list files" true false Demo.start)))
  = [(1, JStr "ls -la")].
Proof.
  assert (E : litellm_completion (Host := Demo.host (backend_answering text_with_block) "n")
                (sent_messages
                   (system_prompt (Host := Demo.host (backend_answering text_with_block) "n"))
                   Demo.start
                   (build_context (host := Demo.host (backend_answering text_with_block) "n")
                      "list files"))
                (passed_tools (Some TOOL_DEFINITIONS)) (world Demo.start)
              = (Ok {| choices := [{| am_content := Some text_with_block;
                                      am_tool_calls := None |}] |}, []))
    by (vm_compute; reflexivity).
  assert (Hv : fst (_parse_llm_response
                      (host := Demo.host (backend_answering text_with_block) "n")
                      (String "R" (str_drop 1 text_with_block)) Demo.start)
               = Ok (JObj [("commands", JArr [JStr "ls -la"])]))
    by (vm_compute; reflexivity).
  rewrite (plan_in_first_response_is_executed
             (host := Demo.host (backend_answering text_with_block) "n")
             "list files" true false Demo.start _ _ _ "R" (str_drop 1 text_with_block)
             [("commands", JArr [JStr "ls -la"])] (JArr [JStr "ls -la"])
             E (or_introl eq_refl) eq_refl Hv eq_refl).
  vm_compute. reflexivity.
Defined.

(** The backend answers with an empty list of tool calls and a JSON object
    that is no plan: the content is displayed. *)
Lemma free_form_answer_witness :
  execute_quick_task (host := Demo.host (Demo.backend_saying Edge.chatty_message) "n")
    "list files" false false Demo.start
  = (Ok tt,
     {| conversation_history :=
          [UserMessage
             (build_context (host := Demo.host (Demo.backend_saying Edge.chatty_message) "n")
                "list files");
           AssistantMessage Edge.chatty_answer (Some [])];
        world := [];
        trace :=
          [EPrint (LTask "list files");
           ESleep RateLimitSeconds;
           ECompletion
             [SystemMessage "You are a command-line assistant.";
              UserMessage
                (build_context
                   (host := Demo.host (Demo.backend_saying Edge.chatty_message) "n")
                   "list files")]
             (Some TOOL_DEFINITIONS);
           EPrint (LAnswer Edge.chatty_answer)] |}).
Proof.
  assert (E : litellm_completion
                (Host := Demo.host (Demo.backend_saying Edge.chatty_message) "n")
                (sent_messages
                   (system_prompt
                      (Host := Demo.host (Demo.backend_saying Edge.chatty_message) "n"))
                   Demo.start
                   (build_context
                      (host := Demo.host (Demo.backend_saying Edge.chatty_message) "n")
                      "list files"))
                (passed_tools (Some TOOL_DEFINITIONS)) (world Demo.start)
              = (Ok {| choices := [Edge.chatty_message] |}, []))
    by (vm_compute; reflexivity).
  assert (Hv : fst (_parse_llm_response
                      (host := Demo.host (Demo.backend_saying Edge.chatty_message) "n")
                      (String "{" (str_drop 1 Edge.chatty_answer)) Demo.start)
               = Ok (JObj [("answer", JStr "Use ls.")]))
    by (vm_compute; reflexivity).
  exact (free_form_answer_is_displayed
           (host := Demo.host (Demo.backend_saying Edge.chatty_message) "n")
           "list files" false false Demo.start Edge.chatty_message [] []
           "{" (str_drop 1 Edge.chatty_answer) (JObj [("answer", JStr "Use ls.")])
           E (or_intror eq_refl) eq_refl Hv (or_intror eq_refl)).
Defined.

(** The backend answers [42]: the task raises. *)
Lemma unsearchable_answer_witness :
  fst (execute_quick_task (host := Demo.host (backend_answering Edge.number_answer) "n")
         "list files" false false Demo.start)
  = Raise (Exn "TypeError" "argument is not iterable").
Proof.
  assert (E : litellm_completion
                (Host := Demo.host (backend_answering Edge.number_answer) "n")
                (sent_messages
                   (system_prompt (Host := Demo.host (backend_answering Edge.number_answer) "n"))
                   Demo.start
                   (build_context (host := Demo.host (backend_answering Edge.number_answer) "n")
                      "list files"))
                (passed_tools (Some TOOL_DEFINITIONS)) (world Demo.start)
              = (Ok {| choices := [{| am_content := Some "42"; am_tool_calls := None |}] |}, []))
    by (vm_compute; reflexivity).
  assert (Hv : fst (_parse_llm_response
                      (host := Demo.host (backend_answering Edge.number_answer) "n")
                      "42" Demo.start)
               = Ok (JInt 42))
    by (vm_compute; reflexivity).
  destruct (unsearchable_answer_raises
              (host := Demo.host (backend_answering Edge.number_answer) "n")
              "list files" false false Demo.start _ _ _ "4" "2" (JInt 42)
              (Exn "TypeError" "argument is not iterable")
              E (or_introl eq_refl) eq_refl Hv eq_refl eq_refl) as [_ R].
  rewrite R. reflexivity.
Defined.

(** The backend answers with a JSON string that holds the word: the task
    raises. *)
Lemma answer_that_is_no_dict_witness :
  exists e,
    exn_class e = "AttributeError" /\
    fst (execute_quick_task (host := Demo.host (backend_answering Edge.word_answer) "n")
           "list files" false false Demo.start)
    = Raise e.
Proof.
  assert (E : litellm_completion
                (Host := Demo.host (backend_answering Edge.word_answer) "n")
                (sent_messages
                   (system_prompt (Host := Demo.host (backend_answering Edge.word_answer) "n"))
                   Demo.start
                   (build_context (host := Demo.host (backend_answering Edge.word_answer) "n")
                      "list files"))
                (passed_tools (Some TOOL_DEFINITIONS)) (world Demo.start)
              = (Ok {| choices := [{| am_content := Some Edge.word_answer;
                                      am_tool_calls := None |}] |}, []))
    by (vm_compute; reflexivity).
  assert (Hv : fst (_parse_llm_response
                      (host := Demo.host (backend_answering Edge.word_answer) "n")
                      (String Demo.dquote (str_drop 1 Edge.word_answer)) Demo.start)
               = Ok (JStr "Run the commands below."))
    by (vm_compute; reflexivity).
  destruct (answer_that_is_no_dict_raises
              (host := Demo.host (backend_answering Edge.word_answer) "n")
              "list files" false false Demo.start _ _ _
              Demo.dquote (str_drop 1 Edge.word_answer) (JStr "Run the commands below.")
              E (or_introl eq_refl) eq_refl Hv eq_refl
              ltac:(intros items; discriminate)) as (e & He & R).
  exists e. split; [exact He|]. rewrite R. reflexivity.
Defined.

(** The backend says nothing, ten times. *)
Lemma empty_responses_witness :
  fst (execute_quick_task (host := Demo.host Edge.backend_silent "n")
         "list files" false false Demo.start) = Ok tt /\
  List.length
    (conversation_history
       (snd (execute_quick_task (host := Demo.host Edge.backend_silent "n")
               "list files" false false Demo.start)))
  = 20.
Proof.
  assert (H : always_says_nothing (host := Demo.host Edge.backend_silent "n")).
  { intros messages tools w.
    exists {| am_content := None; am_tool_calls := None |}, [].
    split; [reflexivity|]. split; left; reflexivity. }
  destruct (empty_responses_are_asked_again (host := Demo.host Edge.backend_silent "n") H
              "list files" false false Demo.start) as (evs & R & _ & _ & _ & L).
  split; [exact R|exact L].
Defined.

(** A labeled block that is not closed. *)
Lemma unclosed_block_witness :
  _parse_llm_response (host := host_n) Edge.text_with_open_block Demo.start
  = (Ok (JObj [("commands", JArr [JStr "ls -la"])]), Demo.start).
Proof.
  assert (Hf : str_find fence_json ("Run this: " ++ fence_json ++ Edge.open_block_body)
               = Some (String.length "Run this: "))
    by (vm_compute; reflexivity).
  assert (Ho : str_find fence Edge.open_block_body = None) by (vm_compute; reflexivity).
  assert (Hp : json_loads (Host := host_n) (strip Edge.open_block_body)
               = Ok (JObj [("commands", JArr [JStr "ls -la"])]))
    by (vm_compute; reflexivity).
  exact (unclosed_block_is_read_to_the_end (host := host_n) true "Run this: "
           Edge.open_block_body (JObj [("commands", JArr [JStr "ls -la"])]) Demo.start
           ltac:(discriminate) Hf Ho Hp).
Defined.

(** Two spaces and a line feed. *)
Lemma blank_description_witness :
  on_run (host := host_n) Edge.client_made Edge.planner_idle
    (String " " (String " " nl)) false true true []
  = (StWarning "Please enter a task description.", []).
Proof.
  apply (blank_description_is_refused (host := host_n) Edge.client_made Edge.planner_idle).
  intros c [<-|[<-|[<-|[]]]]; reflexivity.
Defined.

(** A description with spaces around it, answered in plain words. *)
Lemma quick_mode_witness :
  exists rest,
    fst (on_run (host := Demo.host (backend_answering "Use ls.") "n")
           Edge.client_made Edge.planner_idle " list files " false true true [])
    = StCode (EPrint (LTask "list files") :: rest).
Proof.
  assert (Hne : strip " list files " <> ""%string)
    by (intros H; vm_compute in H; discriminate).
  assert (Hok : fst (execute_quick_task (host := Demo.host (backend_answering "Use ls.") "n")
                       (strip " list files ") true true
                       {| conversation_history := []; world := []; trace := [] |}) = Ok tt)
    by (vm_compute; reflexivity).
  destruct (quick_mode_shows_output_or_error
              (host := Demo.host (backend_answering "Use ls.") "n")
              Edge.client_made Edge.planner_idle " list files " true true [] Hne)
    as (_ & _ & H3).
  destruct (H3 tt eq_refl Hok) as (rest & S & _).
  exists rest. exact S.
Defined.

End EdgeChecks.
